(** * The JSON repair routine of scripts/gen_prompt/tools.py

    [process_json_string] takes the raw text of a language-model reply,
    normalises it, applies a fixed sequence of textual repairs, decodes the
    result with [json.loads] and checks that the decoded value has the
    required keys.  This file embeds that function, together with the parts
    of the Python runtime it calls ([str.strip], [str.replace], [re.sub],
    [json.loads], [in], [dict.get]), and proves the properties the
    specification states about it. *)

From Stdlib Require Import String Ascii ZArith List Bool Lia.
From Stdlib Require Import Numbers.DecimalString.
Import ListNotations.
Open Scope Z_scope.
Set Warnings "-register-all".

(** ** Python strings

    A Python [str] is a sequence of Unicode code points. *)

Definition char : Type := Z.
Definition str : Type := list char.

(** Literals of the source are written as Rocq strings; the file is UTF-8,
    so a literal is decoded from its UTF-8 bytes to code points. *)
Fixpoint utf8 (bs : list Z) : str :=
  match bs with
  | [] => []
  | b0 :: t =>
      if b0 <? 128 then b0 :: utf8 t
      else if b0 <? 224 then
        match t with
        | b1 :: t1 => ((b0 - 192) * 64 + (b1 - 128)) :: utf8 t1
        | _ => []
        end
      else if b0 <? 240 then
        match t with
        | b1 :: b2 :: t2 =>
            ((b0 - 224) * 4096 + (b1 - 128) * 64 + (b2 - 128)) :: utf8 t2
        | _ => []
        end
      else
        match t with
        | b1 :: b2 :: b3 :: t3 =>
            ((b0 - 240) * 262144 + (b1 - 128) * 4096 + (b2 - 128) * 64
             + (b3 - 128)) :: utf8 t3
        | _ => []
        end
  end.

Definition py (s : string) : str :=
  utf8 (map (fun a => Z.of_N (N_of_ascii a)) (list_ascii_of_string s)).

(** The double quote, the backslash and the line feed have no convenient
    literal. *)
Definition chr (a : ascii) : char := Z.of_N (N_of_ascii a).
Arguments chr a%_char.

Definition dquote : char := 34.
Definition backslash : char := 92.
Definition newline : char := 10.

Definition str_eqb (a b : str) : bool :=
  if list_eq_dec Z.eq_dec a b then true else false.

(** [str(n)] for a non-negative integer, as an f-string field renders it. *)
Definition str_of_nat (n : nat) : str :=
  py (NilZero.string_of_uint (Nat.to_uint n)).

(** *** Character classes

    [Py_UNICODE_ISSPACE]: the characters [str.strip()] removes and the
    regular-expression class [\s] matches. *)
Definition Py_UNICODE_ISSPACE (c : char) : bool :=
  ((9 <=? c) && (c <=? 13)) || ((28 <=? c) && (c <=? 32))
  || (c =? 133) || (c =? 160) || (c =? 5760)
  || ((8192 <=? c) && (c <=? 8202))
  || (c =? 8232) || (c =? 8233) || (c =? 8239) || (c =? 8287)
  || (c =? 12288).

(** ** Slices, [strip], [startswith], [endswith], [replace] *)

(** [s[a:b]] with Python's treatment of negative and out-of-range bounds. *)
Definition slice_bound (n i : Z) : Z :=
  let j := if i <? 0 then i + n else i in
  Z.max 0 (Z.min n j).

Definition pyslice (a b : Z) (s : str) : str :=
  let n := Z.of_nat (length s) in
  let a' := slice_bound n a in
  let b' := slice_bound n b in
  firstn (Z.to_nat (b' - a')) (skipn (Z.to_nat a') s).

(** [s[:b]] *)
Definition pyslice_to (b : Z) (s : str) : str := pyslice 0 b s.

Fixpoint lstrip (s : str) : str :=
  match s with
  | [] => []
  | c :: s' => if Py_UNICODE_ISSPACE c then lstrip s' else s
  end.

Definition rstrip (s : str) : str := rev (lstrip (rev s)).

Definition strip (s : str) : str := rstrip (lstrip s).

Fixpoint prefixb (p s : str) : bool :=
  match p, s with
  | [], _ => true
  | a :: p', b :: s' => (a =? b) && prefixb p' s'
  | _ :: _, [] => false
  end.

Definition startswith (p s : str) : bool := prefixb p s.
Definition endswith (p s : str) : bool := prefixb (rev p) (rev s).

(** [s.replace(old, new)] for a non-empty [old]: occurrences are found from
    the left and do not overlap.  [skip] counts the characters of the
    occurrence just replaced that are still to be passed over. *)
Fixpoint replace_from (old new : str) (skip : nat) (s : str) : str :=
  match s with
  | [] => []
  | c :: s' =>
      match skip with
      | S k => replace_from old new k s'
      | O =>
          if prefixb old s
          then new ++ replace_from old new (Nat.pred (length old)) s'
          else c :: replace_from old new 0 s'
      end
  end.

Definition replace (old new : str) (s : str) : str :=
  replace_from old new 0 s.

(** [sub in s] for strings. *)
Fixpoint substringb (sub s : str) : bool :=
  prefixb sub s ||
  match s with
  | [] => false
  | _ :: s' => substringb sub s'
  end.

(** ** Python values and [json.loads]

    [json.loads] as CPython runs it for a [str]: the scanner of the [_json]
    module, whose structure is that of [Lib/json/decoder.py] and
    [Lib/json/scanner.py] ([scanstring], [JSONObject], [JSONArray],
    [scan_once]), with the messages and the indices it reports.  The limits
    of the interpreter (recursion depth, length of an integer literal) are
    not part of the model.

    The values: a float is kept as the text it was read from (the three
    constants NaN, Infinity and -Infinity included); a dict is the list of
    its items in insertion order, with one item per key. *)

Inductive value : Type :=
| PyNone
| PyBool (b : bool)
| PyInt (n : Z)
| PyFloat (lexeme : str)
| PyStr (s : str)
| PyList (l : list value)
| PyDict (items : list (str * value)).

(** [d[k] = v] *)
Fixpoint dict_set (d : list (str * value)) (k : str) (v : value)
  : list (str * value) :=
  match d with
  | [] => [(k, v)]
  | (k', v') :: d' =>
      if str_eqb k' k then (k', v) :: d' else (k', v') :: dict_set d' k v
  end.

Fixpoint dict_lookup (d : list (str * value)) (k : str) : option value :=
  match d with
  | [] => None
  | (k', v') :: d' => if str_eqb k' k then Some v' else dict_lookup d' k
  end.

(** [k in d] *)
Definition has_key (d : list (str * value)) (k : str) : bool :=
  match dict_lookup d k with
  | Some _ => true
  | None => false
  end.

(** The messages of the decoder. *)
Inductive decode_msg : Type :=
| Expecting_value
| Expecting_property_name
| Expecting_colon
| Expecting_comma
| Unterminated_string
| Invalid_control_character
| Invalid_escape
| Invalid_uXXXX_escape
| Extra_data
| Unexpected_BOM.

Definition msg_text (m : decode_msg) : str :=
  match m with
  | Expecting_value => py "Expecting value"
  | Expecting_property_name =>
      py "Expecting property name enclosed in double quotes"
  | Expecting_colon => py "Expecting ':' delimiter"
  | Expecting_comma => py "Expecting ',' delimiter"
  | Unterminated_string => py "Unterminated string starting at"
  | Invalid_control_character => py "Invalid control character at"
  | Invalid_escape => py "Invalid \escape"
  | Invalid_uXXXX_escape => py "Invalid \uXXXX escape"
  | Extra_data => py "Extra data"
  | Unexpected_BOM => py "Unexpected UTF-8 BOM (decode using utf-8-sig)"
  end.

(** The outcome of scanning a piece of the document: a result and the text
    after it, or a failure.  The decoder walks the document by index; here
    a position is the text that remains from it on, and a failure records
    how many characters remain from the reported position, so that the
    index is the length of the document minus that number.  [OutOfFuel]
    is the model's own: it does not occur when the fuel exceeds twice the
    length of the text (see [scan_fuel]). *)
Inductive scan (A : Type) : Type :=
| Done (a : A) (rest : str)
| Fail (m : decode_msg) (remaining : nat)
| OutOfFuel.
Arguments Done {A} a rest.
Arguments Fail {A} m remaining.
Arguments OutOfFuel {A}.

Definition scan_bind {A B : Type} (x : scan A) (f : A -> str -> scan B)
  : scan B :=
  match x with
  | Done a rest => f a rest
  | Fail m r => Fail m r
  | OutOfFuel => OutOfFuel
  end.

(** JSON whitespace: space, tab, line feed, carriage return. *)
Definition is_ws (c : char) : bool :=
  (c =? 32) || (c =? 9) || (c =? 10) || (c =? 13).

Fixpoint skip_ws (s : str) : str :=
  match s with
  | c :: s' => if is_ws c then skip_ws s' else s
  | [] => []
  end.

Definition is_digit (c : char) : bool := (48 <=? c) && (c <=? 57).

Definition hexval (c : char) : option Z :=
  if is_digit c then Some (c - 48)
  else if (97 <=? c) && (c <=? 102) then Some (c - 87)
  else if (65 <=? c) && (c <=? 70) then Some (c - 55)
  else None.

Definition hexval4 (a b c d : char) : option Z :=
  match hexval a, hexval b, hexval c, hexval d with
  | Some x, Some y, Some z, Some w => Some (((x * 16 + y) * 16 + z) * 16 + w)
  | _, _, _, _ => None
  end.

Definition is_high_surrogate (u : Z) : bool := (55296 <=? u) && (u <=? 56319).
Definition is_low_surrogate (u : Z) : bool := (56320 <=? u) && (u <=? 57343).
Definition join_surrogates (hi lo : Z) : Z :=
  65536 + ((hi - 55296) * 1024 + (lo - 56320)).

(** The one-character escapes. *)
Definition unescape (e : char) : option char :=
  if e =? dquote then Some dquote
  else if e =? backslash then Some backslash
  else if e =? chr "/" then Some (chr "/")
  else if e =? chr "b" then Some 8
  else if e =? chr "f" then Some 12
  else if e =? chr "n" then Some 10
  else if e =? chr "r" then Some 13
  else if e =? chr "t" then Some 9
  else None.

(** [scanstring]: the text is what follows the opening quote; [start] is
    the number of characters remaining from that quote on.  [acc] holds the
    decoded characters, last first. *)
Fixpoint scanstring_from (start : nat) (acc : str) (s : str) : scan str :=
  match s with
  | [] => Fail Unterminated_string start
  | c :: s1 =>
      if c =? dquote then Done (rev acc) s1
      else if c =? backslash then
        match s1 with
        | [] => Fail Unterminated_string start
        | e :: s2 =>
            if e =? chr "u" then
              match s2 with
              | h1 :: h2 :: h3 :: h4 :: ((_ :: _) as s6) =>
                  match hexval4 h1 h2 h3 h4 with
                  | None => Fail Invalid_uXXXX_escape (length s1)
                  | Some uni =>
                      if is_high_surrogate uni then
                        match s6 with
                        | b :: u :: k1 :: k2 :: k3 :: k4 :: ((_ :: _) as s12) =>
                            if (b =? backslash) && (u =? chr "u") then
                              match hexval4 k1 k2 k3 k4 with
                              | None =>
                                  Fail Invalid_uXXXX_escape (S (length s12 + 4))
                              | Some uni2 =>
                                  if is_low_surrogate uni2
                                  then scanstring_from start
                                         (join_surrogates uni uni2 :: acc) s12
                                  else scanstring_from start (uni :: acc) s6
                              end
                            else scanstring_from start (uni :: acc) s6
                        | _ => scanstring_from start (uni :: acc) s6
                        end
                      else scanstring_from start (uni :: acc) s6
                  end
              | _ => Fail Invalid_uXXXX_escape (length s1)
              end
            else
              match unescape e with
              | Some d => scanstring_from start (d :: acc) s2
              | None => Fail Invalid_escape (length s)
              end
        end
      else if c <=? 31 then Fail Invalid_control_character (length s)
      else scanstring_from start (c :: acc) s1
  end.

Definition scanstring (s : str) : scan str :=
  scanstring_from (S (length s)) [] s.

(** Numbers: an optional minus sign, an integer part without a leading
    zero, an optional fraction and an optional exponent.  A fraction or an
    exponent is taken only if it has a digit. *)
Fixpoint span_digits (s : str) : str * str :=
  match s with
  | c :: s' =>
      if is_digit c
      then let (d, r) := span_digits s' in (c :: d, r)
      else ([], s)
  | [] => ([], [])
  end.

Definition match_sign (s : str) : str * str :=
  match s with
  | c :: s' => if c =? chr "-" then ([c], s') else ([], s)
  | [] => ([], s)
  end.

Definition match_integer (s : str) : option (str * str) :=
  match s with
  | c :: s' =>
      if c =? chr "0" then Some ([c], s')
      else if is_digit c
           then let (d, r) := span_digits s' in Some (c :: d, r)
           else None
  | [] => None
  end.

Definition match_frac (s : str) : str * str :=
  match s with
  | c :: s' =>
      if c =? chr "." then
        match span_digits s' with
        | ([], _) => ([], s)
        | (d, r) => (c :: d, r)
        end
      else ([], s)
  | [] => ([], s)
  end.

Definition match_exp (s : str) : str * str :=
  match s with
  | c :: s' =>
      if (c =? chr "e") || (c =? chr "E") then
        let (sg, s'') :=
          match s' with
          | g :: t =>
              if (g =? chr "+") || (g =? chr "-") then ([g], t) else ([], s')
          | [] => ([], s')
          end in
        match span_digits s'' with
        | ([], _) => ([], s)
        | (d, r) => (c :: sg ++ d, r)
        end
      else ([], s)
  | [] => ([], s)
  end.

(** [int(text)] for a text of decimal digits with an optional sign. *)
Definition digits_value (d : str) : Z :=
  fold_left (fun acc c => acc * 10 + (c - 48)) d 0.

Definition int_of_lexeme (t : str) : Z :=
  match t with
  | c :: d => if c =? chr "-" then - digits_value d else digits_value t
  | [] => 0
  end.

Definition match_number (s : str) : option (value * str) :=
  let (sign, s1) := match_sign s in
  match match_integer s1 with
  | None => None
  | Some (digits, s2) =>
      let (frac, s3) := match_frac s2 in
      let (exp, s4) := match_exp s3 in
      match frac, exp with
      | [], [] => Some (PyInt (int_of_lexeme (sign ++ digits)), s4)
      | _, _ => Some (PyFloat (sign ++ digits ++ frac ++ exp), s4)
      end
  end.

(** [scan_once], [JSONObject] and [JSONArray].  Each call spends one unit
    of fuel. *)
Fixpoint scan_once (fuel : nat) (s : str) : scan value :=
  match fuel with
  | O => OutOfFuel
  | S fuel' =>
      match s with
      | [] => Fail Expecting_value 0
      | c :: s' =>
          if c =? dquote then
            scan_bind (scanstring s') (fun t rest => Done (PyStr t) rest)
          else if c =? chr "{" then
            match skip_ws s' with
            | c1 :: s1 =>
                if c1 =? chr "}" then Done (PyDict []) s1
                else JSONObject fuel' [] (c1 :: s1)
            | [] => Fail Expecting_property_name 0
            end
          else if c =? chr "[" then
            match skip_ws s' with
            | c1 :: s1 =>
                if c1 =? chr "]" then Done (PyList []) s1
                else JSONArray fuel' [] (c1 :: s1)
            | [] => Fail Expecting_value 0
            end
          else if prefixb (py "null") s then Done PyNone (skipn 4 s)
          else if prefixb (py "true") s then Done (PyBool true) (skipn 4 s)
          else if prefixb (py "false") s then Done (PyBool false) (skipn 5 s)
          else
            match match_number s with
            | Some (v, rest) => Done v rest
            | None =>
                if prefixb (py "NaN") s then Done (PyFloat (py "NaN")) (skipn 3 s)
                else if prefixb (py "Infinity") s
                then Done (PyFloat (py "Infinity")) (skipn 8 s)
                else if prefixb (py "-Infinity") s
                then Done (PyFloat (py "-Infinity")) (skipn 9 s)
                else Fail Expecting_value (length s)
            end
      end
  end

(** The loop of [JSONObject]: [s] is at a property name; [d] holds the
    items read so far. *)
with JSONObject (fuel : nat) (d : list (str * value)) (s : str)
  : scan value :=
  match fuel with
  | O => OutOfFuel
  | S fuel' =>
      match s with
      | c :: s1 =>
          if c =? dquote then
            scan_bind (scanstring s1) (fun key s2 =>
            match skip_ws s2 with
            | c3 :: s4 =>
                if c3 =? chr ":" then
                  scan_bind (scan_once fuel' (skip_ws s4)) (fun val s6 =>
                  let d' := dict_set d key val in
                  match skip_ws s6 with
                  | c7 :: s8 =>
                      if c7 =? chr "}" then Done (PyDict d') s8
                      else if c7 =? chr ","
                           then JSONObject fuel' d' (skip_ws s8)
                           else Fail Expecting_comma (length (c7 :: s8))
                  | [] => Fail Expecting_comma 0
                  end)
                else Fail Expecting_colon (length (c3 :: s4))
            | [] => Fail Expecting_colon 0
            end)
          else Fail Expecting_property_name (length s)
      | [] => Fail Expecting_property_name 0
      end
  end

(** The loop of [JSONArray]: [s] is at an element; [l] holds the elements
    read so far. *)
with JSONArray (fuel : nat) (l : list value) (s : str) : scan value :=
  match fuel with
  | O => OutOfFuel
  | S fuel' =>
      scan_bind (scan_once fuel' s) (fun val s2 =>
      let l' := l ++ [val] in
      match skip_ws s2 with
      | c3 :: s4 =>
          if c3 =? chr "]" then Done (PyList l') s4
          else if c3 =? chr ","
               then JSONArray fuel' l' (skip_ws s4)
               else Fail Expecting_comma (length (c3 :: s4))
      | [] => Fail Expecting_comma 0
      end)
  end.

(** [json.loads(s)] for a [str]: the value, or the message and the index
    of the [JSONDecodeError]. *)
Definition json_loads (s : str) : (decode_msg * Z) + value :=
  if startswith [65279] s then inl (Unexpected_BOM, 0)
  else
    match scan_once (S (2 * length s)) (skip_ws s) with
    | Done v rest =>
        match skip_ws rest with
        | [] => inr v
        | rest' => inl (Extra_data, Z.of_nat (length s - length rest'))
        end
    | Fail m r => inl (m, Z.of_nat (length s - r))
    | OutOfFuel => inl (Expecting_value, -1) (* excluded: [json_loads_fuel] *)
    end.

(** *** The limits of the interpreter

    [json_loads] is the decoder of an interpreter whose limits are not
    reached.  CPython raises [RecursionError] when the arrays and objects
    of a text are nested deeper than the recursion limit allows, and
    [ValueError] when an integer literal has more digits than the limit on
    the conversion of integers (4300 by default); neither is a
    [JSONDecodeError].  Here [recursion_budget] is the number of nested
    calls the interpreter still allows when the decoder starts, and
    [max_str_digits] the number of digits it converts.  A text with no more
    opening brackets and braces than the one, and with no run of more
    digits than the other, reaches neither limit, and on such a text the
    decoder does what [json_loads] does. *)
Definition opening_brackets (s : str) : nat :=
  length (filter (fun c => (c =? chr "[") || (c =? chr "{")) s).

(** The longest run of digits in [s], [cur] digits standing directly
    before it. *)
Fixpoint digit_runs (cur : nat) (s : str) : nat :=
  match s with
  | [] => cur
  | c :: s' =>
      if is_digit c then digit_runs (S cur) s'
      else Nat.max cur (digit_runs 0 s')
  end.

Definition longest_digit_run (s : str) : nat := digit_runs 0 s.

Definition within_limits (recursion_budget max_str_digits : nat) (s : str)
  : bool :=
  (opening_brackets s <=? recursion_budget)%nat
  && (longest_digit_run s <=? max_str_digits)%nat.

(** *** The grammar of JSON

    The specification speaks of texts that are syntactically valid JSON.
    The grammar of JSON has no constant for a number that is not finite;
    the decoder accepts [NaN], [Infinity] and [-Infinity] as well, and
    apart from them it accepts the texts of the grammar.  A value is
    standard when none of the three constants occurs in it. *)
Definition non_finite (lexeme : str) : bool :=
  str_eqb lexeme (py "NaN") || str_eqb lexeme (py "Infinity")
  || str_eqb lexeme (py "-Infinity").

Fixpoint standard_value (v : value) : bool :=
  match v with
  | PyFloat lexeme => negb (non_finite lexeme)
  | PyList l => forallb standard_value l
  | PyDict d => forallb (fun kv => standard_value (snd kv)) d
  | _ => true
  end.

Definition syntactically_valid_json (s : str) : bool :=
  match json_loads s with
  | inr v => standard_value v
  | inl _ => false
  end.

(** *** Vocabulary for the properties of the decoder

    A condition on the first character of a text, if it has one; the
    characters that cannot continue a number and those that can start one;
    the test [scanstring] makes on the text after an escaped high
    surrogate. *)
Definition head_ok (p : char -> bool) (s : str) : bool :=
  match s with [] => true | c :: _ => p c end.

Definition not_ws (c : char) : bool := negb (is_ws c).

Definition num_stop (c : char) : bool :=
  negb (is_digit c || (c =? chr ".") || (c =? chr "e") || (c =? chr "E")).

Definition num_head (c : char) : bool := is_digit c || (c =? chr "-").

Inductive pair_kind : Type :=
| PairJoined (uni2 : Z) (s12 : str)
| PairBadHex (s12 : str)
| PairNone.

Definition pair_test (s6 : str) : pair_kind :=
  match s6 with
  | b :: u :: k1 :: k2 :: k3 :: k4 :: ((_ :: _) as s12) =>
      if (b =? backslash) && (u =? chr "u") then
        match hexval4 k1 k2 k3 k4 with
        | None => PairBadHex s12
        | Some uni2 =>
            if is_low_surrogate uni2 then PairJoined uni2 s12 else PairNone
        end
      else PairNone
  | _ => PairNone
  end.

(** A successful scan reads a prefix of the text and does not depend on
    what follows it: with any other continuation (one that cannot extend a
    number, for [scan_once]) and any sufficient fuel the same value is
    read. *)
Definition scan_once_local (f : nat) : Prop :=
  forall s v rest,
    scan_once f s = Done v rest ->
    exists c0 pre,
      s = (c0 :: pre) ++ rest /\ is_ws c0 = false /\
      match v with
      | PyDict _ => c0 = chr "{" /\ exists pre0, pre = pre0 ++ [chr "}"]
      | _ => True
      end /\
      forall f' rest',
        (length (c0 :: pre) <= f')%nat -> head_ok num_stop rest' = true ->
        scan_once f' ((c0 :: pre) ++ rest') = Done v rest'.

Definition JSONObject_local (f : nat) : Prop :=
  forall d s v rest,
    JSONObject f d s = Done v rest ->
    exists pre,
      s = pre ++ chr "}" :: rest /\
      (exists items, v = PyDict items) /\
      forall f' rest',
        (length pre < f')%nat ->
        JSONObject f' d (pre ++ chr "}" :: rest') = Done v rest'.

Definition JSONArray_local (f : nat) : Prop :=
  forall l s v rest,
    JSONArray f l s = Done v rest ->
    exists pre,
      s = pre ++ chr "]" :: rest /\
      (exists l', v = PyList l') /\
      forall f' rest',
        (length pre < f')%nat ->
        JSONArray f' l (pre ++ chr "]" :: rest') = Done v rest'.


(** ** Exceptions *)

(** A [JSONDecodeError] object: [__init__] computes the line and the column
    from the document and the index. *)
Record JSONDecodeError_obj : Type := {
  e_msg : str;
  e_doc : str;
  e_pos : Z;
  e_lineno : Z;
  e_colno : Z
}.

(** [doc.count(c, 0, pos)] and [doc.rfind(c, 0, pos)] *)
Definition count_char (c : char) (s : str) : Z :=
  Z.of_nat (length (filter (Z.eqb c) s)).

Fixpoint rfind_from (c : char) (i : Z) (found : Z) (s : str) : Z :=
  match s with
  | [] => found
  | d :: s' => rfind_from c (i + 1) (if d =? c then i else found) s'
  end.

Definition rfind (c : char) (s : str) : Z := rfind_from c 0 (-1) s.

Definition JSONDecodeError_init (msg doc : str) (pos : Z)
  : JSONDecodeError_obj :=
  let lineno := count_char newline (pyslice_to pos doc) + 1 in
  let colno := pos - rfind newline (pyslice_to pos doc) in
  {| e_msg := msg; e_doc := doc; e_pos := pos;
     e_lineno := lineno; e_colno := colno |}.

Inductive exn : Type :=
| ValueError (message : str)
| JSONDecodeError (e : JSONDecodeError_obj)
| TypeError (message : str)
| AttributeError (message : str).

(** [str(n)] for an integer. *)
Definition str_of_Z (n : Z) : str :=
  py (NilZero.string_of_int (Z.to_int n)).

(** [repr] of a list of field names: the names are plain identifiers, so
    each is rendered between single quotes. *)
Fixpoint join_names (l : list str) : str :=
  match l with
  | [] => []
  | [a] => py "'" ++ a ++ py "'"
  | a :: l' => py "'" ++ a ++ py "', " ++ join_names l'
  end.

Definition repr_names (l : list str) : str :=
  py "[" ++ join_names l ++ py "]".

(** The three [ValueError]s of the function, under the names the
    specification gives them. *)
Definition EmptyInputError : exn :=
  ValueError (py "输入的JSON字符串为空").

Definition MissingFieldError (missing_fields : list str) : exn :=
  ValueError (py "解析后的JSON缺失关键字段：" ++ repr_names missing_fields).

Definition MissingRubricFieldError (missing_rubic : list str) : exn :=
  ValueError (py "evaluation_rubic缺失子字段：" ++ repr_names missing_rubic).

(** ** The function as a computation

    A run either returns a value or raises; the log records which of the
    five numbered steps of the source were entered, in order. *)
Inductive step : Type :=
| Step1_clean
| Step2_escapes
| Step3_format
| Step4_parse
| Step5_validate.

Definition M (A : Type) : Type := (list step * (exn + A))%type.

Definition ret {A : Type} (a : A) : M A := ([], inr a).
Definition raise {A : Type} (e : exn) : M A := ([], inl e).
Definition enter (st : step) : M unit := ([st], inr tt).
Definition bind {A B : Type} (x : M A) (f : A -> M B) : M B :=
  match x with
  | (log, inl e) => (log, inl e)
  | (log, inr a) => let (log', r) := f a in (log ++ log', r)
  end.

Notation "x <- c1 ;; c2" := (bind c1 (fun x => c2))
  (at level 61, c1 at next level, right associativity).
Notation "c1 ;; c2" := (bind c1 (fun _ => c2))
  (at level 61, right associativity).

Definition steps {A : Type} (x : M A) : list step := fst x.
Definition outcome {A : Type} (x : M A) : exn + A := snd x.

(** *** [in] and [dict.get] *)

Definition type_name (v : value) : str :=
  match v with
  | PyNone => py "NoneType"
  | PyBool _ => py "bool"
  | PyInt _ => py "int"
  | PyFloat _ => py "float"
  | PyStr _ => py "str"
  | PyList _ => py "list"
  | PyDict _ => py "dict"
  end.

(** [x == y] for a string [x]. *)
Definition str_eq_value (x : str) (y : value) : bool :=
  match y with
  | PyStr t => str_eqb x t
  | _ => false
  end.

(** [f in container] for a string [f]: a key of a dict, an element of a
    list, a substring of a string; other values are not containers. *)
Definition contains (container : value) (f : str) : M bool :=
  match container with
  | PyDict d => ret (has_key d f)
  | PyList l => ret (existsb (str_eq_value f) l)
  | PyStr t => ret (substringb f t)
  | v => raise (TypeError (py "argument of type '" ++ type_name v
                           ++ py "' is not iterable"))
  end.

(** [[f for f in fields if f not in container]] *)
Fixpoint not_in (fields : list str) (container : value) : M (list str) :=
  match fields with
  | [] => ret []
  | f :: fields' =>
      b <- contains container f ;;
      rest <- not_in fields' container ;;
      ret (if b then rest else f :: rest)
  end.

(** [obj.get(key, default)] *)
Definition py_get (obj : value) (key : str) (default : value) : M value :=
  match obj with
  | PyDict d =>
      ret (match dict_lookup d key with Some v => v | None => default end)
  | v => raise (AttributeError (py "'" ++ type_name v
                                ++ py "' object has no attribute 'get'"))
  end.

(** *** Steps 4 and 5 *)

(** Lines 51-61. *)
Definition Parser (fix_str : str) : M value :=
  match json_loads fix_str with
  | inr json_data => ret json_data
  | inl (m, p) =>
      let e := JSONDecodeError_init (msg_text m) fix_str p in
      let error_msg :=
        py "JSON解析失败！" ++ [newline]
        ++ py "错误位置：行" ++ str_of_Z (e_lineno e)
        ++ py "，列" ++ str_of_Z (e_colno e)
        ++ py "（字符位置" ++ str_of_Z (e_pos e) ++ py "）" ++ [newline]
        ++ py "错误原因：" ++ e_msg e ++ [newline]
        ++ py "修复后的字符串前500字符：" ++ [newline]
        ++ pyslice_to 500 fix_str ++ py "..." in
      raise (JSONDecodeError (JSONDecodeError_init error_msg (e_doc e) (e_pos e)))
  end.

(** Lines 64-76. *)
Definition required_fields : list str :=
  [py "generation_prompt"; py "evaluation_rubic"; py "manual"].

Definition rubic_fields : list str :=
  [py "pc_rubic"; py "cmp_rubic"; py "slr_rubic"; py "clr_rubic";
   py "ri_rubic"].

Definition SchemaValidator (json_data : value) : M value :=
  missing_fields <- not_in required_fields json_data ;;
  match missing_fields with
  | _ :: _ => raise (MissingFieldError missing_fields)
  | [] =>
      rubic_data <- py_get json_data (py "evaluation_rubic") (PyDict []) ;;
      missing_rubic <- not_in rubic_fields rubic_data ;;
      match missing_rubic with
      | _ :: _ => raise (MissingRubricFieldError missing_rubic)
      | [] => ret json_data
      end
  end.

(** A text is trimmed when neither its first nor its last character is
    white space. *)
Definition trimmed (s : str) : Prop :=
  lstrip s = s /\ lstrip (rev s) = rev s.

(** ** Regular expressions

    The fragment of Python's [re] syntax the program uses: single-character
    atoms (a literal, a set, the classes [\s], [\d], [\w]), greedy
    repetition of an atom, concatenation, numbered capturing groups and a
    one-character negative look-behind.  Matching is by backtracking, and
    the candidates are listed in the order the engine tries them, so the
    match [re] reports is the first candidate. *)

Inductive charclass : Type :=
| CLit (c : char)            (* a literal character *)
| CSet (cs : str)            (* [...] *)
| CSpace                     (* \s *)
| CDigit                     (* \d *)
| CWord.                     (* \w *)

Inductive regex : Type :=
| Atom (k : charclass)
| Star (k : charclass)               (* k*, greedy *)
| Seq (r1 r2 : regex)
| Group (n : nat) (r : regex)        (* the n-th capturing group *)
| NotAfter (c : char).               (* (?<!c) *)

(** [k+] *)
Definition Plus (k : charclass) : regex := Seq (Atom k) (Star k).

(** A replacement template: literal characters and group references. *)
Inductive ritem : Type :=
| RLit (c : char)
| RRef (n : nat).

Record mstate : Type := MState {
  m_prev : option char;          (* the character before the position *)
  m_rest : str;                  (* the text from the position on *)
  m_caps : list (nat * str)      (* the groups captured so far *)
}.

Definition same_char (o : option char) (c : char) : bool :=
  match o with
  | Some d => d =? c
  | None => false
  end.

Fixpoint cap_lookup (n : nat) (caps : list (nat * str)) : str :=
  match caps with
  | [] => []
  | (m, t) :: caps' => if Nat.eqb m n then t else cap_lookup n caps'
  end.

Fixpoint expand (repl : list ritem) (caps : list (nat * str)) : str :=
  match repl with
  | [] => []
  | RLit c :: repl' => c :: expand repl' caps
  | RRef n :: repl' => cap_lookup n caps ++ expand repl' caps
  end.

(** * The driver: scripts/gen_prompt/gen_prompts_and_rubic.py

    The pure functions of the driver, and the control flow of its retry
    loop.  Reading the spreadsheet and the template and writing the result
    files are input and output of the operating system and are not
    modelled; logging is left out. *)

(** Module constants (lines 14-23). *)
Definition OUTPUT_DIR : str := py "output".
Definition API_RETRY_TIMES : nat := 3.
Definition API_DELAY : Z := 2.
Definition LANGUAGE : str := py "cn".

(** What the driver's functions raise: the built-in exceptions met so far,
    [KeyError], and the plain [Exception] the functions wrap failures in. *)
Inductive raised : Type :=
| Builtin (e : exn)
| KeyError (key : str)
| Exception (message : str).

(** [str(e)].  A [JSONDecodeError] prints the message with the line, the
    column and the index; a [KeyError] prints the [repr] of the key, here a
    plain identifier. *)
Definition errmsg (e : JSONDecodeError_obj) : str :=
  e_msg e ++ py ": line " ++ str_of_Z (e_lineno e)
  ++ py " column " ++ str_of_Z (e_colno e)
  ++ py " (char " ++ str_of_Z (e_pos e) ++ py ")".

Definition str_of_raised (r : raised) : str :=
  match r with
  | Builtin (ValueError m) => m
  | Builtin (JSONDecodeError e) => errmsg e
  | Builtin (TypeError m) => m
  | Builtin (AttributeError m) => m
  | KeyError k => py "'" ++ k ++ py "'"
  | Exception m => m
  end.

(** ** [chat_gpt] (lines 51-75)

    The request to the service is an effect: [api k] is the outcome of the
    request made in attempt [k], either an exception or the content of the
    reply (which the client library may give as [None]).  A run is the list
    of what the function did, in order, and how it ended.  [time.sleep] is
    taken to return, as it does for the delays of the module's constants;
    it raises for a negative length and for one too large for the
    platform. *)
Inductive event : Type :=
| Request (attempt : nat)
| Sleep (seconds : Z).

(** The loop over [range(retries)], from attempt [retry] on, with [left]
    attempts to go. *)
Fixpoint chat_gpt_loop (retries : nat) (delay : Z)
  (api : nat -> raised + option str) (retry left : nat)
  : list event * (raised + option str) :=
  match left with
  | O =>
      ([], inl (Exception (py "API 调用失败，已重试 "
                           ++ str_of_nat retries ++ py " 次")))
  | S left' =>
      match api retry with
      | inr content => ([Request retry], inr content)
      | inl _ =>
          let (log, r) :=
            chat_gpt_loop retries delay api (S retry) left' in
          (Request retry :: Sleep (delay * (Z.of_nat retry + 1)) :: log, r)
      end
  end.

Definition chat_gpt (api : nat -> raised + option str)
  : list event * (raised + option str) :=
  chat_gpt_loop API_RETRY_TIMES API_DELAY api 0 API_RETRY_TIMES.

(** The seconds slept in a run. *)
Fixpoint slept (log : list event) : Z :=
  match log with
  | [] => 0
  | Sleep n :: log' => n + slept log'
  | Request _ :: log' => slept log'
  end.

Fixpoint requests (log : list event) : nat :=
  match log with
  | [] => O
  | Request _ :: log' => S (requests log')
  | Sleep _ :: log' => requests log'
  end.

(** ** [get_complete_prompt] (lines 104-129) *)

(** The line boundaries of [str.splitlines()]. *)
Definition is_linebreak (c : char) : bool :=
  ((10 <=? c) && (c <=? 13)) || ((28 <=? c) && (c <=? 30))
  || (c =? 133) || (c =? 8232) || (c =? 8233).

(** [s.splitlines()]: a carriage return directly followed by a line feed is
    one boundary; there is no empty line after a final boundary.  [cur]
    holds the characters of the current line, last first. *)
Fixpoint splitlines_from (cur : str) (s : str) : list str :=
  match s with
  | [] =>
      match cur with
      | [] => []
      | _ :: _ => [rev cur]
      end
  | c :: s' =>
      if c =? 13 then
        match s' with
        | d :: s'' =>
            if d =? 10 then rev cur :: splitlines_from [] s''
            else rev cur :: splitlines_from [] s'
        | [] => rev cur :: splitlines_from [] s'
        end
      else if is_linebreak c then rev cur :: splitlines_from [] s'
      else splitlines_from (c :: cur) s'
  end.

Definition splitlines (s : str) : list str := splitlines_from [] s.

(** [sep.join(l)] *)
Fixpoint join (sep : str) (l : list str) : str :=
  match l with
  | [] => []
  | [a] => a
  | a :: l' => a ++ sep ++ join sep l'
  end.

Definition is_empty (s : str) : bool :=
  match s with
  | [] => true
  | _ :: _ => false
  end.

(** Line 128: the stripped non-blank lines, joined by line feeds. *)
Definition clean_lines (complete_prompt : str) : str :=
  join [newline]
    (map strip
       (filter (fun line => negb (is_empty (strip line)))
          (splitlines complete_prompt))).

(** The function for a given value of the module constant [LANGUAGE]. *)
Definition get_complete_prompt_in (language : str)
  (prompt_template subject sub_subject requirement : str) : exn + str :=
  if is_empty subject || is_empty sub_subject || is_empty requirement
  then inl (ValueError (py "学科、子学科、实验名称均不能为空"))
  else if str_eqb language (py "cn") then
    inr (clean_lines
           (replace (py "{实验名称}") requirement
              (replace (py "{子学科}") sub_subject
                 (replace (py "{学科}") subject prompt_template))))
  else if str_eqb language (py "en") then
    inr (clean_lines
           (replace (py "{ExperimentName}") requirement
              (replace (py "{Subdiscipline}") sub_subject
                 (replace (py "{Discipline}") subject prompt_template))))
  else inl (ValueError (py "不支持的语言类型：" ++ language)).

Definition get_complete_prompt
  (prompt_template subject sub_subject requirement : str) : exn + str :=
  get_complete_prompt_in LANGUAGE prompt_template subject sub_subject
    requirement.

(** ** [parse_gpt_response] (lines 176-214) *)

(** [s.find(c)] for a one-character [c]: the first index, or -1. *)
Fixpoint find_from (c : char) (i : Z) (s : str) : Z :=
  match s with
  | [] => -1
  | d :: s' => if d =? c then i else find_from c (i + 1) s'
  end.

Definition find (c : char) (s : str) : Z := find_from c 0 s.

(** [obj[key]] for a string [key]. *)
Definition py_getitem (obj : value) (key : str) : raised + value :=
  match obj with
  | PyDict d =>
      match dict_lookup d key with
      | Some v => inr v
      | None => inl (KeyError key)
      end
  | PyList _ =>
      inl (Builtin (TypeError
                      (py "list indices must be integers or slices, not str")))
  | PyStr _ =>
      inl (Builtin (TypeError
                      (py "string indices must be integers, not 'str'")))
  | v =>
      inl (Builtin (TypeError (py "'" ++ type_name v
                               ++ py "' object is not subscriptable")))
  end.

(** Lines 198-200: the first field that is not in [json_data] is
    reported. *)
Fixpoint check_fields (fields : list str) (json_data : value)
  : raised + unit :=
  match fields with
  | [] => inr tt
  | field :: fields' =>
      match outcome (contains json_data field) with
      | inl e => inl (Builtin e)
      | inr false => inl (Builtin (ValueError (py "缺少必要字段：" ++ field)))
      | inr true => check_fields fields' json_data
      end
  end.

(** Lines 203-205: [json_data["evaluation_rubic"]] is looked up in each
    round. *)
Fixpoint check_rubic_fields (fields : list str) (json_data : value)
  : raised + unit :=
  match fields with
  | [] => inr tt
  | field :: fields' =>
      match py_getitem json_data (py "evaluation_rubic") with
      | inl r => inl r
      | inr rubic =>
          match outcome (contains rubic field) with
          | inl e => inl (Builtin e)
          | inr false =>
              inl (Builtin (ValueError
                              (py "evaluation_rubic 缺少必要字段：" ++ field)))
          | inr true => check_rubic_fields fields' json_data
          end
      end
  end.

(** Lines 189-193: the text from the first opening brace to the last
    closing brace, with every apostrophe turned into a double quote and
    every backslash-n and backslash-t pair removed. *)
Definition extract_json (response_text : str) : str :=
  let start_idx := find (chr "{") response_text in
  let end_idx := rfind (chr "}") response_text + 1 in
  let json_str := pyslice start_idx end_idx response_text in
  replace (py "\t") []
    (replace (py "\n") []
       (replace (py "'") [dquote] json_str)).

(** The body of the [try] (lines 184-208). *)
Definition parse_gpt_response_try (response_text : str) : raised + value :=
  let start_idx := find (chr "{") response_text in
  let end_idx := rfind (chr "}") response_text + 1 in
  if (start_idx =? -1) || (end_idx =? 0)
  then inl (Builtin (ValueError (py "未找到有效的JSON格式内容")))
  else
    let json_str := extract_json response_text in
    match json_loads json_str with
    | inl (m, p) =>
        inl (Builtin (JSONDecodeError
                        (JSONDecodeError_init (msg_text m) json_str p)))
    | inr json_data =>
        match check_fields required_fields json_data with
        | inl r => inl r
        | inr _ =>
            match check_rubic_fields rubic_fields json_data with
            | inl r => inl r
            | inr _ => inr json_data
            end
        end
    end.

(** The [except] clauses (lines 209-214), in their order. *)
Definition parse_gpt_response (response_text : str) : raised + value :=
  match parse_gpt_response_try response_text with
  | inr json_data => inr json_data
  | inl (Builtin (JSONDecodeError e)) =>
      inl (Exception (py "JSON解析失败：" ++ errmsg e
                      ++ py "，原始内容片段：" ++ pyslice_to 500 response_text))
  | inl (Builtin (ValueError m)) =>
      inl (Exception (py "JSON格式校验失败：" ++ m))
  | inl r => inl (Exception (py "解析GPT响应失败：" ++ str_of_raised r))
  end.

(** ** [save_gpt_response] (lines 217-255): the file names *)

(** Lines 226-234. *)
Definition unsafe_chars : list char :=
  [chr "/"; backslash; chr ":"; chr "*"; chr "?"; dquote; chr "<"; chr ">";
   chr "|"].

Definition safe_filename (s : str) : str :=
  match s with
  | [] => py "unknown"
  | _ :: _ =>
      pyslice_to 50
        (fold_left (fun s char => replace [char] (py "_") s) unsafe_chars s)
  end.

(** What [safe_filename] makes of one character. *)
Definition sanitize (c : char) : char :=
  if existsb (Z.eqb c) unsafe_chars then chr "_" else c.

(** [os.path.join] of a POSIX system. *)
Fixpoint path_join (path : str) (parts : list str) : str :=
  match parts with
  | [] => path
  | b :: parts' =>
      path_join
        (if startswith (py "/") b then b
         else if is_empty path || endswith (py "/") path then path ++ b
         else path ++ py "/" ++ b)
        parts'
  end.

(** Lines 241 and 250. *)
Definition markdown_path (idx : str) : str :=
  path_join OUTPUT_DIR [LANGUAGE ++ py "/manual"; safe_filename idx ++ py ".md"].

Definition json_path (idx : str) : str :=
  path_join OUTPUT_DIR [LANGUAGE ++ py "/prompt"; safe_filename idx ++ py ".json"].

(** ** Vocabulary for the statements about missing fields

    The text Python prints for a list of field names, written with [join]:
    the names between single quotes, separated by a comma and a space,
    between brackets. *)
Definition quoted (f : str) : str := py "'" ++ f ++ py "'".

Definition list_repr (l : list str) : str :=
  py "[" ++ join (py ", ") (map quoted l) ++ py "]".

(** The specification's sub-keys of [evaluation_rubic]: the keys of the
    object bound to it; a value that is not an object has no keys. *)
Definition has_sub_key (rubic_data : value) (f : str) : bool :=
  match rubic_data with
  | PyDict rubic => has_key rubic f
  | _ => false
  end.

(** A table with no entry: no non-ASCII code point is a digit or a letter.
    The concrete runs below use it; their texts hold no character on which
    the tables are consulted beyond ASCII. *)
Definition no_entry : char -> bool := fun _ => false.

(** Concrete texts are written with a backquote for each double quote. *)
Definition jq (s : string) : str :=
  map (fun c => if c =? chr "`" then dquote else c) (py s).

(** Sample documents for the concrete runs. *)
Definition sample_rubric : string :=
  "{`pc_rubic`:`p`,`cmp_rubic`:`c`,`slr_rubic`:`s`,`clr_rubic`:`l`,`ri_rubic`:`r`}".

Definition sample_rubric_value : value :=
  PyDict [(py "pc_rubic", PyStr (py "p")); (py "cmp_rubic", PyStr (py "c"));
          (py "slr_rubic", PyStr (py "s")); (py "clr_rubic", PyStr (py "l"));
          (py "ri_rubic", PyStr (py "r"))].

(** A valid document that satisfies the schema, with white space around. *)
Definition sample_doc : str :=
  jq ("  {`generation_prompt`:`g`, `evaluation_rubic`:" ++ sample_rubric
      ++ ", `manual`:`m`} ").

Definition sample_value : value :=
  PyDict [(py "generation_prompt", PyStr (py "g"));
          (py "evaluation_rubic", sample_rubric_value);
          (py "manual", PyStr (py "m"))].

(** A valid document that satisfies the schema and has a full-width comma
    inside a string. *)
Definition fullwidth_doc : str :=
  jq ("{`generation_prompt`:`a，b`,`evaluation_rubic`:" ++ sample_rubric
      ++ ",`manual`:`m`}").

(** A valid document that satisfies the schema and has an apostrophe
    inside a string. *)
Definition apostrophe_doc : str :=
  jq ("{`generation_prompt`:`it's`,`evaluation_rubic`:" ++ sample_rubric
      ++ ",`manual`:`m`}").

(** A document whose values are not strings and whose rubric is a list. *)
Definition untyped_doc : str :=
  jq ("{`generation_prompt`:1,`evaluation_rubic`:"
      ++ "[`pc_rubic`,`cmp_rubic`,`slr_rubic`,`clr_rubic`,`ri_rubic`]"
      ++ ",`manual`:null}").

(** Documents with missing keys, with a number for the rubric, and a text
    that does not decode. *)
Definition missing_top_doc : str := jq "{`generation_prompt`:`g`}".

Definition missing_sub_doc : str :=
  jq "{`generation_prompt`:`g`,`evaluation_rubic`:{`pc_rubic`:`p`},`manual`:`m`}".

Definition number_rubric_doc : str :=
  jq "{`generation_prompt`:`g`,`evaluation_rubic`:1,`manual`:`m`}".

Definition broken_doc : str := jq "{`a`:" ++ [newline] ++ py " x}".

(** A document whose rubric is a string in which the five names occur, and
    a document that satisfies the schema and holds the constant [NaN]. *)
Definition string_rubric_doc : str :=
  jq ("{`generation_prompt`:`g`,`evaluation_rubic`:"
      ++ "`pc_rubic cmp_rubic slr_rubic clr_rubic ri_rubic`"
      ++ ",`manual`:`m`}").


(** The text the module of [process_json_string] passes to it when run as a
    script (tools.py, line 82): a document written as a JSON string, its
    quotes and line breaks escaped. *)
Definition test_json_str : str :=
  jq "`{\n\`generation_prompt\`: \`Laboratory Preparation of Hydrogen by Downward Displacement of Air. Show a clear laboratory setup: a zinc granule sample in a conical flask connected via a glass delivery tube to an inverted gas jar over the flask mouth. A student slowly adds dilute hydrochloric acid to the zinc in the flask. Bubbles of hydrogen gas are formed vigorously, displacing air in the jar from the top down. The entire gas jar gradually fills with colorless hydrogen. After collection, a burning splint is brought near the mouth of the jar, producing a characteristic soft ‘pop’ sound. The laboratory is bright and clean, glassware realistic, liquid colorless, and labels simple and readable.\`,\n\`evaluation_rubic\`: {\n\`pc_rubic\`: \`Hard Rules: (1) The scene must show zinc and dilute hydrochloric acid in a conical flask connected to a gas-collecting jar by a delivery tube. (2) The steps should occur in the correct order: acid addition → gas generation → downward displacement collection → ignition test. Principles: The appearance and behavior of materials must conform to inorganic chemistry background knowledge—zinc is metallic gray, hydrochloric acid colorless, hydrogen invisible; the displacement process should match typical laboratory practice.\`,\n\`cmp_rubic\`: \`Hard Rules: The main phenomenon—formation of continuous gas bubbles, collection of a colorless gas by downward displacement, and the 'pop' sound when tested with a flame—must all be clearly presented in sequence. Principles: The brightness of gas bubbles, motion of liquid, and sound must be realistic; all visible changes must match the expected hydrogen preparation phenomenon.\`,\n\`slr_rubic\`: \`Hard Rules: The video should display smooth temporal and spatial continuity between adding acid, gas generation, gas collection, and ignition testing. Principles: Temporal Logic—gas generation accelerates gradually after acid addition; Spatial Logic—bubbles rise correctly in liquid, gas jar position consistent; Spatiotemporal Consistency—each action continues smoothly without abrupt or impossible transitions.\`,\n\`clr_rubic\`: \`Hard Rules: The cause (acid reacting with zinc) must directly lead to gas generation, which then leads logically to hydrogen collection and ignition testing. Principles: Object State Logic—bubbles appear because of Zn and HCl reaction; Scientific Principle Logic—the produced hydrogen reacts violently with a flame giving a small explosion; Presentation—cause and effect should be intuitive and simple.\`,\n\`ri_rubic\`: \`Hard Rules: Throughout the process, all chemical and physical properties must comply with real scientific laws—no color change of hydrogen, no floating opposite to physical laws. Principles: Stability of Object Properties—glass remains rigid, acid remains liquid, gas invisible; Human Actions—motion consistent with real laboratory handling.\`\n},\n\`manual\`: \`I. Basic Experiment Information\\\\n1. Experiment Title: Laboratory Preparation of Hydrogen by Downward Displacement of Air\\\\n2. Subject: Chemistry - Inorganic Chemistry\\\\n3. Experiment Objective: To learn the laboratory preparation method of hydrogen, understand its physical properties (such as being colorless, odorless, lighter than air), and grasp the principle of metal and acid reaction generating hydrogen.\\\\n\\\\nII. Experimental Equipment and Materials\\\\nConical flask (100 mL), single-hole rubber stopper, glass delivery tube, gas jar, trough or support ring for jar, zinc granules, dilute hydrochloric acid (1:5 HCl), dropper or funnel, wooden splint, lighter or match, safety goggles and gloves.\\\\n\\\\nIII. Experimental Procedure\\\\n1. Preparation Stage: Wear goggles and gloves. Check that all glassware are clean and dry. Place several zinc granules into a 100 mL conical flask.\\\\n2. Equipment Assembly: Fit the flask with a single-hole rubber stopper attached to a glass delivery tube. Adjust the delivery tube so that its other end leads into the mouth of an inverted gas jar resting above the flask (no water seal needed since gas is collected by downward air displacement).\\\\n3. Gas Generation: Using a dropper, slowly add an appropriate amount of dilute hydrochloric acid into the conical flask. Immediately note the release of bubbles. Oxygen or air in the setup should be allowed to escape for a few seconds to flush; then collection begins.\\\\n4. Gas Collection: Hydrogen gas generated in the flask flows through the delivery tube into the gas jar, pushing the air inside downward and out from the bottom. Continue collection until the jar is full of hydrogen. Cover the mouth of the jar with a lid or glass plate to prevent gas loss.\\\\n5. Gas Test: Bring a burning splint near the mouth of the collected jar and slightly lift the cover. A soft 'pop' sound confirms the presence of hydrogen.\\\\n6. Post-Experiment Handling: Remove the delivery tube before stopping acid addition to prevent liquid backflow. Pour waste solutions into designated waste containers, rinse and clean all equipment, and restore the workspace.\\\\n\\\\nIV. Observation of Experimental Phenomena\\\\n1. Initial State: Zinc granules appear metallic gray in colorless dilute hydrochloric acid.\\\\n2. During Reaction: After acid is added, vigorous effervescence (continuous bubble formation) is observed.\\\\n3. Gas Collection: The gas collected is colorless and invisible; the jar shows no condensation.\\\\n4. Gas Test: When a burning splint is touched to the jar mouth, a soft 'pop' sound is heard, confirming hydrogen gas.\\\\n\\\\nV. Summary of Experimental Principles\\\\nHydrogen is produced through the reaction of a metal with an acid. Zinc reacts with dilute hydrochloric acid to yield hydrogen gas and zinc chloride solution. The generated hydrogen is lighter than air, so it can be collected by downward displacement of air.\\\\nReaction Equation: Zn + 2HCl → ZnCl₂ + H₂↑\\\\nThis method demonstrates both the chemical reactivity of active metals with acids and the method for collecting low-density gases.\\\\n\\\\nVI. Experimental Precautions\\\\n1. Safety: Always wear goggles and gloves. Avoid flames near the apparatus until the hydrogen collection is complete.\\\\n2. Operation: Add acid slowly to prevent violent reaction or splashing. Ensure all joints are sealed to avoid hydrogen leakage.\\\\n3. Sequence: Always remove the stopper before ending the reaction to prevent liquid backflow.\\\\n4. Waste Disposal: Collect and neutralize waste acid properly, and clean the apparatus thoroughly.\\\\n\`\n}`".

(** A reply with text around the document, a service that answers at the
    third attempt, one that never answers, and a prompt template. *)
Definition sample_reply : str := py "Sure: " ++ sample_doc ++ py "Done.".

Definition third_time_api (k : nat) : raised + option str :=
  match k with
  | 2%nat => inr (Some (py "ok"))
  | _ => inl (Exception (py "timeout"))
  end.

Definition failing_api (k : nat) : raised + option str :=
  inl (Exception (py "timeout")).

Definition sample_template : str :=
  py "  学科：{学科}，{子学科}  " ++ [13; newline; newline]
  ++ py "实验：{实验名称} " ++ [newline].

Section Repair.

(** The Unicode database of the interpreter decides which non-ASCII code
    points are decimal digits and which are alphanumeric.  The tables are
    taken as given; what follows holds for every choice of them. *)
Variable unicode_isdecimal : char -> bool.
Variable unicode_isalnum : char -> bool.

Definition Py_UNICODE_ISDECIMAL (c : char) : bool :=
  if c <? 128 then (48 <=? c) && (c <=? 57) else unicode_isdecimal c.

Definition Py_UNICODE_ISALNUM (c : char) : bool :=
  if c <? 128
  then ((48 <=? c) && (c <=? 57)) || ((65 <=? c) && (c <=? 90))
       || ((97 <=? c) && (c <=? 122))
  else unicode_isalnum c.

Definition in_class (k : charclass) (c : char) : bool :=
  match k with
  | CLit d => c =? d
  | CSet cs => existsb (Z.eqb c) cs
  | CSpace => Py_UNICODE_ISSPACE c
  | CDigit => Py_UNICODE_ISDECIMAL c
  | CWord => Py_UNICODE_ISALNUM c || (c =? chr "_")
  end.

(** The candidates of [k*] at a position, longest first. *)
Fixpoint star_cands (k : charclass) (prev : option char) (s : str)
  (caps : list (nat * str)) : list mstate :=
  match s with
  | c :: s' =>
      if in_class k c
      then star_cands k (Some c) s' caps ++ [MState prev s caps]
      else [MState prev s caps]
  | [] => [MState prev s caps]
  end.

Fixpoint rmatch (r : regex) (st : mstate) : list mstate :=
  match r with
  | Atom k =>
      match m_rest st with
      | c :: s' =>
          if in_class k c then [MState (Some c) s' (m_caps st)] else []
      | [] => []
      end
  | Star k => star_cands k (m_prev st) (m_rest st) (m_caps st)
  | Seq r1 r2 => flat_map (rmatch r2) (rmatch r1 st)
  | Group n r1 =>
      map (fun st' =>
             let taken := (length (m_rest st) - length (m_rest st'))%nat in
             MState (m_prev st') (m_rest st')
                    ((n, firstn taken (m_rest st)) :: m_caps st'))
          (rmatch r1 st)
  | NotAfter c => if same_char (m_prev st) c then [] else [st]
  end.

(** The match at a position, if any: the groups and the number of
    characters matched. *)
Definition match_at (r : regex) (prev : option char) (s : str)
  : option (list (nat * str) * nat) :=
  match rmatch r (MState prev s []) with
  | st :: _ => Some (m_caps st, (length s - length (m_rest st))%nat)
  | [] => None
  end.

(** [re.sub(r, repl, s)]: the text is scanned from the left; where the
    pattern matches, the expansion of the template replaces the match and
    the scan resumes after it.  [skip] counts the characters of the last
    match still to be passed over. *)
Fixpoint sub_from (r : regex) (repl : list ritem) (prev : option char)
  (skip : nat) (s : str) : str :=
  match s with
  | [] =>
      match skip, match_at r prev [] with
      | O, Some (caps, _) => expand repl caps
      | _, _ => []
      end
  | c :: s' =>
      match skip with
      | S k => sub_from r repl (Some c) k s'
      | O =>
          match match_at r prev s with
          | Some (caps, S n) => expand repl caps ++ sub_from r repl (Some c) n s'
          | Some (caps, O) => expand repl caps ++ c :: sub_from r repl (Some c) 0 s'
          | None => c :: sub_from r repl (Some c) 0 s'
          end
      end
  end.

Definition re_sub (r : regex) (repl : list ritem) (s : str) : str :=
  sub_from r repl None 0 s.

(** ** The stages of [process_json_string] *)

(** Step 1 (lines 21-26): trim, remove one enclosing pair of double quotes,
    trim again. *)
Definition unwrap_quotes (cleaned_str : str) : str :=
  if startswith [dquote] cleaned_str && endswith [dquote] cleaned_str
  then pyslice 1 (-1) cleaned_str
  else cleaned_str.

Definition TextNormalizer (raw_json_str : str) : str :=
  let cleaned_str := strip raw_json_str in
  let cleaned_str := unwrap_quotes cleaned_str in
  strip cleaned_str.

(** Step 2 (lines 32-39).  In the Python literals a doubled backslash
    stands for one backslash; a Rocq string has no escapes, so the same
    texts are written with half as many backslashes here. *)

(** Line 36.  Pattern: a backslash and, as group 1, one [\d].  Template: a
    backslash, the letter n, group 1. *)
Definition re_backslash_digit : regex :=
  Seq (Atom (CLit backslash)) (Group 1 (Atom CDigit)).
Definition repl_backslash_digit : list ritem :=
  [RLit backslash; RLit (chr "n"); RRef 1].

Definition EscapeRepairer (cleaned_str : str) : str :=
  let fix_str := cleaned_str in
  let fix_str := replace (py "\\t") (py "\t")
                   (replace (py "\\n") (py "\n") fix_str) in
  let fix_str := re_sub re_backslash_digit repl_backslash_digit fix_str in
  let fix_str := replace (py "“") [dquote]
                   (replace (py "”") [dquote]
                      (replace (py "，") (py ",")
                         (replace (py "：") (py ":") fix_str))) in
  let fix_str := replace (py "）") (py ")")
                   (replace (py "（") (py "(")
                      (replace (py "。") (py ".")
                         (replace (py "；") (py ";") fix_str))) in
  fix_str.

(** Step 3 (lines 43-48). *)

(** Lines 43-44.  Pattern: a comma, [\s] any number of times, the closing
    brace (line 43) or bracket (line 44).  Template: the closing character. *)
Definition re_comma_close (close : char) : regex :=
  Seq (Atom (CLit (chr ","))) (Seq (Star CSpace) (Atom (CLit close))).

(** Line 46.  Pattern: group 1 is an opening brace or a comma and [\s] any
    number of times; group 2 is [\w] once or more; group 3 is [\s] any number
    of times and a colon.  Template: group 1, a double quote, group 2, a
    double quote, group 3. *)
Definition re_bare_key : regex :=
  Seq (Group 1 (Seq (Atom (CSet (py "{,"))) (Star CSpace)))
      (Seq (Group 2 (Plus CWord))
           (Group 3 (Seq (Star CSpace) (Atom (CLit (chr ":")))))).
Definition repl_bare_key : list ritem :=
  [RRef 1; RLit dquote; RRef 2; RLit dquote; RRef 3].

(** Line 48.  Pattern: a single quote not preceded by a backslash.
    Template: a double quote. *)
Definition re_single_quote : regex :=
  Seq (NotAfter backslash) (Atom (CLit (chr "'"))).

Definition StructuralRepairer (fix_str : str) : str :=
  let fix_str := re_sub (re_comma_close (chr "}")) [RLit (chr "}")] fix_str in
  let fix_str := re_sub (re_comma_close (chr "]")) [RLit (chr "]")] fix_str in
  let fix_str := re_sub re_bare_key repl_bare_key fix_str in
  let fix_str := re_sub re_single_quote [RLit dquote] fix_str in
  fix_str.

(** The value [f in container] has when [container] is a dict, a list or a
    string. *)
Definition holds (container : value) (f : str) : bool :=
  match container with
  | PyDict d => has_key d f
  | PyList l => existsb (str_eq_value f) l
  | PyStr t => substringb f t
  | _ => false
  end.

Definition is_container (v : value) : bool :=
  match v with
  | PyDict _ | PyList _ | PyStr _ => true
  | _ => false
  end.

Definition not_iterable (v : value) : exn :=
  TypeError (py "argument of type '" ++ type_name v ++ py "' is not iterable").

(** The shape the specification requires of the result: a dict in which
    [generation_prompt] and [manual] are bound to strings and
    [evaluation_rubic] to a dict binding each of the five rubric fields to
    a string. *)
Definition bound_to_str (d : list (str * value)) (k : str) : bool :=
  match dict_lookup d k with
  | Some (PyStr _) => true
  | _ => false
  end.

Definition satisfies_schema (v : value) : bool :=
  match v with
  | PyDict d =>
      bound_to_str d (py "generation_prompt") && bound_to_str d (py "manual")
      && match dict_lookup d (py "evaluation_rubic") with
         | Some (PyDict r) => forallb (bound_to_str r) rubic_fields
         | _ => false
         end
  | _ => false
  end.

Definition all_steps : list step :=
  [Step1_clean; Step2_escapes; Step3_format; Step4_parse; Step5_validate].

(** *** [process_json_string] *)

(** Vocabulary for the statement about step 2: a backslash directly
    followed by a [\d] character; the two full-width characters of interest
    and the six other characters of the table. *)
Fixpoint has_backslash_digit (s : str) : bool :=
  match s with
  | [] => false
  | c :: s' =>
      ((c =? backslash)
       && match s' with d :: _ => Py_UNICODE_ISDECIMAL d | [] => false end)
      || has_backslash_digit s'
  end.

Definition fullwidth_to_ascii (c : char) : char :=
  if c =? 65306 then chr ":" else if c =? 65292 then chr "," else c.

Definition other_table_char (c : char) : bool :=
  existsb (Z.eqb c) (py "”“；。（）").

(** Vocabulary for the statement about line 48: every apostrophe of [s]
    directly follows a backslash; [prev] is the character before [s]. *)
Fixpoint apostrophes_escaped (prev : option char) (s : str) : bool :=
  match s with
  | [] => true
  | c :: s' =>
      (negb (c =? chr "'") || same_char prev backslash)
      && apostrophes_escaped (Some c) s'
  end.

(** The text handed to [json.loads]. *)
Definition fix_str_of (raw_json_str : str) : str :=
  StructuralRepairer (EscapeRepairer (TextNormalizer raw_json_str)).

Definition process_json_string (raw_json_str : str) : M value :=
  enter Step1_clean ;;
  let cleaned_str := TextNormalizer raw_json_str in
  match cleaned_str with
  | [] => raise EmptyInputError
  | _ :: _ =>
      enter Step2_escapes ;;
      let fix_str := EscapeRepairer cleaned_str in
      enter Step3_format ;;
      let fix_str := StructuralRepairer fix_str in
      enter Step4_parse ;;
      json_data <- Parser fix_str ;;
      enter Step5_validate ;;
      SchemaValidator json_data
  end.

(** * Properties *)

Ltac norm_app := repeat (rewrite <- app_assoc || rewrite <- app_comm_cons).
Ltac norm_len H :=
  repeat first [rewrite length_app in H | progress cbn [length] in H].

(** ** Sample evaluations *)

Example strip_example :
  strip (py "  {a} ") = py "{a}" /\
  strip ([9; 10; 160; 12288] ++ py "x" ++ [133]) = py "x".
Proof. split; reflexivity. Qed.

Example slice_example :
  pyslice 1 (-1) (py "abc") = py "b" /\ pyslice 1 (-1) (py "a") = [] /\
  pyslice_to 500 (py "abc") = py "abc".
Proof. repeat split. Qed.

Example replace_example : replace (py "aa") (py "b") (py "aaaxaa") = py "baxb".
Proof. reflexivity. Qed.

(** Doubled backslashes before n and t, and a backslash before a digit. *)
Example escape_example :
  EscapeRepairer (py "a\\nb\\tc\1") = py "a\nb\tc\n1".
Proof. vm_compute. reflexivity. Qed.

(** A bare key is quoted; white space of group 1 and group 3 is kept. *)
Example bare_key_example :
  StructuralRepairer (jq "{foo: `bar`, baz :1}") = jq "{`foo`: `bar`, `baz` :1}".
Proof. vm_compute. reflexivity. Qed.

(** A single quote becomes a double quote unless a backslash precedes it. *)
Example single_quote_example :
  StructuralRepairer (py "{'a': 'b\'c'}") = jq "{`a`: `b\'c`}".
Proof. vm_compute. reflexivity. Qed.

(** Decoding: duplicate keys, nesting, escapes, a surrogate pair, numbers. *)
Example json_loads_example :
  json_loads (jq " {`a`: 1, `b`: [true, null, -2.5e3], `a`: `x\u0041\n`} ")
  = inr (PyDict [(py "a", PyStr [120; 65; 10]);
                 (py "b", PyList [PyBool true; PyNone; PyFloat (py "-2.5e3")])])
  /\ json_loads (jq "`\ud83d\ude00`") = inr (PyStr [128512])
  /\ json_loads (py "-0") = inr (PyInt 0).
Proof. repeat split; vm_compute; reflexivity. Qed.

(** Failures, with the index reported (cases of CPython's test suite). *)
Example json_loads_failures :
  json_loads (py "") = inl (Expecting_value, 0) /\
  json_loads (py "[42,]") = inl (Expecting_value, 4) /\
  json_loads (jq "[`spam") = inl (Unterminated_string, 1) /\
  json_loads (jq "{`spam`:42,}") = inl (Expecting_property_name, 11) /\
  json_loads (jq "{`spam`}") = inl (Expecting_colon, 7) /\
  json_loads (jq "[42 `spam`") = inl (Expecting_comma, 4) /\
  json_loads (jq "{`a`:1}x") = inl (Extra_data, 7) /\
  json_loads (py "[[[[[[[[") = inl (Expecting_value, 8).
Proof. repeat split; vm_compute; reflexivity. Qed.

Example within_limits_example :
  opening_brackets (jq "{`a`:[1,22,{}],`b`:`[`}") = 4%nat /\
  longest_digit_run (jq "{`a`:[1,22,{}],`b`:`[`}") = 2%nat /\
  within_limits 4 2 (jq "{`a`:[1,22,{}],`b`:`[`}") = true /\
  within_limits 3 2 (jq "{`a`:[1,22,{}],`b`:`[`}") = false /\
  within_limits 4 1 (jq "{`a`:[1,22,{}],`b`:`[`}") = false.
Proof. repeat split; vm_compute; reflexivity. Qed.

Example syntactically_valid_json_example :
  syntactically_valid_json sample_doc = true /\
  syntactically_valid_json (py "[1, -2.5e3, null, 1e999]") = true /\
  syntactically_valid_json (py "[1, NaN]") = false /\
  syntactically_valid_json (jq "{`a`:-Infinity}") = false /\
  syntactically_valid_json (jq "[`NaN`]") = true /\
  syntactically_valid_json broken_doc = false.
Proof. repeat split; vm_compute; reflexivity. Qed.

(** ** Trimming *)

Lemma lstrip_fixed (s : str) :
  lstrip s = s <->
  match s with [] => True | c :: _ => Py_UNICODE_ISSPACE c = false end.
Proof.
  destruct s as [|c s']; simpl; [tauto|].
  destruct (Py_UNICODE_ISSPACE c) eqn:E; split; intro H;
    try reflexivity; try discriminate.
  exfalso. clear E.
  assert (L : forall t : str, (length (lstrip t) <= length t)%nat).
  { induction t as [|d t IH]; simpl; [lia|].
    destruct (Py_UNICODE_ISSPACE d); simpl; lia. }
  specialize (L s'). rewrite H in L. simpl in L. lia.
Qed.

Lemma lstrip_head (s : str) :
  match lstrip s with [] => True | c :: _ => Py_UNICODE_ISSPACE c = false end.
Proof.
  induction s as [|c s' IH]; simpl; [exact I|].
  destruct (Py_UNICODE_ISSPACE c) eqn:E; [exact IH|exact E].
Qed.

Lemma lstrip_idem (s : str) : lstrip (lstrip s) = lstrip s.
Proof. apply lstrip_fixed, lstrip_head. Qed.

Lemma lstrip_split (s : str) :
  exists w, s = w ++ lstrip s /\ forallb Py_UNICODE_ISSPACE w = true.
Proof.
  induction s as [|c s' [w [E W]]]; simpl.
  - exists []. split; reflexivity.
  - destruct (Py_UNICODE_ISSPACE c) eqn:Ec.
    + exists (c :: w). simpl. rewrite Ec, W. split; [congruence|reflexivity].
    + exists []. split; reflexivity.
Qed.

Lemma lstrip_spaces (w s : str) :
  forallb Py_UNICODE_ISSPACE w = true -> lstrip (w ++ s) = lstrip s.
Proof.
  induction w as [|c w IH]; simpl; [reflexivity|].
  intro H. apply andb_true_iff in H as [Hc Hw]. rewrite Hc. auto.
Qed.

Lemma lstrip_all_spaces (w : str) :
  forallb Py_UNICODE_ISSPACE w = true -> lstrip w = [].
Proof.
  intro H. rewrite <- (app_nil_r w). rewrite lstrip_spaces by exact H.
  reflexivity.
Qed.

Lemma strip_trimmed_fixed (s : str) : trimmed s -> strip s = s.
Proof.
  intros [H1 H2]. unfold strip, rstrip. rewrite H1, H2. apply rev_involutive.
Qed.

Lemma strip_is_trimmed (s : str) : trimmed (strip s).
Proof.
  unfold trimmed, strip, rstrip. rewrite rev_involutive.
  split; [|apply lstrip_idem].
  destruct (lstrip_split (rev (lstrip s))) as [w [E _]].
  remember (lstrip (rev (lstrip s))) as b eqn:Hb.
  assert (Ea : lstrip s = rev b ++ rev w).
  { rewrite <- (rev_involutive (lstrip s)), E, rev_app_distr. reflexivity. }
  apply lstrip_fixed.
  destruct (rev b) as [|c t] eqn:Erb; [exact I|].
  pose proof (lstrip_head s) as Hh. rewrite Ea in Hh. exact Hh.
Qed.

Lemma strip_idem (s : str) : strip (strip s) = strip s.
Proof. apply strip_trimmed_fixed, strip_is_trimmed. Qed.

Lemma strip_all_spaces (s : str) :
  forallb Py_UNICODE_ISSPACE s = true -> strip s = [].
Proof.
  intro H. unfold strip, rstrip. rewrite (lstrip_all_spaces s H). reflexivity.
Qed.

(** ** The decoder reads a prefix *)

Lemma skip_ws_split (s : str) :
  exists w, s = w ++ skip_ws s /\ forallb is_ws w = true.
Proof.
  induction s as [|c s' [w [E W]]]; simpl.
  - exists []. split; reflexivity.
  - destruct (is_ws c) eqn:Ec.
    + exists (c :: w). simpl. rewrite Ec, W. split; [congruence|reflexivity].
    + exists []. split; reflexivity.
Qed.

Lemma skip_ws_head (s : str) :
  head_ok (fun c => negb (is_ws c)) (skip_ws s) = true.
Proof.
  induction s as [|c s' IH]; simpl; [reflexivity|].
  destruct (is_ws c) eqn:E; [exact IH|]. simpl. rewrite E. reflexivity.
Qed.

Lemma skip_ws_app (w r : str) :
  forallb is_ws w = true -> head_ok (fun c => negb (is_ws c)) r = true ->
  skip_ws (w ++ r) = r.
Proof.
  intros Hw Hr. induction w as [|c w IH]; simpl in *.
  - destruct r as [|d r]; [reflexivity|]. simpl in *.
    destruct (is_ws d); [discriminate|reflexivity].
  - apply andb_true_iff in Hw as [Hc Hw]. rewrite Hc. auto.
Qed.

Lemma span_digits_split (s d r : str) :
  span_digits s = (d, r) ->
  s = d ++ r /\ forallb is_digit d = true.
Proof.
  revert d r. induction s as [|c s' IH]; simpl; intros d r H.
  - injection H as <- <-. split; reflexivity.
  - destruct (is_digit c) eqn:E.
    + destruct (span_digits s') as [d' r'] eqn:E'. injection H as <- <-.
      destruct (IH d' r' eq_refl) as [-> F]. simpl. rewrite E, F. split; reflexivity.
    + injection H as <- <-. split; reflexivity.
Qed.

Lemma span_digits_app (d x : str) :
  forallb is_digit d = true -> head_ok (fun c => negb (is_digit c)) x = true ->
  span_digits (d ++ x) = (d, x).
Proof.
  intros Hd Hx. induction d as [|c d IH]; simpl in *.
  - destruct x as [|e x]; [reflexivity|]. simpl in *.
    destruct (is_digit e); [discriminate|reflexivity].
  - apply andb_true_iff in Hd as [Hc Hd]. rewrite Hc, (IH Hd). reflexivity.
Qed.

Lemma match_sign_local (s sign s1 : str) :
  match_sign s = (sign, s1) ->
  s = sign ++ s1 /\
  forall y, head_ok is_digit y = true -> y <> [] ->
            match_sign (sign ++ y) = (sign, y).
Proof.
  unfold match_sign. destruct s as [|c s'].
  - intro H. injection H as <- <-. split; [reflexivity|].
    intros [|d y] Hy Hn; [congruence|]. simpl in *.
    destruct (Z.eqb_spec d (chr "-")) as [->|]; [discriminate|reflexivity].
  - destruct (Z.eqb_spec c (chr "-")) as [->|N]; intro H; injection H as <- <-.
    + split; [reflexivity|]. intros y _ _. reflexivity.
    + split; [reflexivity|].
      intros [|d y] Hy Hn; [congruence|]. simpl in *.
      destruct (Z.eqb_spec d (chr "-")) as [->|]; [discriminate|reflexivity].
Qed.

Lemma match_integer_local (s digits s2 : str) :
  match_integer s = Some (digits, s2) ->
  s = digits ++ s2 /\ digits <> [] /\ head_ok is_digit digits = true /\
  forall y, head_ok (fun c => negb (is_digit c)) y = true ->
            match_integer (digits ++ y) = Some (digits, y).
Proof.
  unfold match_integer. destruct s as [|c s']; [discriminate|].
  destruct (Z.eqb_spec c (chr "0")) as [->|N].
  - intro H. injection H as <- <-. repeat split; try discriminate.
  - destruct (is_digit c) eqn:Ec; [|discriminate].
    destruct (span_digits s') as [d r] eqn:Es. intro H. injection H as <- <-.
    destruct (span_digits_split _ _ _ Es) as [-> Hd].
    repeat split; try discriminate; [exact Ec|].
    intros y Hy. cbn [app].
    destruct (Z.eqb_spec c (chr "0")); [contradiction|].
    rewrite Ec, (span_digits_app d y Hd Hy). reflexivity.
Qed.

Lemma match_frac_local (s frac s3 : str) :
  match_frac s = (frac, s3) ->
  s = frac ++ s3 /\ head_ok (fun c => c =? chr ".") frac = true /\
  forall y, head_ok (fun c => negb (is_digit c || (c =? chr "."))) y = true ->
            match_frac (frac ++ y) = (frac, y).
Proof.
  assert (Hnil : forall y,
             head_ok (fun c => negb (is_digit c || (c =? chr "."))) y = true ->
             match_frac y = ([], y)).
  { intros [|e y] Hy; [reflexivity|]. simpl in *.
    destruct (e =? chr "."); [|reflexivity].
    rewrite orb_true_r in Hy. discriminate. }
  unfold match_frac at 1. destruct s as [|c s'].
  - intro H. injection H as <- <-. repeat split. exact Hnil.
  - destruct (Z.eqb_spec c (chr ".")) as [->|N].
    + destruct (span_digits s') as [d r] eqn:Es.
      destruct (span_digits_split _ _ _ Es) as [-> Hd].
      destruct d as [|d0 d].
      * intro H. injection H as <- <-. repeat split. exact Hnil.
      * intro H. injection H as <- <-. repeat split.
        intros y Hy. cbn [app match_frac].
        change (chr "." =? chr ".") with true. cbv iota.
        change (d0 :: d ++ y) with ((d0 :: d) ++ y).
        rewrite (span_digits_app (d0 :: d) y Hd).
        -- reflexivity.
        -- destruct y as [|e y]; [reflexivity|]. simpl in *.
           destruct (is_digit e); [discriminate|reflexivity].
    + intro H. injection H as <- <-. repeat split. exact Hnil.
Qed.

Lemma match_exp_local (s exp s4 : str) :
  match_exp s = (exp, s4) ->
  s = exp ++ s4 /\
  head_ok (fun c => (c =? chr "e") || (c =? chr "E")) exp = true /\
  forall y, head_ok num_stop y = true -> match_exp (exp ++ y) = (exp, y).
Proof.
  assert (Hnil : forall y, head_ok num_stop y = true -> match_exp y = ([], y)).
  { intros [|e y] Hy; [reflexivity|]. unfold num_stop in Hy. simpl in *.
    destruct ((e =? chr "e") || (e =? chr "E")) eqn:E; [|reflexivity].
    apply orb_true_iff in E.
    rewrite <- !orb_assoc in Hy.
    destruct E as [E|E]; rewrite E in Hy; rewrite ?orb_true_r in Hy; discriminate. }
  assert (Hdig : forall y, head_ok num_stop y = true ->
                           head_ok (fun c => negb (is_digit c)) y = true).
  { intros [|e y] Hy; [reflexivity|]. unfold num_stop in Hy. simpl in *.
    destruct (is_digit e); [discriminate|reflexivity]. }
  unfold match_exp at 1. destruct s as [|c s'].
  - intro H. injection H as <- <-. repeat split. exact Hnil.
  - destruct ((c =? chr "e") || (c =? chr "E")) eqn:Ec.
    2:{ intro H. injection H as <- <-. repeat split. exact Hnil. }
    destruct (match s' with
              | [] => ([], s')
              | g :: t => if (g =? chr "+") || (g =? chr "-") then ([g], t) else ([], s')
              end) as [sg s''] eqn:Eg.
    destruct (span_digits s'') as [d r] eqn:Es.
    destruct (span_digits_split _ _ _ Es) as [-> Hd].
    destruct d as [|d0 d].
    + intro H. injection H as <- <-. repeat split. exact Hnil.
    + intro H. injection H as <- <-.
      assert (Es' : s' = sg ++ (d0 :: d) ++ r).
      { destruct s' as [|g t]; [discriminate Eg|].
        destruct ((g =? chr "+") || (g =? chr "-")); injection Eg as E1 E2;
          subst; reflexivity. }
      split; [rewrite Es'; cbn [app]; now rewrite <- !app_assoc|].
      split; [exact Ec|].
      intros y Hy. cbn [app match_exp]. rewrite Ec.
      assert (Eg' : match (sg ++ d0 :: d) ++ y with
              | [] => ([], (sg ++ d0 :: d) ++ y)
              | g :: t => if (g =? chr "+") || (g =? chr "-") then ([g], t) else ([], (sg ++ d0 :: d) ++ y)
              end = (sg, (d0 :: d) ++ y)).
      { destruct s' as [|g t]; [discriminate Eg|].
        destruct ((g =? chr "+") || (g =? chr "-")) eqn:G.
        + injection Eg as <- E2. cbn [app]. rewrite G. reflexivity.
        + injection Eg as <- E2 E3. subst g. cbn [app]. rewrite G. reflexivity. }
      rewrite Eg'.
      rewrite (span_digits_app (d0 :: d) y Hd (Hdig y Hy)). reflexivity.
Qed.

Lemma head_ok_app (p : char -> bool) (a b : str) :
  head_ok p a = true -> head_ok p b = true -> head_ok p (a ++ b) = true.
Proof. destruct a; simpl; auto. Qed.

Lemma head_ok_weaken (p q : char -> bool) (a : str) :
  (forall c, p c = true -> q c = true) ->
  head_ok p a = true -> head_ok q a = true.
Proof. destruct a; simpl; auto. Qed.

Lemma match_number_local (s : str) (v : value) (rest : str) :
  match_number s = Some (v, rest) ->
  exists c0 pre,
    s = (c0 :: pre) ++ rest /\ num_head c0 = true /\
    forall x, head_ok num_stop x = true ->
              match_number ((c0 :: pre) ++ x) = Some (v, x).
Proof.
  unfold match_number at 1.
  destruct (match_sign s) as [sign s1] eqn:E0.
  destruct (match_integer s1) as [[digits s2]|] eqn:E1; [|discriminate].
  destruct (match_frac s2) as [frac s3] eqn:E2.
  destruct (match_exp s3) as [exp s4] eqn:E3.
  destruct (match_sign_local _ _ _ E0) as [-> L0].
  destruct (match_integer_local _ _ _ E1) as [-> [Dn [Dh L1]]].
  destruct (match_frac_local _ _ _ E2) as [-> [Fh L2]].
  destruct (match_exp_local _ _ _ E3) as [-> [Eh L3]].
  intro H.
  assert (R : rest = s4) by (destruct frac, exp; injection H; auto).
  subst s4.
  assert (Hx3 : forall x, head_ok num_stop x = true ->
     head_ok (fun c => negb (is_digit c || (c =? chr "."))) (exp ++ x) = true).
  { intros x Hx. apply head_ok_app.
    - revert Eh. apply head_ok_weaken. intros c Hc.
      apply orb_true_iff in Hc as [Hc|Hc]; apply Z.eqb_eq in Hc; subst c; reflexivity.
    - revert Hx. apply head_ok_weaken. intros c Hc. unfold num_stop in Hc.
      destruct (is_digit c); [discriminate|]. destruct (c =? chr "."); [discriminate|reflexivity]. }
  assert (Hx2 : forall x, head_ok num_stop x = true ->
     head_ok (fun c => negb (is_digit c)) (frac ++ exp ++ x) = true).
  { intros x Hx. apply head_ok_app.
    - revert Fh. apply head_ok_weaken. intros c Hc.
      apply Z.eqb_eq in Hc; subst c; reflexivity.
    - generalize (Hx3 x Hx). apply head_ok_weaken. intros c Hc.
      destruct (is_digit c); [discriminate|reflexivity]. }
  destruct digits as [|dg digits]; [congruence|]. simpl in Dh.
  assert (Hpre : exists c0 pre, sign ++ (dg :: digits) ++ frac ++ exp = c0 :: pre
                                /\ num_head c0 = true).
  { destruct sign as [|sg sign'].
    - exists dg, (digits ++ frac ++ exp). split; [reflexivity|].
      unfold num_head. rewrite Dh. reflexivity.
    - exists sg, (sign' ++ (dg :: digits) ++ frac ++ exp). split; [reflexivity|].
      unfold match_sign in E0.
      destruct ((sg :: sign') ++ (dg :: digits) ++ (frac ++ exp ++ rest)) as [|c s'] eqn:Es;
        [discriminate|].
      destruct (c =? chr "-") eqn:Ec.
      + injection E0; intros; subst.
        unfold num_head. rewrite Ec. apply orb_true_r.
      + discriminate. }
  destruct Hpre as [c0 [pre [Ep Hc0]]].
  exists c0, pre. rewrite <- Ep. split; [now rewrite <- !app_assoc|].
  split; [exact Hc0|].
  intros x Hx. unfold match_number.
  replace ((sign ++ (dg :: digits) ++ frac ++ exp) ++ x)
    with (sign ++ (dg :: digits) ++ frac ++ exp ++ x) by now rewrite <- !app_assoc.
  rewrite L0; [|simpl; exact Dh|discriminate].
  rewrite L1; [|exact (Hx2 x Hx)].
  rewrite L2; [|exact (Hx3 x Hx)].
  rewrite L3; [|exact Hx].
  destruct frac, exp; injection H; intros; subst; reflexivity.
Qed.

Lemma scanstring_u (start : nat) (acc : str) (h1 h2 h3 h4 x : char) (s7 : str) :
  scanstring_from start acc
    (backslash :: chr "u" :: h1 :: h2 :: h3 :: h4 :: x :: s7) =
  match hexval4 h1 h2 h3 h4 with
  | None =>
      Fail Invalid_uXXXX_escape
        (length (chr "u" :: h1 :: h2 :: h3 :: h4 :: x :: s7))
  | Some uni =>
      if is_high_surrogate uni then
        match pair_test (x :: s7) with
        | PairJoined uni2 s12 =>
            scanstring_from start (join_surrogates uni uni2 :: acc) s12
        | PairBadHex s12 => Fail Invalid_uXXXX_escape (S (length s12 + 4))
        | PairNone => scanstring_from start (uni :: acc) (x :: s7)
        end
      else scanstring_from start (uni :: acc) (x :: s7)
  end.
Proof.
  cbn [scanstring_from].
  change (backslash =? dquote) with false. change (backslash =? backslash) with true.
  change (chr "u" =? chr "u") with true. cbv iota.
  destruct (hexval4 h1 h2 h3 h4) as [uni|]; [|reflexivity].
  destruct (is_high_surrogate uni); [|reflexivity].
  unfold pair_test.
  destruct s7 as [|u [|k1 [|k2 [|k3 [|k4 [|y z]]]]]]; try reflexivity.
  destruct ((x =? backslash) && (u =? chr "u")); [|reflexivity].
  destruct (hexval4 k1 k2 k3 k4) as [uni2|]; [|reflexivity].
  destruct (is_low_surrogate uni2); reflexivity.
Qed.

Lemma hexval_dquote : hexval dquote = None.
Proof. reflexivity. Qed.

Lemma hexval4_no_dquote (k1 k2 k3 k4 : char) (u : Z) :
  hexval4 k1 k2 k3 k4 = Some u ->
  k1 <> dquote /\ k2 <> dquote /\ k3 <> dquote /\ k4 <> dquote.
Proof.
  unfold hexval4. intro H.
  repeat split; intros ->; rewrite hexval_dquote in H;
    repeat match type of H with
           | context [match hexval ?k with _ => _ end] => destruct (hexval k)
           end; discriminate.
Qed.

Lemma scanstring_from_local (n : nat) :
  forall s, (length s <= n)%nat ->
  forall start acc t rest,
    scanstring_from start acc s = Done t rest ->
    exists pre,
      s = pre ++ dquote :: rest /\
      forall start' rest',
        scanstring_from start' acc (pre ++ dquote :: rest') = Done t rest'.
Proof.
  induction n as [|n IH]; intros s Hlen start acc t rest H.
  { destruct s; [discriminate|simpl in Hlen; lia]. }
  destruct s as [|c s1]; [discriminate|]. simpl in Hlen.
  destruct (Z.eqb_spec c dquote) as [->|Nq].
  { cbn in H. injection H as <- <-. exists []. split; reflexivity. }
  destruct (Z.eqb_spec c backslash) as [->|Nb].
  - destruct s1 as [|e s2]; [discriminate|]. simpl in Hlen.
    destruct (Z.eqb_spec e (chr "u")) as [->|Nu].
    + destruct s2 as [|h1 [|h2 [|h3 [|h4 [|x s7]]]]]; try discriminate.
      rewrite scanstring_u in H. simpl in Hlen.
      destruct (hexval4 h1 h2 h3 h4) as [uni|] eqn:Eh; [|discriminate].
      assert (Plain : forall t0 rest0,
                 scanstring_from start (uni :: acc) (x :: s7) = Done t0 rest0 ->
                 exists pre, x :: s7 = pre ++ dquote :: rest0 /\
                   forall start' rest',
                     scanstring_from start' (uni :: acc) (pre ++ dquote :: rest')
                     = Done t0 rest').
      { intros t0 rest0 H0. apply (IH (x :: s7)) with (start := start); [simpl; lia|exact H0]. }
      assert (Stable : pair_test (x :: s7) = PairNone ->
                forall pre, x :: s7 = pre ++ dquote :: rest ->
                (forall start' rest',
                     scanstring_from start' (uni :: acc) (pre ++ dquote :: rest')
                     = Done t rest') ->
                forall rest', pair_test (pre ++ dquote :: rest') = PairNone).
      { intros Hp pre Epre Hnew rest'.
        destruct (pair_test (pre ++ dquote :: rest')) as [uni2 s12'|s12'|] eqn:Ep';
          [| |reflexivity]; exfalso.
        - (* joined on the new text *)
          unfold pair_test in Ep'.
          destruct (pre ++ dquote :: rest') as [|b [|u [|k1 [|k2 [|k3 [|k4 [|y z]]]]]]] eqn:Es';
            try discriminate.
          destruct (Z.eqb_spec b backslash) as [->|]; [|discriminate].
          destruct (Z.eqb_spec u (chr "u")) as [->|]; [|discriminate].
          cbn [andb] in Ep'.
          destruct (hexval4 k1 k2 k3 k4) as [u2|] eqn:Ek; [|discriminate].
          destruct (is_low_surrogate u2) eqn:El; [|discriminate].
          destruct (hexval4_no_dquote _ _ _ _ _ Ek) as [N1 [N2 [N3 N4]]].
          destruct pre as [|p1 [|p2 [|p3 [|p4 [|p5 [|p6 pre']]]]]];
            cbn [app] in Es'; injection Es'; intros; subst; try congruence;
            try discriminate.
          cbn [app] in Epre. rewrite Epre in Hp. unfold pair_test in Hp.
          destruct pre'; cbn [app] in Hp;
            change (backslash =? backslash) with true in Hp;
            change (chr "u" =? chr "u") with true in Hp; cbn [andb] in Hp;
            rewrite Ek, El in Hp; discriminate.
        - (* bad hex digits on the new text *)
          unfold pair_test in Ep'.
          destruct (pre ++ dquote :: rest') as [|b [|u [|k1 [|k2 [|k3 [|k4 [|y z]]]]]]] eqn:Es';
            try discriminate.
          destruct (Z.eqb_spec b backslash) as [->|]; [|discriminate].
          destruct (Z.eqb_spec u (chr "u")) as [->|]; [|discriminate].
          cbn [andb] in Ep'.
          destruct (hexval4 k1 k2 k3 k4) as [u2|] eqn:Ek.
          { destruct (is_low_surrogate u2); discriminate. }
          specialize (Hnew start rest'). rewrite Es', scanstring_u, Ek in Hnew.
          discriminate. }
      destruct (is_high_surrogate uni) eqn:Ehi.
      * destruct (pair_test (x :: s7)) as [uni2 s12|s12|] eqn:Ep; [| discriminate |].
        -- (* the pair is joined *)
           unfold pair_test in Ep.
           destruct s7 as [|u [|k1 [|k2 [|k3 [|k4 [|y z]]]]]]; try discriminate.
           destruct ((x =? backslash) && (u =? chr "u")) eqn:Ec; [|discriminate].
           destruct (hexval4 k1 k2 k3 k4) as [u2|] eqn:Ek; [|discriminate].
           destruct (is_low_surrogate u2) eqn:El; [|discriminate].
           injection Ep as <- <-.
           destruct (IH (y :: z)) with (start := start)
             (acc := join_surrogates uni u2 :: acc) (t := t) (rest := rest)
             as [pre [Epre Hnew]]; [simpl in *; lia|exact H|].
           exists (backslash :: chr "u" :: h1 :: h2 :: h3 :: h4
                     :: x :: u :: k1 :: k2 :: k3 :: k4 :: pre).
           split; [cbn [app]; rewrite <- Epre; reflexivity|].
           intros start' rest'. cbn [app].
           destruct (pre ++ dquote :: rest') as [|y' z'] eqn:Es'.
           { destruct pre; discriminate. }
           rewrite scanstring_u, Eh, Ehi. unfold pair_test.
           rewrite Ec, Ek, El. rewrite <- Es'. apply Hnew.
        -- destruct (Plain _ _ H) as [pre [Epre Hnew]].
           exists (backslash :: chr "u" :: h1 :: h2 :: h3 :: h4 :: pre).
           split; [cbn [app]; rewrite <- Epre; reflexivity|].
           intros start' rest'. cbn [app].
           pose proof (Stable eq_refl pre Epre Hnew rest') as St.
           destruct (pre ++ dquote :: rest') as [|y' z'] eqn:Es'.
           { destruct pre; discriminate. }
           rewrite scanstring_u, Eh, Ehi, St. rewrite <- Es'. apply Hnew.
      * destruct (Plain _ _ H) as [pre [Epre Hnew]].
        exists (backslash :: chr "u" :: h1 :: h2 :: h3 :: h4 :: pre).
        split; [cbn [app]; rewrite <- Epre; reflexivity|].
        intros start' rest'. cbn [app].
        destruct (pre ++ dquote :: rest') as [|y' z'] eqn:Es'.
        { destruct pre; discriminate. }
        rewrite scanstring_u, Eh, Ehi. rewrite <- Es'. apply Hnew.
    + cbn [scanstring_from] in H.
      change (backslash =? dquote) with false in H.
      change (backslash =? backslash) with true in H. cbv iota in H.
      destruct (Z.eqb_spec e (chr "u")) as [|_]; [contradiction|].
      destruct (unescape e) as [d|] eqn:Ee; [|discriminate].
      destruct (IH s2) with (start := start) (acc := d :: acc) (t := t) (rest := rest)
        as [pre [Epre Hnew]]; [lia|exact H|].
      exists (backslash :: e :: pre). split; [cbn [app]; rewrite <- Epre; reflexivity|].
      intros start' rest'. cbn [app scanstring_from].
      change (backslash =? dquote) with false.
      change (backslash =? backslash) with true. cbv iota.
      destruct (Z.eqb_spec e (chr "u")) as [|_]; [contradiction|].
      rewrite Ee. apply Hnew.
  - cbn [scanstring_from] in H.
    destruct (Z.eqb_spec c dquote) as [|_]; [contradiction|].
    destruct (Z.eqb_spec c backslash) as [|_]; [contradiction|].
    destruct (c <=? 31) eqn:Ec; [discriminate|].
    destruct (IH s1) with (start := start) (acc := c :: acc) (t := t) (rest := rest)
      as [pre [Epre Hnew]]; [lia|exact H|].
    exists (c :: pre). split; [cbn [app]; rewrite <- Epre; reflexivity|].
    intros start' rest'. cbn [app scanstring_from].
    destruct (Z.eqb_spec c dquote) as [|_]; [contradiction|].
    destruct (Z.eqb_spec c backslash) as [|_]; [contradiction|].
    rewrite Ec. apply Hnew.
Qed.

Lemma prefixb_split (p s : str) :
  prefixb p s = true -> s = p ++ skipn (length p) s.
Proof.
  revert s. induction p as [|a p IH]; intros s H; [reflexivity|].
  destruct s as [|b s]; [discriminate|]. simpl in H.
  apply andb_true_iff in H as [Hab Hp]. apply Z.eqb_eq in Hab. subst b.
  simpl. f_equal. apply IH, Hp.
Qed.

Lemma prefixb_app (p x : str) : prefixb p (p ++ x) = true.
Proof. induction p as [|a p IH]; simpl; [reflexivity|]. now rewrite Z.eqb_refl. Qed.

Lemma skipn_app_exact (p x : str) : skipn (length p) (p ++ x) = x.
Proof. induction p; simpl; auto. Qed.

Lemma match_number_value (s : str) (v : value) (rest : str) :
  match_number s = Some (v, rest) ->
  match v with PyInt _ | PyFloat _ => True | _ => False end.
Proof.
  unfold match_number. destruct (match_sign s) as [sign s1].
  destruct (match_integer s1) as [[digits s2]|]; [|discriminate].
  destruct (match_frac s2) as [frac s3]. destruct (match_exp s3) as [exp s4].
  destruct frac, exp; intro H; injection H as <- _; exact I.
Qed.

Lemma ws_num_stop (c : char) : is_ws c = true -> num_stop c = true.
Proof.
  unfold is_ws. intro H.
  repeat (apply orb_true_iff in H as [H|H]); apply Z.eqb_eq in H; subst c; reflexivity.
Qed.

Lemma head_ws_split (w : str) (c : char) (x : str) (p : char -> bool) :
  forallb is_ws w = true ->
  (forall d, is_ws d = true -> p d = true) -> p c = true ->
  head_ok p (w ++ c :: x) = true.
Proof.
  destruct w as [|d w]; simpl; [auto|].
  intros H Hp _. apply andb_true_iff in H as [H _]. auto.
Qed.

Lemma skip_ws_cons (s : str) (c : char) (r : str) :
  skip_ws s = c :: r ->
  exists w, s = w ++ c :: r /\ forallb is_ws w = true /\ is_ws c = false.
Proof.
  intro E. destruct (skip_ws_split s) as [w [Es Hw]]. exists w.
  rewrite E in Es. split; [exact Es|]. split; [exact Hw|].
  pose proof (skip_ws_head s) as Hh. rewrite E in Hh. simpl in Hh.
  destruct (is_ws c); [discriminate|reflexivity].
Qed.

Lemma skip_ws_at (w : str) (c : char) (r : str) :
  forallb is_ws w = true -> is_ws c = false -> skip_ws (w ++ c :: r) = c :: r.
Proof.
  intros Hw Hc. apply skip_ws_app; [exact Hw|]. simpl. now rewrite Hc.
Qed.

Lemma JSONObject_local_step (f : nat) :
  scan_once_local f -> JSONObject_local f -> JSONObject_local (S f).
Proof.
  intros IHs IHo d s v rest H. cbn [JSONObject] in H.
  destruct s as [|c s1]; [discriminate|].
  destruct (Z.eqb_spec c dquote) as [->|]; [|discriminate].
  destruct (scanstring s1) as [key s2| |] eqn:Ek; try discriminate.
  cbn [scan_bind] in H.
  destruct (scanstring_from_local _ s1 (le_n _) _ _ _ _ Ek) as [pk [-> Lk]].
  destruct (skip_ws s2) as [|c3 s4] eqn:E3; [discriminate|].
  destruct (skip_ws_cons _ _ _ E3) as [w3 [-> [Hw3 Hc3]]].
  destruct (Z.eqb_spec c3 (chr ":")) as [->|]; [|discriminate].
  destruct (scan_once f (skip_ws s4)) as [val s6| |] eqn:Ev; try discriminate.
  cbn [scan_bind] in H.
  destruct (IHs _ _ _ Ev) as [cv [pv [E5 [Hcv [_ Lv]]]]].
  destruct (skip_ws_cons _ _ _ E5) as [w5 [-> [Hw5 _]]].
  destruct (skip_ws s6) as [|c7 s8] eqn:E7; [discriminate|].
  destruct (skip_ws_cons _ _ _ E7) as [w7 [-> [Hw7 Hc7]]].
  assert (Hstop : forall c x, c = chr "}" \/ c = chr "," ->
             head_ok num_stop (w7 ++ c :: x) = true).
  { intros c x Hc. apply head_ws_split; [exact Hw7|exact ws_num_stop|].
    destruct Hc; subst c; reflexivity. }
  destruct (Z.eqb_spec c7 (chr "}")) as [->|N7].
  - injection H as <- <-.
    exists (dquote :: pk ++ dquote :: w3 ++ chr ":" :: w5 ++ (cv :: pv) ++ w7).
    split; [norm_app; reflexivity|].
    split; [eexists; reflexivity|].
    intros f' rest' Hf. destruct f' as [|f'']; [lia|]. norm_app.
    cbn [JSONObject]. change (dquote =? dquote) with true. cbv iota.
    unfold scanstring. rewrite Lk. cbn [scan_bind].
    rewrite (skip_ws_at w3 (chr ":") _ Hw3 eq_refl).
    change (chr ":" =? chr ":") with true. cbv iota.
    rewrite (skip_ws_at w5 cv _ Hw5 Hcv).
    change (cv :: pv ++ w7 ++ chr "}" :: rest')
      with ((cv :: pv) ++ w7 ++ chr "}" :: rest').
    norm_len Hf.
    rewrite Lv; [|cbn [length]; lia|apply Hstop; auto].
    cbn [scan_bind]. rewrite (skip_ws_at w7 (chr "}") _ Hw7 eq_refl).
    change (chr "}" =? chr "}") with true. reflexivity.
  - destruct (Z.eqb_spec c7 (chr ",")) as [->|]; [|discriminate].
    destruct (IHo _ _ _ _ H) as [po [E9 [Hv Lo]]].
    destruct (skip_ws_split s8) as [w9 [E8 Hw9]]. rewrite E9 in E8.
    assert (Hh9 : head_ok not_ws (po ++ chr "}" :: rest) = true).
    { rewrite <- E9. apply skip_ws_head. }
    exists (dquote :: pk ++ dquote :: w3 ++ chr ":" :: w5 ++ (cv :: pv) ++ w7
              ++ chr "," :: w9 ++ po).
    split; [norm_app; rewrite E8; norm_app; reflexivity|].
    split; [exact Hv|].
    intros f' rest' Hf. destruct f' as [|f'']; [lia|]. norm_app.
    cbn [JSONObject]. change (dquote =? dquote) with true. cbv iota.
    unfold scanstring. rewrite Lk. cbn [scan_bind].
    rewrite (skip_ws_at w3 (chr ":") _ Hw3 eq_refl).
    change (chr ":" =? chr ":") with true. cbv iota.
    rewrite (skip_ws_at w5 cv _ Hw5 Hcv).
    change (cv :: pv ++ w7 ++ chr "," :: w9 ++ po ++ chr "}" :: rest')
      with ((cv :: pv) ++ w7 ++ chr "," :: w9 ++ po ++ chr "}" :: rest').
    norm_len Hf.
    rewrite Lv; [|cbn [length]; lia|apply Hstop; auto].
    cbn [scan_bind]. rewrite (skip_ws_at w7 (chr ",") _ Hw7 eq_refl).
    change (chr "," =? chr "}") with false.
    change (chr "," =? chr ",") with true. cbv iota.
    rewrite (skip_ws_app w9 (po ++ chr "}" :: rest') Hw9).
    + apply Lo. lia.
    + destruct po; [reflexivity|exact Hh9].
Qed.

Lemma JSONArray_local_step (f : nat) :
  scan_once_local f -> JSONArray_local f -> JSONArray_local (S f).
Proof.
  intros IHs IHa l s v rest H. cbn [JSONArray] in H.
  destruct (scan_once f s) as [val s2| |] eqn:Ev; try discriminate.
  cbn [scan_bind] in H.
  destruct (IHs _ _ _ Ev) as [cv [pv [-> [Hcv [_ Lv]]]]].
  destruct (skip_ws s2) as [|c3 s4] eqn:E3; [discriminate|].
  destruct (skip_ws_cons _ _ _ E3) as [w3 [-> [Hw3 Hc3]]].
  assert (Hstop : forall c x, c = chr "]" \/ c = chr "," ->
             head_ok num_stop (w3 ++ c :: x) = true).
  { intros c x Hc. apply head_ws_split; [exact Hw3|exact ws_num_stop|].
    destruct Hc; subst c; reflexivity. }
  destruct (Z.eqb_spec c3 (chr "]")) as [->|N3].
  - injection H as <- <-.
    exists ((cv :: pv) ++ w3). split; [norm_app; reflexivity|].
    split; [eexists; reflexivity|].
    intros f' rest' Hf. destruct f' as [|f'']; [lia|]. norm_len Hf.
    rewrite <- app_assoc. cbn [JSONArray].
    rewrite Lv; [|cbn [length]; lia|apply Hstop; auto].
    cbn [scan_bind]. rewrite (skip_ws_at w3 (chr "]") _ Hw3 eq_refl).
    change (chr "]" =? chr "]") with true. reflexivity.
  - destruct (Z.eqb_spec c3 (chr ",")) as [->|]; [|discriminate].
    destruct (IHa _ _ _ _ H) as [pa [E5 [Hv La]]].
    destruct (skip_ws_split s4) as [w5 [E4 Hw5]]. rewrite E5 in E4.
    assert (Hh5 : head_ok not_ws (pa ++ chr "]" :: rest) = true).
    { rewrite <- E5. apply skip_ws_head. }
    exists ((cv :: pv) ++ w3 ++ chr "," :: w5 ++ pa).
    split; [rewrite E4; norm_app; reflexivity|].
    split; [exact Hv|].
    intros f' rest' Hf. destruct f' as [|f'']; [lia|]. norm_len Hf.
    replace (((cv :: pv) ++ w3 ++ chr "," :: w5 ++ pa) ++ chr "]" :: rest')
      with ((cv :: pv) ++ w3 ++ chr "," :: w5 ++ pa ++ chr "]" :: rest')
      by (norm_app; reflexivity).
    cbn [JSONArray].
    rewrite Lv; [|cbn [length]; lia|apply Hstop; auto].
    cbn [scan_bind]. rewrite (skip_ws_at w3 (chr ",") _ Hw3 eq_refl).
    change (chr "," =? chr "]") with false.
    change (chr "," =? chr ",") with true. cbv iota.
    rewrite (skip_ws_app w5 (pa ++ chr "]" :: rest') Hw5).
    + apply La. lia.
    + destruct pa; [reflexivity|exact Hh5].
Qed.

Lemma num_head_facts (c : char) :
  num_head c = true ->
  is_ws c = false /\ (c =? dquote) = false /\ (c =? chr "{") = false /\
  (c =? chr "[") = false /\ (chr "n" =? c) = false /\ (chr "t" =? c) = false /\
  (chr "f" =? c) = false.
Proof.
  unfold num_head, is_digit, is_ws. intro H.
  apply orb_true_iff in H as [H|H].
  - apply andb_true_iff in H as [H1 H2]. apply Z.leb_le in H1, H2.
    change dquote with 34. change (chr "{") with 123. change (chr "[") with 91.
    change (chr "n") with 110. change (chr "t") with 116. change (chr "f") with 102.
    repeat split; repeat (apply orb_false_iff; split); apply Z.eqb_neq; lia.
  - apply Z.eqb_eq in H. subst c. repeat split.
Qed.

Lemma scan_once_local_step (f : nat) :
  JSONObject_local f -> JSONArray_local f -> scan_once_local (S f).
Proof.
  intros IHo IHa s v rest H. cbn [scan_once] in H.
  destruct s as [|c s']; [discriminate|].
  destruct (Z.eqb_spec c dquote) as [->|Nq].
  { (* a string *)
    destruct (scanstring s') as [t s2| |] eqn:Ek; try discriminate.
    cbn [scan_bind] in H. injection H as <- <-.
    destruct (scanstring_from_local _ s' (le_n _) _ _ _ _ Ek) as [pk [-> Lk]].
    exists dquote, (pk ++ [dquote]). split; [norm_app; reflexivity|].
    split; [reflexivity|]. split; [exact I|].
    intros f' rest' Hf _. destruct f' as [|f'']; [simpl in Hf; lia|]. norm_app.
    cbn [scan_once app]. change (dquote =? dquote) with true. cbv iota.
    unfold scanstring. rewrite Lk. reflexivity. }
  destruct (Z.eqb_spec c (chr "{")) as [->|No].
  { (* an object *)
    destruct (skip_ws s') as [|c1 s1] eqn:E1; [discriminate|].
    destruct (skip_ws_cons _ _ _ E1) as [w1 [-> [Hw1 Hc1]]].
    destruct (Z.eqb_spec c1 (chr "}")) as [->|N1].
    - injection H as <- <-.
      exists (chr "{"), (w1 ++ [chr "}"]). split; [norm_app; reflexivity|].
      split; [reflexivity|]. split; [split; [reflexivity|eexists; reflexivity]|].
      intros f' rest' Hf _. destruct f' as [|f'']; [simpl in Hf; lia|]. norm_app.
      cbn [scan_once app]. change (chr "{" =? dquote) with false.
      change (chr "{" =? chr "{") with true. cbv iota.
      rewrite (skip_ws_at w1 (chr "}") _ Hw1 eq_refl).
      change (chr "}" =? chr "}") with true. reflexivity.
    - destruct (IHo _ _ _ _ H) as [po [Eo [Ev Lo]]].
      destruct po as [|p0 po'].
      { cbn [app] in Eo. injection Eo as -> _. contradiction. }
      cbn [app] in Eo. injection Eo as <- ->.
      exists (chr "{"), (w1 ++ (c1 :: po') ++ [chr "}"]).
      split; [norm_app; reflexivity|]. split; [reflexivity|].
      split.
      { destruct Ev as [items ->]. split; [reflexivity|].
        exists (w1 ++ c1 :: po'). norm_app. reflexivity. }
      intros f' rest' Hf _. destruct f' as [|f'']; [simpl in Hf; lia|].
      norm_len Hf. norm_app.
      cbn [scan_once app]. change (chr "{" =? dquote) with false.
      change (chr "{" =? chr "{") with true. cbv iota.
      rewrite (skip_ws_at w1 c1 _ Hw1 Hc1).
      destruct (Z.eqb_spec c1 (chr "}")); [contradiction|].
      change (c1 :: po' ++ chr "}" :: rest') with ((c1 :: po') ++ chr "}" :: rest').
      apply Lo. cbn [length]. lia. }
  destruct (Z.eqb_spec c (chr "[")) as [->|Na].
  { (* an array *)
    destruct (skip_ws s') as [|c1 s1] eqn:E1; [discriminate|].
    destruct (skip_ws_cons _ _ _ E1) as [w1 [-> [Hw1 Hc1]]].
    destruct (Z.eqb_spec c1 (chr "]")) as [->|N1].
    - injection H as <- <-.
      exists (chr "["), (w1 ++ [chr "]"]). split; [norm_app; reflexivity|].
      split; [reflexivity|]. split; [exact I|].
      intros f' rest' Hf _. destruct f' as [|f'']; [simpl in Hf; lia|]. norm_app.
      cbn [scan_once app]. change (chr "[" =? dquote) with false.
      change (chr "[" =? chr "{") with false.
      change (chr "[" =? chr "[") with true. cbv iota.
      rewrite (skip_ws_at w1 (chr "]") _ Hw1 eq_refl).
      change (chr "]" =? chr "]") with true. reflexivity.
    - destruct (IHa _ _ _ _ H) as [pa [Ea [[l' ->] La]]].
      destruct pa as [|p0 pa'].
      { cbn [app] in Ea. injection Ea as -> _. contradiction. }
      cbn [app] in Ea. injection Ea as <- ->.
      exists (chr "["), (w1 ++ (c1 :: pa') ++ [chr "]"]).
      split; [norm_app; reflexivity|]. split; [reflexivity|].
      split; [exact I|].
      intros f' rest' Hf _. destruct f' as [|f'']; [simpl in Hf; lia|].
      norm_len Hf. norm_app.
      cbn [scan_once app]. change (chr "[" =? dquote) with false.
      change (chr "[" =? chr "{") with false.
      change (chr "[" =? chr "[") with true. cbv iota.
      rewrite (skip_ws_at w1 c1 _ Hw1 Hc1).
      destruct (Z.eqb_spec c1 (chr "]")); [contradiction|].
      change (c1 :: pa' ++ chr "]" :: rest') with ((c1 :: pa') ++ chr "]" :: rest').
      apply La. cbn [length]. lia. }
  (* the literals *)
  assert (Lit : forall (lit : str) (val : value),
             lit <> [] ->
             prefixb lit (c :: s') = true ->
             (forall f'' x, scan_once (S f'') (lit ++ x) = Done val (skipn (length lit) (lit ++ x))) ->
             match val with PyDict _ => False | _ => True end ->
             exists c0 pre,
               c :: s' = (c0 :: pre) ++ skipn (length lit) (c :: s') /\ is_ws c0 = false /\
               match val with
               | PyDict _ => c0 = chr "{" /\ exists pre0, pre = pre0 ++ [chr "}"]
               | _ => True
               end /\
               forall f' rest',
                 (length (c0 :: pre) <= f')%nat -> head_ok num_stop rest' = true ->
                 scan_once f' ((c0 :: pre) ++ rest') = Done val rest').
  { intros lit val Hl Hp Hrun Hval.
    pose proof (prefixb_split _ _ Hp) as Es.
    destruct lit as [|l0 lit']; [congruence|].
    exists l0, lit'. split; [exact Es|].
    assert (Hws : is_ws l0 = false).
    { specialize (Hrun O []). destruct (is_ws l0) eqn:W; [|reflexivity].
      exfalso. clear - Hrun W Nq No Na Hp.
      cbn in Hp. apply andb_true_iff in Hp as [Hp _]. apply Z.eqb_eq in Hp. subst c.
      unfold is_ws in W.
      cbn [scan_once app] in Hrun.
      destruct (Z.eqb_spec l0 dquote); [contradiction|].
      destruct (Z.eqb_spec l0 (chr "{")); [contradiction|].
      destruct (Z.eqb_spec l0 (chr "[")); [contradiction|].
      repeat (apply orb_true_iff in W as [W|W]); apply Z.eqb_eq in W; subst l0;
        destruct lit' as [|a [|b [|e [|g lit']]]]; cbn in Hrun; discriminate. }
    split; [exact Hws|]. split; [destruct val; try exact I; contradiction|].
    intros f' rest' Hf _. destruct f' as [|f'']; [simpl in Hf; lia|].
    rewrite Hrun, skipn_app_exact. reflexivity. }
  destruct (prefixb (py "null") (c :: s')) eqn:Pn.
  { injection H as <- <-.
    apply (Lit (py "null") PyNone); [discriminate|exact Pn| |exact I].
    intros f'' x. reflexivity. }
  destruct (prefixb (py "true") (c :: s')) eqn:Pt.
  { injection H as <- <-.
    apply (Lit (py "true") (PyBool true)); [discriminate|exact Pt| |exact I].
    intros f'' x. reflexivity. }
  destruct (prefixb (py "false") (c :: s')) eqn:Pf.
  { injection H as <- <-.
    apply (Lit (py "false") (PyBool false)); [discriminate|exact Pf| |exact I].
    intros f'' x. reflexivity. }
  destruct (match_number (c :: s')) as [[v0 r0]|] eqn:Em.
  { (* a number *)
    injection H as <- <-.
    destruct (match_number_local _ _ _ Em) as [c0 [pre [Es [Hc0 Ln]]]].
    pose proof (match_number_value _ _ _ Em) as Hv.
    destruct (num_head_facts c0 Hc0) as [W [Q [O [A [Fn [Ft Ff]]]]]].
    exists c0, pre. split; [exact Es|]. split; [exact W|].
    split; [destruct v0; try exact I; contradiction|].
    intros f' rest' Hf Hr. destruct f' as [|f'']; [simpl in Hf; lia|].
    cbn [scan_once app]. rewrite Q, O, A.
    change (py "null") with [chr "n"; chr "u"; chr "l"; chr "l"].
    change (py "true") with [chr "t"; chr "r"; chr "u"; chr "e"].
    change (py "false") with [chr "f"; chr "a"; chr "l"; chr "s"; chr "e"].
    cbn [prefixb]. rewrite Fn, Ft, Ff. cbn [andb].
    change (c0 :: pre ++ rest') with ((c0 :: pre) ++ rest').
    rewrite (Ln rest' Hr). reflexivity. }
  destruct (prefixb (py "NaN") (c :: s')) eqn:PN.
  { injection H as <- <-.
    apply (Lit (py "NaN") (PyFloat (py "NaN"))); [discriminate|exact PN| |exact I].
    intros f'' x. reflexivity. }
  destruct (prefixb (py "Infinity") (c :: s')) eqn:PI.
  { injection H as <- <-.
    apply (Lit (py "Infinity") (PyFloat (py "Infinity"))); [discriminate|exact PI| |exact I].
    intros f'' x. reflexivity. }
  destruct (prefixb (py "-Infinity") (c :: s')) eqn:PM; [|discriminate].
  injection H as <- <-.
  apply (Lit (py "-Infinity") (PyFloat (py "-Infinity"))); [discriminate|exact PM| |exact I].
  intros f'' x. reflexivity.
Qed.

Lemma scan_local (f : nat) :
  scan_once_local f /\ JSONObject_local f /\ JSONArray_local f.
Proof.
  induction f as [|f [IHs [IHo IHa]]].
  - repeat split; intro; intros; discriminate.
  - split; [exact (scan_once_local_step f IHo IHa)|].
    split; [exact (JSONObject_local_step f IHs IHo)|].
    exact (JSONArray_local_step f IHs IHa).
Qed.








Lemma is_ws_space (c : char) : is_ws c = true -> Py_UNICODE_ISSPACE c = true.
Proof.
  unfold is_ws. intro H.
  repeat (apply orb_true_iff in H as [H|H]); apply Z.eqb_eq in H; subst c; reflexivity.
Qed.

Lemma all_ws_spaces (w : str) :
  forallb is_ws w = true -> forallb Py_UNICODE_ISSPACE w = true.
Proof.
  induction w as [|c w IH]; simpl; [reflexivity|].
  intro H. apply andb_true_iff in H as [Hc Hw].
  rewrite (is_ws_space c Hc), (IH Hw). reflexivity.
Qed.

Lemma skip_ws_nil (s : str) : skip_ws s = [] -> forallb is_ws s = true.
Proof.
  intro H. destruct (skip_ws_split s) as [w [E W]]. rewrite H, app_nil_r in E.
  subst w. exact W.
Qed.

Lemma forallb_rev {A : Type} (p : A -> bool) (l : list A) :
  forallb p (rev l) = forallb p l.
Proof.
  induction l as [|a l IH]; simpl; [reflexivity|].
  rewrite forallb_app, IH. simpl. rewrite andb_true_r. apply andb_comm.
Qed.

(** Valid JSON for an object is an object text between JSON white space;
    the normaliser keeps exactly the object text, which decodes to the
    same value. *)
Lemma json_loads_dict_trim (raw : str) (items : list (str * value)) :
  json_loads raw = inr (PyDict items) ->
  TextNormalizer raw <> [] /\
  TextNormalizer raw = strip raw /\
  json_loads (TextNormalizer raw) = inr (PyDict items).
Proof.
  unfold json_loads at 1. intro H.
  destruct (startswith [65279] raw); [discriminate|].
  destruct (scan_once (S (2 * length raw)) (skip_ws raw)) as [v rest| |] eqn:Es;
    [|discriminate|discriminate].
  destruct (skip_ws rest) as [|x y] eqn:Er; [|discriminate].
  injection H as ->.
  destruct (scan_local (S (2 * length raw))) as [Ps _].
  destruct (Ps _ _ _ Es) as [c0 [pre [E [_ [[-> [pre0 ->]] L]]]]].
  destruct (skip_ws_split raw) as [w [Eraw Hw]]. rewrite E in Eraw.
  set (body := chr "{" :: pre0 ++ [chr "}"]) in *.
  pose proof (all_ws_spaces w Hw) as Sw.
  pose proof (all_ws_spaces rest (skip_ws_nil rest Er)) as Sr.
  assert (Estrip : strip raw = body).
  { rewrite Eraw. unfold strip, rstrip.
    rewrite (lstrip_spaces w _ Sw).
    assert (E1 : lstrip (body ++ rest) = body ++ rest) by reflexivity.
    rewrite E1, rev_app_distr, lstrip_spaces by (rewrite forallb_rev; exact Sr).
    unfold body. cbn [rev]. rewrite rev_app_distr. cbn [rev app lstrip].
    change (Py_UNICODE_ISSPACE (chr "}")) with false. cbv iota.
    cbn [rev]. rewrite rev_app_distr, rev_involutive. reflexivity. }
  assert (Enorm : TextNormalizer raw = body).
  { unfold TextNormalizer. rewrite Estrip.
    assert (U : unwrap_quotes body = body) by reflexivity.
    rewrite U, <- Estrip. apply strip_idem. }
  rewrite Enorm. split; [discriminate|]. split; [symmetry; exact Estrip|].
  unfold json_loads.
  assert (B : startswith [65279] body = false) by reflexivity.
  assert (W : skip_ws body = body) by reflexivity.
  rewrite B, W.
  specialize (L (S (2 * length body)) []).
  rewrite app_nil_r in L. rewrite L; [reflexivity| |reflexivity].
  cbn [length]. lia.
Qed.

(** ** Running the function *)

Lemma process_json_string_empty (raw : str) :
  TextNormalizer raw = [] ->
  process_json_string raw = ([Step1_clean], inl EmptyInputError).
Proof.
  intro H. unfold process_json_string. rewrite H. reflexivity.
Qed.

Lemma process_json_string_run (raw : str) :
  TextNormalizer raw <> [] ->
  process_json_string raw =
  (enter Step1_clean ;; enter Step2_escapes ;; enter Step3_format ;;
   enter Step4_parse ;;
   json_data <- Parser (fix_str_of raw) ;;
   enter Step5_validate ;;
   SchemaValidator json_data).
Proof.
  intro H. unfold process_json_string, fix_str_of.
  destruct (TextNormalizer raw) as [|c t]; [congruence|]. reflexivity.
Qed.

Lemma steps_bind {A B : Type} (x : M A) (f : A -> M B) :
  steps (bind x f) =
  steps x ++ match outcome x with inr a => steps (f a) | inl _ => [] end.
Proof.
  destruct x as [log [e|a]]; simpl; [now rewrite app_nil_r|].
  destruct (f a) as [log' r]. reflexivity.
Qed.

Lemma outcome_bind {A B : Type} (x : M A) (f : A -> M B) :
  outcome (bind x f) =
  match outcome x with inr a => outcome (f a) | inl e => inl e end.
Proof.
  destruct x as [log [e|a]]; simpl; [reflexivity|].
  destruct (f a) as [log' r]. reflexivity.
Qed.

Lemma bind_ret {A B : Type} (a : A) (f : A -> M B) : bind (ret a) f = f a.
Proof. unfold bind, ret. destruct (f a); reflexivity. Qed.

Lemma bind_raise {A B : Type} (e : exn) (f : A -> M B) :
  bind (raise e) f = raise e.
Proof. reflexivity. Qed.

Lemma M_eta {A : Type} (x : M A) : x = (steps x, outcome x).
Proof. destruct x; reflexivity. Qed.

Lemma contains_container (v : value) (f : str) :
  is_container v = true -> contains v f = ret (holds v f).
Proof. destruct v; simpl; intro H; try discriminate; reflexivity. Qed.

Lemma contains_other (v : value) (f : str) :
  is_container v = false -> contains v f = raise (not_iterable v).
Proof. destruct v; simpl; intro H; try discriminate; reflexivity. Qed.

Lemma not_in_container (fields : list str) (v : value) :
  is_container v = true ->
  not_in fields v = ret (filter (fun f => negb (holds v f)) fields).
Proof.
  intro H. induction fields as [|f fields IH]; simpl; [reflexivity|].
  rewrite (contains_container v f H), IH.
  destruct (holds v f); reflexivity.
Qed.

Lemma not_in_other (f : str) (fields : list str) (v : value) :
  is_container v = false ->
  not_in (f :: fields) v = raise (not_iterable v).
Proof. intro H. simpl. rewrite (contains_other v f H). reflexivity. Qed.

Lemma SchemaValidator_steps (json_data : value) :
  steps (SchemaValidator json_data) = [].
Proof.
  unfold SchemaValidator.
  destruct (is_container json_data) eqn:C.
  - rewrite (not_in_container _ _ C).
    rewrite bind_ret.
    destruct (filter _ required_fields) as [|m ms]; [|reflexivity].
    assert (G : steps (py_get json_data (py "evaluation_rubic") (PyDict [])) = []).
    { destruct json_data; reflexivity. }
    rewrite steps_bind, G. cbn [app].
    destruct (outcome (py_get json_data _ _)) as [e|rubic_data]; [reflexivity|].
    destruct (is_container rubic_data) eqn:C'.
    + rewrite (not_in_container _ _ C'), bind_ret.
      destruct (filter _ rubic_fields); reflexivity.
    + unfold rubic_fields. rewrite (not_in_other _ _ _ C'). reflexivity.
  - unfold required_fields. rewrite (not_in_other _ _ _ C). reflexivity.
Qed.

Lemma process_json_string_parsed (raw : str) (json_data : value) :
  TextNormalizer raw <> [] ->
  json_loads (fix_str_of raw) = inr json_data ->
  process_json_string raw = (all_steps, outcome (SchemaValidator json_data)).
Proof.
  intros H E. rewrite (process_json_string_run raw H).
  unfold Parser. rewrite E.
  pose proof (SchemaValidator_steps json_data) as S0.
  cbn [bind enter ret].
  destruct (SchemaValidator json_data) as [log r]. simpl in S0. subst log.
  reflexivity.
Qed.

(** The validator on a dict. *)
Lemma SchemaValidator_dict (items : list (str * value)) :
  outcome (SchemaValidator (PyDict items)) =
  match filter (fun f => negb (has_key items f)) required_fields with
  | (_ :: _) as missing_fields => inl (MissingFieldError missing_fields)
  | [] =>
      match dict_lookup items (py "evaluation_rubic") with
      | None => inl (MissingRubricFieldError rubic_fields)
      | Some rubic_data =>
          if is_container rubic_data then
            match filter (fun f => negb (holds rubic_data f)) rubic_fields with
            | (_ :: _) as missing_rubic => inl (MissingRubricFieldError missing_rubic)
            | [] => inr (PyDict items)
            end
          else inl (not_iterable rubic_data)
      end
  end.
Proof.
  unfold SchemaValidator.
  rewrite (not_in_container required_fields (PyDict items) eq_refl).
  change (fun f => negb (holds (PyDict items) f))
    with (fun f => negb (has_key items f)).
  rewrite bind_ret.
  destruct (filter _ required_fields) as [|m ms]; [|reflexivity].
  unfold py_get. rewrite bind_ret.
  destruct (dict_lookup items (py "evaluation_rubic")) as [rubic_data|].
  - destruct (is_container rubic_data) eqn:C.
    + rewrite (not_in_container _ _ C), bind_ret.
      destruct (filter _ rubic_fields); reflexivity.
    + unfold rubic_fields. rewrite (not_in_other _ _ _ C). reflexivity.
  - reflexivity.
Qed.

(** ** The normaliser *)

(** C6. Applying the normaliser (trim, remove one enclosing pair of double
    quotes, trim) to its own output changes nothing, whenever that output
    does not both begin and end with a double quote. *)
Theorem C6_normalizer_idempotent (raw : str) :
  ~ (startswith [dquote] (TextNormalizer raw) = true /\
     endswith [dquote] (TextNormalizer raw) = true) ->
  TextNormalizer (TextNormalizer raw) = TextNormalizer raw.
Proof.
  intro H.
  set (t := TextNormalizer raw) in *.
  assert (Ht : strip t = t).
  { unfold t, TextNormalizer. apply strip_idem. }
  unfold TextNormalizer at 1. rewrite Ht.
  unfold unwrap_quotes.
  destruct (startswith [dquote] t) eqn:E1;
    destruct (endswith [dquote] t) eqn:E2; simpl; try exact Ht.
  exfalso. apply H. split; reflexivity.
Qed.

(** C9. An input that trims to a single double quote: that one character
    counts as both the opening and the closing quote, removing the pair
    leaves the empty text, and the function raises the empty-input error
    in step 1, before any decoding. *)
Theorem C9_lone_quote_is_empty (raw : str) :
  strip raw = [dquote] ->
  startswith [dquote] (strip raw) = true /\
  endswith [dquote] (strip raw) = true /\
  unwrap_quotes (strip raw) = [] /\
  process_json_string raw = ([Step1_clean], inl EmptyInputError).
Proof.
  intro H. rewrite H. repeat split.
  apply process_json_string_empty. unfold TextNormalizer. rewrite H.
  reflexivity.
Qed.

(** C5. An input whose text, after trimming and removing an enclosing pair
    of double quotes, is empty or holds white space only: the function
    raises the empty-input error, and step 1 is the only step entered. *)
Theorem C5_empty_input (raw : str) :
  forallb Py_UNICODE_ISSPACE (unwrap_quotes (strip raw)) = true ->
  TextNormalizer raw = [] /\
  process_json_string raw = ([Step1_clean], inl EmptyInputError).
Proof.
  intro H.
  assert (E : TextNormalizer raw = []).
  { unfold TextNormalizer. apply strip_all_spaces, H. }
  split; [exact E|]. apply process_json_string_empty, E.
Qed.

(** ** Decoding and validation *)

Lemma filter_nil_all {A : Type} (p : A -> bool) (l : list A) :
  filter (fun a => negb (p a)) l = [] -> forall a, In a l -> p a = true.
Proof.
  induction l as [|b l IH]; simpl; intros H a Ha; [contradiction|].
  destruct (p b) eqn:E; simpl in H; [|discriminate].
  destruct Ha as [<-|Ha]; auto.
Qed.

Lemma all_filter_nil {A : Type} (p : A -> bool) (l : list A) :
  (forall a, In a l -> p a = true) -> filter (fun a => negb (p a)) l = [].
Proof.
  induction l as [|b l IH]; simpl; intro H; [reflexivity|].
  rewrite (H b (or_introl eq_refl)). simpl. apply IH. intros a Ha. auto.
Qed.

Lemma pyslice_to_firstn (n : nat) (s : str) :
  pyslice_to (Z.of_nat n) s = firstn n s.
Proof.
  unfold pyslice_to, pyslice, slice_bound.
  destruct (0 <? 0) eqn:E0; [discriminate|].
  assert (E1 : (Z.of_nat n <? 0) = false) by (apply Z.ltb_ge; lia).
  rewrite E1.
  assert (Ea : Z.max 0 (Z.min (Z.of_nat (length s)) 0) = 0) by lia.
  rewrite Ea, Z.sub_0_r. cbn [Z.to_nat skipn].
  destruct (Nat.le_ge_cases n (length s)) as [L|L].
  - f_equal. lia.
  - replace (Z.to_nat (Z.max 0 (Z.min (Z.of_nat (length s)) (Z.of_nat n))))
      with (length s) by lia.
    rewrite firstn_all. symmetry. apply firstn_all2. exact L.
Qed.

Lemma SchemaValidator_missing_rubric (items : list (str * value))
  (rubic_data : value) :
  filter (fun f => negb (has_key items f)) required_fields = [] ->
  dict_lookup items (py "evaluation_rubic") = Some rubic_data ->
  is_container rubic_data = true ->
  filter (fun f => negb (holds rubic_data f)) rubic_fields <> [] ->
  outcome (SchemaValidator (PyDict items))
  = inl (MissingRubricFieldError
           (filter (fun f => negb (holds rubic_data f)) rubic_fields)).
Proof.
  intros Ha Hr Hc Hs. rewrite SchemaValidator_dict, Ha, Hr, Hc.
  destruct (filter (fun f => negb (holds rubic_data f)) rubic_fields);
    [congruence|reflexivity].
Qed.

Lemma join_names_join (l : list str) :
  join_names l = join (py ", ") (map quoted l).
Proof.
  assert (E : py "', " = py "'" ++ py ", ") by (vm_compute; reflexivity).
  induction l as [|a l IH]; [reflexivity|].
  destruct l as [|b l']; [reflexivity|].
  change (join_names (a :: b :: l'))
    with (py "'" ++ a ++ py "', " ++ join_names (b :: l')).
  change (join (py ", ") (map quoted (a :: b :: l')))
    with (quoted a ++ py ", " ++ join (py ", ") (map quoted (b :: l'))).
  rewrite IH, E. unfold quoted. norm_app. reflexivity.
Qed.

Lemma repr_names_list_repr (l : list str) : repr_names l = list_repr l.
Proof. unfold repr_names, list_repr. rewrite join_names_join. reflexivity. Qed.

(** C3 (amended). When the repaired text decodes to an object: if required
    top-level keys are absent the function raises the [ValueError] of line
    67, whose message lists exactly the absent ones among the three, in the
    order of [required_fields], whatever the rubric holds; if none is
    absent and [evaluation_rubic] is bound to an object from which required
    sub-keys are absent, it raises the [ValueError] of line 74, whose
    message lists exactly the absent ones among the five.  The same holds
    for a rubric that is a list or a string, with the names that are not
    among its elements, or not substrings of it, in place of the absent
    keys.  (A rubric that is a number, a boolean or null raises
    [TypeError]: that is C10.) *)
Theorem C3_missing_keys (raw : str) (items : list (str * value)) :
  TextNormalizer raw <> [] ->
  json_loads (fix_str_of raw) = inr (PyDict items) ->
  let absent := filter (fun f => negb (has_key items f)) required_fields in
  (absent <> [] ->
   process_json_string raw =
   (all_steps,
    inl (ValueError (py "解析后的JSON缺失关键字段：" ++ list_repr absent)))) /\
  (absent = [] ->
   (forall rubic : list (str * value),
      dict_lookup items (py "evaluation_rubic") = Some (PyDict rubic) ->
      let absent_sub := filter (fun f => negb (has_key rubic f)) rubic_fields in
      absent_sub <> [] ->
      process_json_string raw =
      (all_steps,
       inl (ValueError (py "evaluation_rubic缺失子字段："
                        ++ list_repr absent_sub)))) /\
   (forall rubic_data : value,
      dict_lookup items (py "evaluation_rubic") = Some rubic_data ->
      is_container rubic_data = true ->
      let absent_sub :=
        filter (fun f => negb (holds rubic_data f)) rubic_fields in
      absent_sub <> [] ->
      process_json_string raw =
      (all_steps,
       inl (ValueError (py "evaluation_rubic缺失子字段："
                        ++ list_repr absent_sub))))).
Proof.
  intros Hn Hj absent.
  rewrite (process_json_string_parsed raw _ Hn Hj). split.
  - intro Ha. rewrite SchemaValidator_dict. fold absent.
    destruct absent as [|a0 l0] eqn:E; [congruence|].
    unfold MissingFieldError. rewrite repr_names_list_repr. reflexivity.
  - intros Ha. split.
    + intros rubic Hr absent_sub Hs. f_equal.
      rewrite (SchemaValidator_missing_rubric items (PyDict rubic) Ha Hr
                 eq_refl Hs).
      unfold MissingRubricFieldError. rewrite repr_names_list_repr.
      reflexivity.
    + intros rubic_data Hr Hc absent_sub Hs. f_equal.
      rewrite (SchemaValidator_missing_rubric items rubic_data Ha Hr Hc Hs).
      unfold MissingRubricFieldError. rewrite repr_names_list_repr.
      reflexivity.
Qed.

(** C10. When the repaired text decodes to an object that has the three
    required keys and binds [evaluation_rubic] to a value that is neither
    an object, a list nor a string (a number, a boolean, null), the
    membership test on it raises [TypeError]; the function does not raise
    the missing-rubric-field error. *)
Theorem C10_rubric_not_a_container (raw : str) (items : list (str * value))
  (rubic_data : value) :
  TextNormalizer raw <> [] ->
  json_loads (fix_str_of raw) = inr (PyDict items) ->
  (forall f, In f required_fields -> has_key items f = true) ->
  dict_lookup items (py "evaluation_rubic") = Some rubic_data ->
  is_container rubic_data = false ->
  process_json_string raw = (all_steps, inl (not_iterable rubic_data)) /\
  forall l, outcome (process_json_string raw) <> inl (MissingRubricFieldError l).
Proof.
  intros Hn Hj Hk Hr Hc.
  assert (E : process_json_string raw
              = (all_steps, inl (not_iterable rubic_data))).
  { rewrite (process_json_string_parsed raw _ Hn Hj), SchemaValidator_dict.
    rewrite (all_filter_nil _ _ Hk), Hr, Hc. reflexivity. }
  split; [exact E|]. intro l. rewrite E. discriminate.
Qed.

(** C2 (amended). When the function returns, the result is an object that
    has the keys [generation_prompt], [manual] and [evaluation_rubic]; the
    value of [evaluation_rubic] is an object, a list or a string in which
    each of the five rubric names is found (as a key, an element, a
    substring).  The types of the bound values are not checked. *)
Theorem C2_result_has_required_keys (raw : str) (v : value) :
  outcome (process_json_string raw) = inr v ->
  exists (items : list (str * value)) (rubic_data : value),
    v = PyDict items /\
    has_key items (py "generation_prompt") = true /\
    has_key items (py "manual") = true /\
    dict_lookup items (py "evaluation_rubic") = Some rubic_data /\
    is_container rubic_data = true /\
    forall f, In f rubic_fields -> holds rubic_data f = true.
Proof.
  intro H.
  destruct (TextNormalizer raw) as [|c t] eqn:Hn.
  { rewrite (process_json_string_empty raw Hn) in H. discriminate. }
  assert (Hn' : TextNormalizer raw <> []) by congruence.
  destruct (json_loads (fix_str_of raw)) as [[m p]|j] eqn:Hj.
  { rewrite (process_json_string_run raw Hn') in H.
    unfold Parser in H. rewrite Hj in H. discriminate. }
  rewrite (process_json_string_parsed raw j Hn' Hj) in H.
  cbn [outcome snd] in H.
  destruct j as [| | | | t0 | l | items];
    try (unfold SchemaValidator, required_fields in H;
         rewrite not_in_other in H by reflexivity; discriminate).
  - unfold SchemaValidator in H.
    rewrite (not_in_container _ (PyStr t0) eq_refl), bind_ret in H.
    destruct (filter _ required_fields); discriminate.
  - unfold SchemaValidator in H.
    rewrite (not_in_container _ (PyList l) eq_refl), bind_ret in H.
    destruct (filter _ required_fields); discriminate.
  - rewrite SchemaValidator_dict in H.
    destruct (filter (fun f => negb (has_key items f)) required_fields)
      as [|a0 l0] eqn:Hf; [|discriminate].
    destruct (dict_lookup items (py "evaluation_rubic")) as [rubic_data|] eqn:Hr;
      [|discriminate].
    destruct (is_container rubic_data) eqn:Hc; [|discriminate].
    destruct (filter (fun f => negb (holds rubic_data f)) rubic_fields)
      as [|a1 l1] eqn:Hf'; [|discriminate].
    injection H as <-.
    exists items, rubic_data.
    pose proof (filter_nil_all _ _ Hf) as K.
    split; [reflexivity|].
    split; [apply K; unfold required_fields; simpl; auto|].
    split; [apply K; unfold required_fields; simpl; auto|].
    split; [exact Hr|]. split; [exact Hc|].
    exact (filter_nil_all _ _ Hf').
Qed.


(** C7. On the text [{"a":1,}] the structural repairs remove the comma
    before the closing brace and change nothing else; the repaired text
    decodes to the object with the single key [a] bound to the integer 1;
    in the run of the function step 4 returns that object (the run goes on
    to step 5, which reports the three missing fields). *)
Theorem C7_trailing_comma :
  StructuralRepairer (jq "{`a`:1,}") = jq "{`a`:1}" /\
  fix_str_of (jq "{`a`:1,}") = jq "{`a`:1}" /\
  json_loads (jq "{`a`:1}") = inr (PyDict [(py "a", PyInt 1)]) /\
  Parser (fix_str_of (jq "{`a`:1,}")) = ret (PyDict [(py "a", PyInt 1)]) /\
  process_json_string (jq "{`a`:1,}") =
  (all_steps, inl (MissingFieldError required_fields)).
Proof. repeat split; vm_compute; reflexivity. Qed.

(** ** The escape repairs *)

Lemma replace_absent (old new s : str) :
  substringb old s = false -> replace old new s = s.
Proof.
  unfold replace. induction s as [|c s' IH]; [reflexivity|].
  intro H. cbn [substringb] in H. apply orb_false_iff in H as [H1 H2].
  cbn [replace_from]. rewrite H1, (IH H2). reflexivity.
Qed.

Lemma replace_char (a b : char) (s : str) :
  replace [a] [b] s = map (fun c => if c =? a then b else c) s.
Proof.
  unfold replace. induction s as [|c s' IH]; [reflexivity|].
  cbn [replace_from prefixb map length Nat.pred]. rewrite andb_true_r, IH.
  rewrite (Z.eqb_sym a c). destruct (c =? a); reflexivity.
Qed.

Lemma sub_backslash_digit_absent (prev : option char) (s : str) :
  has_backslash_digit s = false ->
  sub_from re_backslash_digit repl_backslash_digit prev 0 s = s.
Proof.
  revert prev. induction s as [|c s' IH]; intros prev H; [reflexivity|].
  cbn [has_backslash_digit] in H. apply orb_false_iff in H as [H1 H2].
  cbn [sub_from]. rewrite (IH _ H2).
  unfold match_at, re_backslash_digit.
  cbn [rmatch m_rest m_caps m_prev in_class].
  destruct (c =? backslash) eqn:Ec; [|reflexivity].
  cbn [flat_map rmatch m_rest m_caps m_prev in_class app map].
  destruct s' as [|d s'']; [reflexivity|].
  simpl in H1. rewrite H1. reflexivity.
Qed.

(** C8. For a text in which step 2 has nothing else to repair (no doubled
    backslash before n or t, no backslash before a digit, none of the six
    other characters of the table), the escape repairs turn each
    full-width colon into a colon and each full-width comma into a comma
    and leave every other character as it is and where it is. *)
Theorem C8_fullwidth_colon_comma (s : str) :
  substringb (py "\\n") s = false ->
  substringb (py "\\t") s = false ->
  has_backslash_digit s = false ->
  forallb (fun c => negb (other_table_char c)) s = true ->
  EscapeRepairer s = map fullwidth_to_ascii s /\
  length (EscapeRepairer s) = length s /\
  forall (i : nat) (c : char),
    nth_error s i = Some c ->
    nth_error (EscapeRepairer s) i = Some (fullwidth_to_ascii c) /\
    (c <> 65306 -> c <> 65292 -> nth_error (EscapeRepairer s) i = Some c).
Proof.
  intros Hn Ht Hd Ho.
  assert (E : EscapeRepairer s = map fullwidth_to_ascii s).
  { unfold EscapeRepairer.
    rewrite (replace_absent _ _ _ Hn), (replace_absent _ _ _ Ht).
    unfold re_sub. rewrite (sub_backslash_digit_absent None s Hd).
    change (py "：") with [65306]. change (py ":") with [58].
    change (py "，") with [65292]. change (py ",") with [44].
    change (py "”") with [8221]. change (py "“") with [8220].
    change (py "；") with [65307]. change (py ";") with [59].
    change (py "。") with [12290]. change (py ".") with [46].
    change (py "（") with [65288]. change (py "(") with [40].
    change (py "）") with [65289]. change (py ")") with [41].
    rewrite !replace_char, !map_map.
    apply map_ext_in. intros c Hc.
    rewrite forallb_forall in Ho. specialize (Ho c Hc).
    unfold other_table_char in Ho.
    change (py "”“；。（）") with [8221; 8220; 65307; 12290; 65288; 65289] in Ho.
    cbn [existsb] in Ho.
    unfold fullwidth_to_ascii, dquote. change (chr ":") with 58.
    change (chr ",") with 44.
    destruct (Z.eqb_spec c 65306) as [->|N1]; [reflexivity|].
    destruct (Z.eqb_spec c 65292) as [->|N2]; [reflexivity|].
    destruct (c =? 8221); [discriminate|].
    destruct (c =? 8220); [discriminate|].
    destruct (c =? 65307); [discriminate|].
    destruct (c =? 12290); [discriminate|].
    destruct (c =? 65288); [discriminate|].
    destruct (c =? 65289); [discriminate|].
    reflexivity. }
  split; [exact E|]. split; [rewrite E; apply length_map|].
  intros i c Hi. rewrite E.
  assert (G : nth_error (map fullwidth_to_ascii s) i
              = Some (fullwidth_to_ascii c))
    by (apply map_nth_error; exact Hi).
  split; [exact G|].
  intros N1 N2. rewrite G. unfold fullwidth_to_ascii.
  destruct (Z.eqb_spec c 65306); [contradiction|].
  destruct (Z.eqb_spec c 65292); [contradiction|]. reflexivity.
Qed.

(** ** Valid input *)

Lemma bound_has_key (d : list (str * value)) (k : str) :
  bound_to_str d k = true -> has_key d k = true.
Proof.
  unfold bound_to_str, has_key. destruct (dict_lookup d k); [reflexivity|discriminate].
Qed.

Lemma schema_passes (v : value) :
  satisfies_schema v = true -> outcome (SchemaValidator v) = inr v.
Proof.
  destruct v as [| | | | | |items]; try discriminate.
  unfold satisfies_schema. intro H.
  apply andb_true_iff in H as [H Hr]. apply andb_true_iff in H as [Hg Hm].
  destruct (dict_lookup items (py "evaluation_rubic")) as [[| | | | | |r]|] eqn:Er;
    try discriminate.
  rewrite SchemaValidator_dict.
  rewrite all_filter_nil.
  - rewrite Er. cbn [is_container]. rewrite all_filter_nil; [reflexivity|].
    intros f Hf. rewrite forallb_forall in Hr. apply bound_has_key, Hr, Hf.
  - intros f Hf. unfold required_fields in Hf. cbn [In] in Hf.
    destruct Hf as [<-|[<-|[<-|[]]]].
    + apply bound_has_key, Hg.
    + unfold has_key. rewrite Er. reflexivity.
    + apply bound_has_key, Hm.
Qed.

(** C1 (amended). For an input that is valid JSON, whose decoded value
    satisfies the schema, and in which the repairs of steps 2 and 3 find
    nothing to rewrite (the repaired text is the normalised text), the
    function returns the value [json.loads] returns for the input; the
    normaliser only removes the white space around the document. *)
Theorem C1_valid_json_unrepaired (raw : str) (v : value) :
  json_loads raw = inr v ->
  satisfies_schema v = true ->
  fix_str_of raw = TextNormalizer raw ->
  TextNormalizer raw = strip raw /\
  json_loads (TextNormalizer raw) = inr v /\
  process_json_string raw = (all_steps, inr v).
Proof.
  intros Hj Hs Hfix.
  destruct v as [| | | | | |items]; try discriminate.
  destruct (json_loads_dict_trim raw items Hj) as [Hn [Hstrip Hj']].
  split; [exact Hstrip|]. split; [exact Hj'|].
  rewrite <- Hfix in Hj'.
  rewrite (process_json_string_parsed raw _ Hn Hj').
  rewrite (schema_passes _ Hs). reflexivity.
Qed.

(** The claim C1 as the specification states it fails on valid documents
    in which a repair finds something inside a string: a full-width comma
    is turned into a comma and the value returned differs from the decoded
    one; an apostrophe is turned into a double quote and the text no longer
    decodes.  This holds whatever the Unicode tables are. *)
Lemma valid_documents_rewritten :
  json_loads fullwidth_doc
  = inr (PyDict [(py "generation_prompt", PyStr (py "a，b"));
                 (py "evaluation_rubic", sample_rubric_value);
                 (py "manual", PyStr (py "m"))]) /\
  process_json_string fullwidth_doc
  = (all_steps,
     inr (PyDict [(py "generation_prompt", PyStr (py "a,b"));
                  (py "evaluation_rubic", sample_rubric_value);
                  (py "manual", PyStr (py "m"))])) /\
  json_loads apostrophe_doc
  = inr (PyDict [(py "generation_prompt", PyStr (py "it's"));
                 (py "evaluation_rubic", sample_rubric_value);
                 (py "manual", PyStr (py "m"))]) /\
  steps (process_json_string apostrophe_doc)
  = [Step1_clean; Step2_escapes; Step3_format; Step4_parse] /\
  exists e, outcome (process_json_string apostrophe_doc)
            = inl (JSONDecodeError e) /\ e_pos e = 25.
Proof.
  split; [vm_compute; reflexivity|]. split; [vm_compute; reflexivity|].
  split; [vm_compute; reflexivity|]. split; [vm_compute; reflexivity|].
  eexists. split; vm_compute; reflexivity.
Qed.

(** The function returns the untyped document although no value in it is a
    string: key presence is all that step 5 checks. *)
Lemma untyped_document_accepted :
  process_json_string untyped_doc
  = (all_steps,
     inr (PyDict [(py "generation_prompt", PyInt 1);
                  (py "evaluation_rubic",
                   PyList (map PyStr rubic_fields));
                  (py "manual", PyNone)])).
Proof. vm_compute. reflexivity. Qed.

(** * Further properties of [process_json_string] *)

(** ** White space and quotes around the input *)

Lemma lstrip_app_spaces (s w : str) :
  forallb Py_UNICODE_ISSPACE w = true ->
  lstrip (s ++ w) = match lstrip s with [] => [] | _ :: _ => lstrip s ++ w end.
Proof.
  intro H. induction s as [|c s IH]; simpl.
  - apply lstrip_all_spaces, H.
  - destruct (Py_UNICODE_ISSPACE c); [exact IH|reflexivity].
Qed.

Lemma strip_surrounded (w s w' : str) :
  forallb Py_UNICODE_ISSPACE w = true ->
  forallb Py_UNICODE_ISSPACE w' = true ->
  strip (w ++ s ++ w') = strip s.
Proof.
  intros H H'. unfold strip.
  rewrite (lstrip_spaces w _ H), (lstrip_app_spaces s w' H').
  destruct (lstrip s) as [|c t] eqn:E; [reflexivity|].
  unfold rstrip. rewrite rev_app_distr, lstrip_spaces; [reflexivity|].
  rewrite forallb_rev. exact H'.
Qed.

(** X1. White space around the input never matters: the run on a text
    with Python white space added before and after it is the run on the
    text. *)
Theorem process_json_string_surrounding_space (w raw w' : str) :
  forallb Py_UNICODE_ISSPACE w = true ->
  forallb Py_UNICODE_ISSPACE w' = true ->
  process_json_string (w ++ raw ++ w') = process_json_string raw.
Proof.
  intros H H'. unfold process_json_string, TextNormalizer.
  rewrite (strip_surrounded w raw w' H H'). reflexivity.
Qed.

Lemma pyslice_inner (a b : char) (t : str) :
  pyslice 1 (-1) (a :: t ++ [b]) = t.
Proof.
  unfold pyslice, slice_bound. cbv zeta.
  set (n := Z.of_nat (length (a :: t ++ [b]))).
  assert (Hn : n = Z.of_nat (length t) + 2).
  { unfold n. cbn [length]. rewrite length_app. cbn [length]. lia. }
  change (1 <? 0) with false. change (-1 <? 0) with true. cbv iota.
  replace (Z.to_nat (Z.max 0 (Z.min n 1))) with 1%nat by lia.
  replace (Z.to_nat (Z.max 0 (Z.min n (-1 + n)) - Z.max 0 (Z.min n 1)))
    with (length t) by lia.
  cbn [skipn]. rewrite firstn_app, firstn_all, Nat.sub_diag.
  cbn [firstn]. apply app_nil_r.
Qed.

Lemma TextNormalizer_quoted (t : str) :
  TextNormalizer ([dquote] ++ t ++ [dquote]) = strip t.
Proof.
  unfold TextNormalizer.
  assert (E : strip ([dquote] ++ t ++ [dquote]) = [dquote] ++ t ++ [dquote]).
  { apply strip_trimmed_fixed. split; [reflexivity|].
    cbn [app rev]. rewrite rev_app_distr. reflexivity. }
  rewrite E. unfold unwrap_quotes, startswith, endswith.
  cbn [app rev]. rewrite rev_app_distr. cbn [rev app prefixb].
  rewrite Z.eqb_refl. cbn [andb]. rewrite pyslice_inner. reflexivity.
Qed.

(** X2. One pair of double quotes around the input is removed and no
    more: the normalised text of a quoted text is the trimmed text between
    the quotes, whatever it is; and unless that trimmed text itself begins
    and ends with a double quote, the run on the quoted text is the run on
    the text. *)
Theorem process_json_string_quoted (t : str) :
  TextNormalizer ([dquote] ++ t ++ [dquote]) = strip t /\
  (~ (startswith [dquote] (strip t) = true /\
      endswith [dquote] (strip t) = true) ->
   process_json_string ([dquote] ++ t ++ [dquote]) = process_json_string t).
Proof.
  split; [apply TextNormalizer_quoted|]. intro H.
  assert (E : TextNormalizer t = strip t).
  { unfold TextNormalizer, unwrap_quotes.
    destruct (startswith [dquote] (strip t)) eqn:E1;
      destruct (endswith [dquote] (strip t)) eqn:E2; cbn [andb];
      try apply strip_idem.
    exfalso. apply H. split; reflexivity. }
  unfold process_json_string. rewrite TextNormalizer_quoted, E. reflexivity.
Qed.

(** ** What the repairs leave behind *)

(** X3. After step 2 the text holds none of the eight characters of the
    replacement table (the full-width colon, comma, semicolon, full stop
    and parentheses, and the two curly double quotes), whatever the text
    was. *)
Theorem EscapeRepairer_no_table_char (s : str) :
  forallb (fun c => negb (existsb (Z.eqb c) (py "：，”“；。（）")))
    (EscapeRepairer s) = true.
Proof.
  unfold EscapeRepairer.
  set (t := re_sub re_backslash_digit repl_backslash_digit _).
  change (py "：") with [65306]. change (py ":") with [58].
  change (py "，") with [65292]. change (py ",") with [44].
  change (py "”") with [8221]. change (py "“") with [8220].
  change (py "；") with [65307]. change (py ";") with [59].
  change (py "。") with [12290]. change (py ".") with [46].
  change (py "（") with [65288]. change (py "(") with [40].
  change (py "）") with [65289]. change (py ")") with [41].
  rewrite !replace_char, !map_map.
  apply forallb_forall. intros x Hx. apply in_map_iff in Hx as [c [<- _]].
  change (py "：，”“；。（）")
    with [65306; 65292; 8221; 8220; 65307; 12290; 65288; 65289].
  unfold dquote. cbn [existsb].
  destruct (Z.eqb_spec c 65306) as [->|N1]; [reflexivity|].
  destruct (Z.eqb_spec c 65292) as [->|N2]; [reflexivity|].
  destruct (Z.eqb_spec c 8221) as [->|N3]; [reflexivity|].
  destruct (Z.eqb_spec c 8220) as [->|N4]; [reflexivity|].
  destruct (Z.eqb_spec c 65307) as [->|N5]; [reflexivity|].
  destruct (Z.eqb_spec c 12290) as [->|N6]; [reflexivity|].
  destruct (Z.eqb_spec c 65288) as [->|N7]; [reflexivity|].
  destruct (Z.eqb_spec c 65289) as [->|N8]; [reflexivity|].
  apply Z.eqb_neq in N1, N2, N3, N4, N5, N6, N7, N8.
  cbv beta iota. rewrite N1, N2, N3, N4, N5, N6, N7, N8. reflexivity.
Qed.

Lemma sub_single_quote_escaped (s : str) (prev_in prev_out : option char) :
  same_char prev_out backslash = same_char prev_in backslash ->
  apostrophes_escaped prev_out
    (sub_from re_single_quote [RLit dquote] prev_in 0 s) = true.
Proof.
  revert prev_in prev_out.
  induction s as [|c s' IH]; intros prev_in prev_out H.
  - cbn [sub_from]. unfold match_at, re_single_quote.
    cbn [rmatch flat_map m_prev m_rest].
    destruct (same_char prev_in backslash); reflexivity.
  - cbn [sub_from]. unfold match_at, re_single_quote.
    cbn [rmatch flat_map m_prev m_rest m_caps in_class].
    destruct (same_char prev_in backslash) eqn:Ep.
    + cbn [flat_map apostrophes_escaped]. rewrite H, orb_true_r.
      cbn [andb]. apply IH. reflexivity.
    + cbn [flat_map app rmatch m_rest m_caps in_class].
      destruct (c =? chr "'") eqn:Ec.
      * cbn [app m_rest m_caps].
        replace (length (c :: s') - length s')%nat with 1%nat
          by (cbn [length]; lia).
        cbn [expand app apostrophes_escaped].
        change (dquote =? chr "'") with false. cbn [negb orb andb].
        apply IH. apply Z.eqb_eq in Ec. subst c. reflexivity.
      * cbn [app apostrophes_escaped]. rewrite Ec. cbn [negb orb andb].
        apply IH. reflexivity.
Qed.

(** X4. After step 3 every apostrophe left in the text directly follows
    a backslash: line 48 turns every other one into a double quote, also
    inside string values. *)
Theorem StructuralRepairer_apostrophes (s : str) :
  apostrophes_escaped None (StructuralRepairer s) = true.
Proof.
  unfold StructuralRepairer, re_sub.
  apply sub_single_quote_escaped. reflexivity.
Qed.

(** ** A document that is itself an escaped string *)

Lemma replace_keeps_head (o n t : str) :
  exists t',
    replace (backslash :: o) (backslash :: n) (chr "{" :: backslash :: t)
    = chr "{" :: backslash :: t'.
Proof.
  unfold replace. cbn [replace_from prefixb].
  change (backslash =? chr "{") with false. cbn [andb].
  rewrite Z.eqb_refl. cbn [andb].
  destruct (prefixb o t); eexists; reflexivity.
Qed.

Lemma sub_backslash_digit_keeps_head (t : str) :
  exists t',
    re_sub re_backslash_digit repl_backslash_digit (chr "{" :: backslash :: t)
    = chr "{" :: backslash :: t'.
Proof.
  unfold re_sub. cbn [sub_from].
  change (match_at re_backslash_digit None (chr "{" :: backslash :: t))
    with (@None (list (nat * str) * nat)).
  cbv iota.
  destruct (match_at re_backslash_digit (Some (chr "{")) (backslash :: t))
    as [[caps [|n]]|]; eexists; reflexivity.
Qed.

Lemma map_keeps_head (f : char -> char) (t : str) :
  f (chr "{") = chr "{" -> f backslash = backslash ->
  map f (chr "{" :: backslash :: t) = chr "{" :: backslash :: map f t.
Proof. intros H1 H2. cbn [map]. rewrite H1, H2. reflexivity. Qed.

Lemma EscapeRepairer_keeps_head (t : str) :
  exists t',
    EscapeRepairer (chr "{" :: backslash :: t) = chr "{" :: backslash :: t'.
Proof.
  unfold EscapeRepairer.
  destruct (replace_keeps_head [backslash; chr "n"] [chr "n"] t) as [t1 E1].
  change (replace (py "\\n") (py "\n") (chr "{" :: backslash :: t))
    with (replace [backslash; backslash; chr "n"] [backslash; chr "n"]
            (chr "{" :: backslash :: t)).
  rewrite E1.
  destruct (replace_keeps_head [backslash; chr "t"] [chr "t"] t1) as [t2 E2].
  change (replace (py "\\t") (py "\t") (chr "{" :: backslash :: t1))
    with (replace [backslash; backslash; chr "t"] [backslash; chr "t"]
            (chr "{" :: backslash :: t1)).
  rewrite E2.
  destruct (sub_backslash_digit_keeps_head t2) as [t3 E3]. rewrite E3.
  change (py "：") with [65306]. change (py ":") with [58].
  change (py "，") with [65292]. change (py ",") with [44].
  change (py "”") with [8221]. change (py "“") with [8220].
  change (py "；") with [65307]. change (py ";") with [59].
  change (py "。") with [12290]. change (py ".") with [46].
  change (py "（") with [65288]. change (py "(") with [40].
  change (py "）") with [65289]. change (py ")") with [41].
  rewrite !replace_char, !map_map.
  eexists. apply map_keeps_head; reflexivity.
Qed.

Lemma sub_from_no_match (r : regex) (repl : list ritem) (prev : option char)
  (c : char) (s : str) :
  match_at r prev (c :: s) = None ->
  sub_from r repl prev 0 (c :: s) = c :: sub_from r repl (Some c) 0 s.
Proof. intro H. cbn [sub_from]. rewrite H. reflexivity. Qed.

Lemma StructuralRepairer_keeps_head (t : str) :
  exists t',
    StructuralRepairer (chr "{" :: backslash :: t)
    = chr "{" :: backslash :: t'.
Proof.
  unfold StructuralRepairer, re_sub.
  rewrite (sub_from_no_match (re_comma_close (chr "}"))) by reflexivity.
  rewrite (sub_from_no_match (re_comma_close (chr "}"))) by reflexivity.
  rewrite (sub_from_no_match (re_comma_close (chr "]"))) by reflexivity.
  rewrite (sub_from_no_match (re_comma_close (chr "]"))) by reflexivity.
  rewrite (sub_from_no_match re_bare_key) by reflexivity.
  rewrite (sub_from_no_match re_bare_key) by reflexivity.
  rewrite (sub_from_no_match re_single_quote) by reflexivity.
  rewrite (sub_from_no_match re_single_quote) by reflexivity.
  eexists. reflexivity.
Qed.

Lemma json_loads_brace_backslash (t : str) :
  json_loads (chr "{" :: backslash :: t) = inl (Expecting_property_name, 1).
Proof.
  unfold json_loads.
  change (startswith [65279] (chr "{" :: backslash :: t)) with false.
  cbv iota.
  change (skip_ws (chr "{" :: backslash :: t)) with (chr "{" :: backslash :: t).
  replace (2 * length (chr "{" :: backslash :: t))%nat
    with (S (S (S (S (2 * length t))))) by (cbn [length]; lia).
  cbn [scan_once].
  change (chr "{" =? dquote) with false.
  change (chr "{" =? chr "{") with true. cbv iota.
  change (skip_ws (backslash :: t)) with (backslash :: t). cbv iota.
  change (backslash =? chr "}") with false. cbv iota.
  cbn [JSONObject].
  change (backslash =? dquote) with false. cbv iota.
  f_equal. f_equal. cbn [length]. lia.
Qed.

(** X5. A text that, once normalised, begins with an opening brace
    directly followed by a backslash (a document whose quotes or line
    breaks are still escaped, as in the text the module passes when run as
    a script) is never repaired: the repairs leave the two characters in
    place, the decoder rejects the backslash where it expects a property
    name, and the function raises the [JSONDecodeError] of step 4 with
    index 1. *)
Theorem escaped_document_rejected (raw t : str) :
  TextNormalizer raw = chr "{" :: backslash :: t ->
  json_loads (fix_str_of raw) = inl (Expecting_property_name, 1) /\
  exists e : JSONDecodeError_obj,
    process_json_string raw =
    ([Step1_clean; Step2_escapes; Step3_format; Step4_parse],
     inl (JSONDecodeError e)) /\
    e_pos e = 1 /\ e_lineno e = 1 /\ e_colno e = 2.
Proof.
  intro H.
  assert (Hn : TextNormalizer raw <> []) by (rewrite H; discriminate).
  assert (Hj : json_loads (fix_str_of raw) = inl (Expecting_property_name, 1)).
  { unfold fix_str_of. rewrite H.
    destruct (EscapeRepairer_keeps_head t) as [t1 E1]. rewrite E1.
    destruct (StructuralRepairer_keeps_head t1) as [t2 E2]. rewrite E2.
    apply json_loads_brace_backslash. }
  split; [exact Hj|].
  eexists. split.
  - rewrite (process_json_string_run raw Hn). unfold Parser. rewrite Hj.
    reflexivity.
  - cbn [e_pos e_lineno e_colno JSONDecodeError_init].
    split; [reflexivity|].
    unfold fix_str_of. rewrite H.
    destruct (EscapeRepairer_keeps_head t) as [t1 E1]. rewrite E1.
    destruct (StructuralRepairer_keeps_head t1) as [t2 E2]. rewrite E2.
    cbn [e_doc JSONDecodeError_init].
    change (pyslice_to 1) with (pyslice_to (Z.of_nat 1)).
    rewrite pyslice_to_firstn. split; reflexivity.
Qed.

(** ** When the function returns *)

Lemma SchemaValidator_not_dict (v : value) :
  (forall items, v <> PyDict items) ->
  outcome (SchemaValidator v) =
  inl (if is_container v then
         match filter (fun f => negb (holds v f)) required_fields with
         | [] => AttributeError (py "'" ++ type_name v
                                 ++ py "' object has no attribute 'get'")
         | (_ :: _) as missing_fields => MissingFieldError missing_fields
         end
       else not_iterable v).
Proof.
  intro H. unfold SchemaValidator.
  destruct (is_container v) eqn:C.
  - rewrite (not_in_container _ _ C), bind_ret.
    destruct (filter _ required_fields) as [|m ms]; [|reflexivity].
    destruct v; try discriminate; try reflexivity.
    exfalso. eapply H. reflexivity.
  - unfold required_fields. rewrite (not_in_other _ _ _ C). reflexivity.
Qed.

Lemma SchemaValidator_returns (j v : value) :
  outcome (SchemaValidator j) = inr v <->
  j = v /\
  exists (items : list (str * value)) (rubic_data : value),
    v = PyDict items /\
    (forall f, In f required_fields -> has_key items f = true) /\
    dict_lookup items (py "evaluation_rubic") = Some rubic_data /\
    is_container rubic_data = true /\
    (forall f, In f rubic_fields -> holds rubic_data f = true).
Proof.
  split.
  - intro H.
    assert (D : exists items, j = PyDict items).
    { destruct j as [| | | | t0 | l | items]; try (eexists; reflexivity);
        rewrite SchemaValidator_not_dict in H by discriminate; discriminate. }
    destruct D as [items ->]. rewrite SchemaValidator_dict in H.
    destruct (filter (fun f => negb (has_key items f)) required_fields)
      as [|a0 l0] eqn:Hf; [|discriminate].
    destruct (dict_lookup items (py "evaluation_rubic")) as [rubic_data|] eqn:Hr;
      [|discriminate].
    destruct (is_container rubic_data) eqn:Hc; [|discriminate].
    destruct (filter (fun f => negb (holds rubic_data f)) rubic_fields)
      as [|a1 l1] eqn:Hf'; [|discriminate].
    injection H as <-. split; [reflexivity|].
    exists items, rubic_data.
    split; [reflexivity|]. split; [exact (filter_nil_all _ _ Hf)|].
    split; [exact Hr|]. split; [exact Hc|]. exact (filter_nil_all _ _ Hf').
  - intros [-> [items [rubic_data [-> [Hk [Hr [Hc Hs]]]]]]].
    rewrite SchemaValidator_dict, (all_filter_nil _ _ Hk), Hr, Hc.
    rewrite (all_filter_nil _ _ Hs). reflexivity.
Qed.

(** X6. The function returns [v] exactly when the normalised text is not
    empty, the repaired text decodes to [v], [v] is an object that has the
    three required keys, and the value of [evaluation_rubic] is an object,
    a list or a string in which each of the five rubric names is found.
    Nothing else is required of the values, and nothing else makes the
    function raise. *)
Theorem process_json_string_returns_iff (raw : str) (v : value) :
  outcome (process_json_string raw) = inr v <->
  TextNormalizer raw <> [] /\
  json_loads (fix_str_of raw) = inr v /\
  exists (items : list (str * value)) (rubic_data : value),
    v = PyDict items /\
    (forall f, In f required_fields -> has_key items f = true) /\
    dict_lookup items (py "evaluation_rubic") = Some rubic_data /\
    is_container rubic_data = true /\
    (forall f, In f rubic_fields -> holds rubic_data f = true).
Proof.
  split.
  - intro H.
    destruct (TextNormalizer raw) as [|c t] eqn:Hn.
    { rewrite (process_json_string_empty raw Hn) in H. discriminate. }
    assert (Hn' : TextNormalizer raw <> []) by congruence.
    rewrite <- Hn. split; [exact Hn'|].
    destruct (json_loads (fix_str_of raw)) as [[m p]|j] eqn:Hj.
    { rewrite (process_json_string_run raw Hn') in H.
      unfold Parser in H. rewrite Hj in H. discriminate. }
    rewrite (process_json_string_parsed raw j Hn' Hj) in H.
    cbn [outcome snd] in H. apply SchemaValidator_returns in H as [-> K].
    split; [reflexivity|exact K].
  - intros [Hn [Hj K]].
    rewrite (process_json_string_parsed raw v Hn Hj). cbn [outcome snd].
    apply SchemaValidator_returns. split; [reflexivity|exact K].
Qed.

(** X7. A repaired text that decodes to anything but an object never
    makes the function return, and never with the error of a missing
    rubric field: for a number, a boolean or null the membership test
    raises [TypeError]; for a list or a string the function reports the
    required names that are not among the elements, or not substrings, and
    if all three are found, [.get] raises [AttributeError]. *)
Theorem process_json_string_not_object (raw : str) (v : value) :
  TextNormalizer raw <> [] ->
  json_loads (fix_str_of raw) = inr v ->
  (forall items, v <> PyDict items) ->
  process_json_string raw =
  (all_steps,
   inl (if is_container v then
          match filter (fun f => negb (holds v f)) required_fields with
          | [] => AttributeError (py "'" ++ type_name v
                                  ++ py "' object has no attribute 'get'")
          | (_ :: _) as missing_fields => MissingFieldError missing_fields
          end
        else not_iterable v)).
Proof.
  intros Hn Hj Hv.
  rewrite (process_json_string_parsed raw v Hn Hj).
  rewrite (SchemaValidator_not_dict v Hv). reflexivity.
Qed.

(** * Properties of the driver *)

(** ** The retry loop *)

Lemma chat_gpt_loop_success (retries : nat) (delay : Z)
  (api : nat -> raised + option str) (content : option str) (k : nat) :
  forall retry left : nat,
    (k < left)%nat ->
    (forall j, (j < k)%nat -> exists e, api (retry + j)%nat = inl e) ->
    api (retry + k)%nat = inr content ->
    let run := chat_gpt_loop retries delay api retry left in
    snd run = inr content /\
    requests (fst run) = S k /\
    2 * slept (fst run)
    = delay * Z.of_nat k * (2 * Z.of_nat retry + Z.of_nat k + 1).
Proof.
  induction k as [|k IH]; intros retry left Hk Hfail Hok.
  - destruct left as [|left']; [lia|].
    cbn [chat_gpt_loop]. rewrite Nat.add_0_r in Hok. rewrite Hok.
    cbn. repeat split. lia.
  - destruct left as [|left']; [lia|].
    cbn [chat_gpt_loop].
    destruct (Hfail 0%nat ltac:(lia)) as [e He].
    rewrite Nat.add_0_r in He. rewrite He.
    specialize (IH (S retry) left' ltac:(lia)).
    destruct IH as [I1 [I2 I3]].
    { intros j Hj. destruct (Hfail (S j) ltac:(lia)) as [e' He'].
      exists e'. rewrite <- He'. f_equal. lia. }
    { rewrite <- Hok. f_equal. lia. }
    destruct (chat_gpt_loop retries delay api (S retry) left') as [log r].
    cbn [fst snd] in *. cbn [requests slept].
    split; [exact I1|]. split; [congruence|]. nia.
Qed.

Lemma chat_gpt_loop_failure (retries : nat) (delay : Z)
  (api : nat -> raised + option str) :
  forall left retry : nat,
    (forall j, (j < left)%nat -> exists e, api (retry + j)%nat = inl e) ->
    let run := chat_gpt_loop retries delay api retry left in
    snd run = inl (Exception (py "API 调用失败，已重试 "
                              ++ str_of_nat retries ++ py " 次")) /\
    requests (fst run) = left /\
    2 * slept (fst run)
    = delay * Z.of_nat left * (2 * Z.of_nat retry + Z.of_nat left + 1) /\
    ((0 < left)%nat ->
     last (fst run) (Request 0)
     = Sleep (delay * (Z.of_nat retry + Z.of_nat left))).
Proof.
  induction left as [|left' IH]; intros retry Hfail.
  - cbn. repeat split; lia.
  - cbn [chat_gpt_loop].
    destruct (Hfail 0%nat ltac:(lia)) as [e He].
    rewrite Nat.add_0_r in He. rewrite He.
    specialize (IH (S retry)).
    destruct IH as [I1 [I2 [I3 I4]]].
    { intros j Hj. destruct (Hfail (S j) ltac:(lia)) as [e' He'].
      exists e'. rewrite <- He'. f_equal. lia. }
    destruct (chat_gpt_loop retries delay api (S retry) left') as [log r]
      eqn:El.
    cbn [fst snd] in *. cbn [requests slept].
    split; [exact I1|]. split; [congruence|]. split; [nia|].
    intros _. destruct left' as [|left''].
    + cbn [chat_gpt_loop] in El. injection El as <- _.
      cbn [last]. f_equal; lia.
    + specialize (I4 ltac:(lia)).
      destruct log as [|ev log]; [discriminate|].
      change (last (Request retry :: Sleep (delay * (Z.of_nat retry + 1))
                      :: ev :: log) (Request 0))
        with (last (ev :: log) (Request 0)).
      rewrite I4. f_equal. lia.
Qed.

Lemma chat_gpt_loop_bounds (retries : nat) (delay : Z)
  (api : nat -> raised + option str) :
  forall left retry : nat,
    let run := chat_gpt_loop retries delay api retry left in
    (requests (fst run) <= left)%nat /\
    match snd run with
    | inl e => e = Exception (py "API 调用失败，已重试 "
                              ++ str_of_nat retries ++ py " 次")
               /\ requests (fst run) = left
    | inr content =>
        exists k, (k < left)%nat /\ api (retry + k)%nat = inr content
                  /\ requests (fst run) = S k
    end.
Proof.
  induction left as [|left' IH]; intro retry.
  - cbn. split; [lia|]. split; reflexivity.
  - cbn [chat_gpt_loop].
    destruct (api retry) as [e|content] eqn:Ea.
    + specialize (IH (S retry)).
      destruct (chat_gpt_loop retries delay api (S retry) left') as [log r].
      cbn [fst snd] in *. cbn [requests]. destruct IH as [I1 I2].
      split; [lia|].
      destruct r as [e'|content].
      * destruct I2 as [-> I2]. split; [reflexivity|congruence].
      * destruct I2 as [k [Hk [Hc Hr]]]. exists (S k).
        split; [lia|]. split; [|congruence].
        rewrite <- Hc. f_equal. lia.
    + cbn. split; [lia|]. exists 0%nat. split; [lia|].
      split; [|reflexivity]. rewrite Nat.add_0_r. exact Ea.
Qed.

(** X8. With the constants of the module (three attempts, a delay of two
    seconds): if the request of attempt [k] is the first that succeeds, and
    [k] is below the number of attempts, [chat_gpt] returns the content of
    that reply after [k + 1] requests, having slept
    [API_DELAY * (1 + 2 + ... + k)] seconds, that is [k * (k + 1)]. *)
Theorem chat_gpt_first_success (api : nat -> raised + option str)
  (content : option str) (k : nat) :
  (k < API_RETRY_TIMES)%nat ->
  (forall j, (j < k)%nat -> exists e, api j = inl e) ->
  api k = inr content ->
  snd (chat_gpt api) = inr content /\
  requests (fst (chat_gpt api)) = S k /\
  slept (fst (chat_gpt api)) = Z.of_nat k * (Z.of_nat k + 1) /\
  2 * slept (fst (chat_gpt api)) = API_DELAY * Z.of_nat k * (Z.of_nat k + 1).
Proof.
  intros Hk Hfail Hok.
  pose proof (chat_gpt_loop_success API_RETRY_TIMES API_DELAY api content k
                0 API_RETRY_TIMES Hk Hfail Hok) as [H1 [H2 H3]].
  fold (chat_gpt api) in H1, H2, H3. unfold API_DELAY in *.
  cbn [Z.of_nat] in H3.
  split; [exact H1|]. split; [exact H2|]. split; lia.
Qed.

(** X9. If every attempt fails, [chat_gpt] raises the plain [Exception]
    that names the number of attempts, after exactly that many requests
    and [delay * (1 + 2 + ... + retries)] seconds of sleep; the run ends
    with a sleep of [delay * retries] seconds, after the last attempt has
    failed. *)
Theorem chat_gpt_gives_up (retries : nat) (delay : Z)
  (api : nat -> raised + option str) :
  (forall j, (j < retries)%nat -> exists e, api j = inl e) ->
  let run := chat_gpt_loop retries delay api 0 retries in
  snd run = inl (Exception (py "API 调用失败，已重试 "
                            ++ str_of_nat retries ++ py " 次")) /\
  requests (fst run) = retries /\
  2 * slept (fst run) = delay * Z.of_nat retries * (Z.of_nat retries + 1) /\
  ((0 < retries)%nat ->
   last (fst run) (Request 0) = Sleep (delay * Z.of_nat retries)).
Proof.
  intro Hfail.
  pose proof (chat_gpt_loop_failure retries delay api retries 0 Hfail)
    as [H1 [H2 [H3 H4]]].
  cbv zeta. split; [exact H1|]. split; [exact H2|].
  split; [rewrite H3; cbn [Z.of_nat]; ring|].
  intro Hp. rewrite (H4 Hp). reflexivity.
Qed.

(** X10. Whatever the service does, [chat_gpt] makes at most
    [API_RETRY_TIMES] requests and sleeps at most 12 seconds; an exception
    of a request is never passed on: if the function raises, it raises the
    plain [Exception] that names the number of attempts, after all three
    have been made; if it returns, it returns the content of the last
    request made. *)
Theorem chat_gpt_bounded (api : nat -> raised + option str) :
  (requests (fst (chat_gpt api)) <= API_RETRY_TIMES)%nat /\
  0 <= slept (fst (chat_gpt api)) <= 12 /\
  match snd (chat_gpt api) with
  | inl e => e = Exception (py "API 调用失败，已重试 3 次")
             /\ requests (fst (chat_gpt api)) = API_RETRY_TIMES
  | inr content =>
      exists k, (k < API_RETRY_TIMES)%nat /\ api k = inr content
                /\ requests (fst (chat_gpt api)) = S k
  end.
Proof.
  pose proof (chat_gpt_loop_bounds API_RETRY_TIMES API_DELAY api
                API_RETRY_TIMES 0) as [H1 H2].
  fold (chat_gpt api) in H1, H2. cbv zeta in H1, H2.
  split; [exact H1|]. split; [|exact H2].
  unfold chat_gpt, API_RETRY_TIMES, API_DELAY. cbn [chat_gpt_loop].
  destruct (api 0%nat); [|cbn; lia].
  destruct (api 1%nat); [|cbn; lia].
  destruct (api 2%nat); cbn; lia.
Qed.

(** ** The prompt *)

Lemma linebreak_13 (c : char) : is_linebreak c = false -> (c =? 13) = false.
Proof.
  intro H. destruct (Z.eqb_spec c 13) as [->|N]; [discriminate|reflexivity].
Qed.

Lemma splitlines_from_lines (n : nat) :
  forall (s cur l : str),
    (length s <= n)%nat ->
    forallb (fun c => negb (is_linebreak c)) cur = true ->
    In l (splitlines_from cur s) ->
    forallb (fun c => negb (is_linebreak c)) l = true.
Proof.
  induction n as [|n IH]; intros s cur l Hn Hcur Hl.
  - destruct s; [|cbn [length] in Hn; lia].
    cbn [splitlines_from] in Hl. destruct cur as [|c cur']; [contradiction|].
    destruct Hl as [<-|[]]. rewrite forallb_rev. exact Hcur.
  - destruct s as [|c s'].
    + cbn [splitlines_from] in Hl. destruct cur as [|c cur']; [contradiction|].
      destruct Hl as [<-|[]]. rewrite forallb_rev. exact Hcur.
    + cbn [length] in Hn. cbn [splitlines_from] in Hl.
      assert (R : forallb (fun c => negb (is_linebreak c)) (rev cur) = true)
        by (rewrite forallb_rev; exact Hcur).
      destruct (c =? 13) eqn:E13.
      * destruct s' as [|d s''].
        { destruct Hl as [<-|Hl]; [exact R|]. contradiction. }
        cbn [length] in Hn.
        destruct (d =? 10);
          (destruct Hl as [<-|Hl]; [exact R|]);
          apply (IH _ [] l) in Hl; auto; cbn [length]; lia.
      * destruct (is_linebreak c) eqn:Eb.
        { destruct Hl as [<-|Hl]; [exact R|].
          apply (IH _ [] l) in Hl; auto; lia. }
        apply (IH _ (c :: cur) l) in Hl; auto; [lia|].
        cbn [forallb]. rewrite Eb. exact Hcur.
Qed.

Lemma lstrip_forallb (p : char -> bool) (l : str) :
  forallb p l = true -> forallb p (lstrip l) = true.
Proof.
  intro H. destruct (lstrip_split l) as [w [E _]].
  rewrite E, forallb_app in H. apply andb_true_iff in H as [_ H]. exact H.
Qed.

Lemma strip_forallb (p : char -> bool) (l : str) :
  forallb p l = true -> forallb p (strip l) = true.
Proof.
  intro H. unfold strip, rstrip. rewrite forallb_rev.
  apply lstrip_forallb. rewrite forallb_rev. apply lstrip_forallb, H.
Qed.

Lemma splitlines_from_app (a : str) :
  forall cur rest : str,
    forallb (fun c => negb (is_linebreak c)) a = true ->
    splitlines_from cur (a ++ rest) = splitlines_from (rev a ++ cur) rest.
Proof.
  induction a as [|c a IH]; intros cur rest H; [reflexivity|].
  cbn [forallb] in H. apply andb_true_iff in H as [Hc Ha].
  apply negb_true_iff in Hc.
  cbn [app splitlines_from]. rewrite (linebreak_13 c Hc), Hc.
  rewrite (IH _ _ Ha). cbn [rev]. rewrite <- app_assoc. reflexivity.
Qed.

Lemma splitlines_join (ls : list str) :
  Forall (fun l => l <> [] /\
                   forallb (fun c => negb (is_linebreak c)) l = true) ls ->
  splitlines (join [newline] ls) = ls.
Proof.
  unfold splitlines. induction ls as [|a ls IH]; intro H; [reflexivity|].
  inversion H as [|a' ls' [Ha Pa] Hls]; subst.
  destruct ls as [|b ls].
  - cbn [join]. rewrite <- (app_nil_r a) at 1.
    rewrite (splitlines_from_app a [] [] Pa), app_nil_r.
    cbn [splitlines_from].
    destruct (rev a) as [|x r] eqn:Er.
    + exfalso. apply Ha. rewrite <- (rev_involutive a), Er. reflexivity.
    + rewrite <- Er, rev_involutive. reflexivity.
  - change (join [newline] (a :: b :: ls))
      with (a ++ newline :: join [newline] (b :: ls)).
    rewrite (splitlines_from_app a [] _ Pa), app_nil_r.
    cbn [splitlines_from]. change (newline =? 13) with false.
    change (is_linebreak newline) with true. cbv iota.
    rewrite rev_involutive, (IH Hls). reflexivity.
Qed.

Lemma clean_lines_lines (s : str) :
  Forall (fun l => l <> [] /\
                   forallb (fun c => negb (is_linebreak c)) l = true)
    (map strip
       (filter (fun line => negb (is_empty (strip line))) (splitlines s)))
  /\
  Forall (fun l => strip l = l)
    (map strip
       (filter (fun line => negb (is_empty (strip line))) (splitlines s))).
Proof.
  split; apply Forall_forall; intros l Hl;
    apply in_map_iff in Hl as [x [<- Hx]]; apply filter_In in Hx as [Hx Hne].
  - split.
    + intro E. rewrite E in Hne. discriminate.
    + apply strip_forallb.
      exact (splitlines_from_lines (length s) s [] x (le_n _) eq_refl Hx).
  - apply strip_idem.
Qed.

Lemma clean_lines_join (ls : list str) :
  Forall (fun l => l <> [] /\
                   forallb (fun c => negb (is_linebreak c)) l = true) ls ->
  Forall (fun l => strip l = l) ls ->
  clean_lines (join [newline] ls) = join [newline] ls.
Proof.
  intros H1 H2. unfold clean_lines. rewrite (splitlines_join ls H1).
  f_equal. induction ls as [|a ls IH]; [reflexivity|].
  inversion H1 as [|a1 l1 [Hne _] H1']; inversion H2 as [|a2 l2 Ha H2'];
    subst.
  cbn [filter]. rewrite Ha.
  destruct a as [|c a']; [congruence|].
  cbn [is_empty negb map]. rewrite Ha, (IH H1' H2'). reflexivity.
Qed.

Lemma clean_lines_fixed (s : str) :
  clean_lines (clean_lines s) = clean_lines s /\
  splitlines (clean_lines s)
  = map strip
      (filter (fun line => negb (is_empty (strip line))) (splitlines s)).
Proof.
  destruct (clean_lines_lines s) as [H1 H2]. split.
  - unfold clean_lines at 2 3. apply clean_lines_join; assumption.
  - unfold clean_lines. apply splitlines_join, H1.
Qed.

Lemma get_complete_prompt_in_cleaned (language tpl a b c out : str) :
  get_complete_prompt_in language tpl a b c = inr out ->
  exists text, out = clean_lines text.
Proof.
  unfold get_complete_prompt_in.
  destruct (is_empty a || is_empty b || is_empty c); [discriminate|].
  destruct (str_eqb language (py "cn")).
  { intro H. injection H as <-. eexists. reflexivity. }
  destruct (str_eqb language (py "en")); [|discriminate].
  intro H. injection H as <-. eexists. reflexivity.
Qed.

(** X11. The prompt [get_complete_prompt] returns is clean: cleaning it
    again changes nothing; each of its lines is non-empty and has no white
    space at either end; and the lines are separated by single line feeds,
    with none at the end, so that joining its lines gives it back.  This
    holds for both languages. *)
Theorem get_complete_prompt_clean (language tpl a b c out : str) :
  get_complete_prompt_in language tpl a b c = inr out ->
  clean_lines out = out /\
  join [newline] (splitlines out) = out /\
  Forall (fun l => l <> [] /\ strip l = l) (splitlines out).
Proof.
  intro H. apply get_complete_prompt_in_cleaned in H as [text ->].
  destruct (clean_lines_fixed text) as [F1 F2].
  destruct (clean_lines_lines text) as [H1 H2].
  split; [exact F1|]. rewrite F2. split; [reflexivity|].
  apply Forall_forall. intros l Hl.
  rewrite Forall_forall in H1, H2.
  split; [apply (H1 l Hl)|apply (H2 l Hl)].
Qed.

Lemma is_empty_nil (s : str) : is_empty s = true <-> s = [].
Proof. destruct s; split; intro H; try reflexivity; discriminate. Qed.

(** X12. [get_complete_prompt] raises exactly when the subject, the
    sub-subject or the requirement is the empty text (a text of white space
    passes); the test comes before the choice of the language, so the error
    is the same for every value of [LANGUAGE]. *)
Theorem get_complete_prompt_raises_iff (tpl a b c : str) :
  ((exists e, get_complete_prompt tpl a b c = inl e) <->
   (a = [] \/ b = [] \/ c = [])) /\
  (a = [] \/ b = [] \/ c = [] ->
   forall language,
     get_complete_prompt_in language tpl a b c
     = inl (ValueError (py "学科、子学科、实验名称均不能为空"))).
Proof.
  assert (E : is_empty a || is_empty b || is_empty c = true
              <-> a = [] \/ b = [] \/ c = []).
  { rewrite !orb_true_iff, !is_empty_nil. tauto. }
  split; [split|].
  - intros [e He]. apply E.
    unfold get_complete_prompt, get_complete_prompt_in, LANGUAGE in He.
    destruct (is_empty a || is_empty b || is_empty c); [reflexivity|].
    discriminate.
  - intro H. apply E in H.
    unfold get_complete_prompt, get_complete_prompt_in. rewrite H.
    eexists. reflexivity.
  - intros H language. apply E in H.
    unfold get_complete_prompt_in. rewrite H. reflexivity.
Qed.

(** ** Reading the reply *)

Lemma find_from_absent (c : char) (s : str) (i : Z) :
  ~ In c s -> find_from c i s = -1.
Proof.
  revert i. induction s as [|d s IH]; intros i H; [reflexivity|].
  cbn [find_from]. destruct (Z.eqb_spec d c) as [->|N].
  - exfalso. apply H. left. reflexivity.
  - apply IH. intro K. apply H. right. exact K.
Qed.

Lemma find_from_first (c : char) (pre rest : str) (i : Z) :
  ~ In c pre ->
  find_from c i (pre ++ c :: rest) = i + Z.of_nat (length pre).
Proof.
  revert i. induction pre as [|d pre IH]; intros i H.
  - cbn [app find_from length]. rewrite Z.eqb_refl. cbn. lia.
  - cbn [app find_from]. destruct (Z.eqb_spec d c) as [->|N].
    + exfalso. apply H. left. reflexivity.
    + rewrite IH by (intro K; apply H; right; exact K).
      cbn [length]. lia.
Qed.

Lemma first_occurrence (c : char) (s : str) :
  In c s -> exists pre rest, s = pre ++ c :: rest /\ ~ In c pre.
Proof.
  induction s as [|d s IH]; intro H; [contradiction|].
  destruct (Z.eq_dec d c) as [->|N].
  - exists [], s. split; [reflexivity|]. intros [].
  - destruct H as [H|H]; [contradiction|].
    destruct (IH H) as [pre [rest [-> Hp]]].
    exists (d :: pre), rest. split; [reflexivity|].
    intros [K|K]; [contradiction|]. exact (Hp K).
Qed.

Lemma last_occurrence (c : char) (s : str) :
  In c s -> exists pre rest, s = pre ++ c :: rest /\ ~ In c rest.
Proof.
  induction s as [|d s IH]; intro H; [contradiction|].
  destruct (in_dec Z.eq_dec c s) as [I|I].
  - destruct (IH I) as [pre [rest [-> Hr]]].
    exists (d :: pre), rest. split; [reflexivity|exact Hr].
  - destruct H as [->|H]; [|contradiction].
    exists [], s. split; [reflexivity|exact I].
Qed.

Lemma rfind_from_absent (c : char) (s : str) (i found : Z) :
  ~ In c s -> rfind_from c i found s = found.
Proof.
  revert i found. induction s as [|d s IH]; intros i found H; [reflexivity|].
  cbn [rfind_from]. destruct (Z.eqb_spec d c) as [->|N].
  - exfalso. apply H. left. reflexivity.
  - apply IH. intro K. apply H. right. exact K.
Qed.

Lemma rfind_from_last (c : char) (pre rest : str) (i found : Z) :
  ~ In c rest ->
  rfind_from c i found (pre ++ c :: rest) = i + Z.of_nat (length pre).
Proof.
  revert i found. induction pre as [|d pre IH]; intros i found H.
  - cbn [app rfind_from length]. rewrite Z.eqb_refl.
    rewrite (rfind_from_absent c rest _ _ H). cbn. lia.
  - cbn [app rfind_from]. rewrite (IH _ _ H). cbn [length]. lia.
Qed.

Lemma find_absent_iff (c : char) (s : str) : find c s = -1 <-> ~ In c s.
Proof.
  split.
  - intros H I. destruct (first_occurrence c s I) as [pre [rest [-> Hp]]].
    unfold find in H. rewrite (find_from_first c pre rest 0 Hp) in H. lia.
  - apply find_from_absent.
Qed.

Lemma rfind_absent_iff (c : char) (s : str) : rfind c s = -1 <-> ~ In c s.
Proof.
  split.
  - intros H I. destruct (last_occurrence c s I) as [pre [rest [-> Hp]]].
    unfold rfind in H. rewrite (rfind_from_last c pre rest 0 (-1) Hp) in H.
    lia.
  - apply rfind_from_absent.
Qed.

Lemma no_braces_guard (t : str) :
  (find (chr "{") t =? -1) || (rfind (chr "}") t + 1 =? 0) = true
  <-> ~ In (chr "{") t \/ ~ In (chr "}") t.
Proof.
  rewrite orb_true_iff, !Z.eqb_eq.
  rewrite <- find_absent_iff, <- rfind_absent_iff. lia.
Qed.

Lemma parse_gpt_response_try_run (t : str) :
  In (chr "{") t -> In (chr "}") t ->
  parse_gpt_response_try t =
  match json_loads (extract_json t) with
  | inl (m, p) =>
      inl (Builtin (JSONDecodeError
                      (JSONDecodeError_init (msg_text m) (extract_json t) p)))
  | inr json_data =>
      match check_fields required_fields json_data with
      | inl r => inl r
      | inr _ =>
          match check_rubic_fields rubic_fields json_data with
          | inl r => inl r
          | inr _ => inr json_data
          end
      end
  end.
Proof.
  intros H1 H2. unfold parse_gpt_response_try.
  destruct ((find (chr "{") t =? -1) || (rfind (chr "}") t + 1 =? 0)) eqn:G;
    [|reflexivity].
  apply no_braces_guard in G. tauto.
Qed.

Lemma check_fields_container (fields : list str) (v : value) :
  is_container v = true ->
  check_fields fields v =
  match filter (fun f => negb (holds v f)) fields with
  | [] => inr tt
  | f :: _ => inl (Builtin (ValueError (py "缺少必要字段：" ++ f)))
  end.
Proof.
  intro C. induction fields as [|f fields IH]; [reflexivity|].
  cbn [check_fields filter]. rewrite (contains_container v f C).
  cbn [outcome ret snd]. destruct (holds v f); [exact IH|reflexivity].
Qed.

Lemma check_fields_other (f : str) (fields : list str) (v : value) :
  is_container v = false ->
  check_fields (f :: fields) v = inl (Builtin (not_iterable v)).
Proof.
  intro C. cbn [check_fields]. rewrite (contains_other v f C). reflexivity.
Qed.

Lemma check_rubic_fields_dict (fields : list str)
  (items : list (str * value)) (rubic : value) :
  dict_lookup items (py "evaluation_rubic") = Some rubic ->
  is_container rubic = true ->
  check_rubic_fields fields (PyDict items) =
  match filter (fun f => negb (holds rubic f)) fields with
  | [] => inr tt
  | f :: _ =>
      inl (Builtin (ValueError (py "evaluation_rubic 缺少必要字段：" ++ f)))
  end.
Proof.
  intros L C. induction fields as [|f fields IH]; [reflexivity|].
  cbn [check_rubic_fields filter py_getitem]. rewrite L.
  rewrite (contains_container rubic f C).
  cbn [outcome ret snd]. destruct (holds rubic f); [exact IH|reflexivity].
Qed.

Lemma check_rubic_fields_other (f : str) (fields : list str)
  (items : list (str * value)) (rubic : value) :
  dict_lookup items (py "evaluation_rubic") = Some rubic ->
  is_container rubic = false ->
  check_rubic_fields (f :: fields) (PyDict items)
  = inl (Builtin (not_iterable rubic)).
Proof.
  intros L C. cbn [check_rubic_fields py_getitem]. rewrite L.
  rewrite (contains_other rubic f C). reflexivity.
Qed.

Lemma checks_pass (v : value) :
  (check_fields required_fields v = inr tt /\
   check_rubic_fields rubic_fields v = inr tt) <->
  exists (items : list (str * value)) (rubic_data : value),
    v = PyDict items /\
    (forall f, In f required_fields -> has_key items f = true) /\
    dict_lookup items (py "evaluation_rubic") = Some rubic_data /\
    is_container rubic_data = true /\
    (forall f, In f rubic_fields -> holds rubic_data f = true).
Proof.
  split.
  - intros [H1 H2].
    destruct (is_container v) eqn:C;
      [|unfold required_fields in H1;
        rewrite (check_fields_other _ _ _ C) in H1; discriminate].
    rewrite (check_fields_container _ _ C) in H1.
    destruct (filter (fun f => negb (holds v f)) required_fields)
      as [|f0 l0] eqn:Hf; [|discriminate].
    pose proof (filter_nil_all _ _ Hf) as K.
    destruct v as [| | | | t0 | l | items]; try discriminate.
    exists items.
    assert (Hr : has_key items (py "evaluation_rubic") = true).
    { apply (K (py "evaluation_rubic")). unfold required_fields. simpl. auto. }
    unfold has_key in Hr.
    destruct (dict_lookup items (py "evaluation_rubic")) as [rubic_data|] eqn:L;
      [|discriminate].
    exists rubic_data. split; [reflexivity|]. split; [exact K|].
    split; [reflexivity|].
    destruct (is_container rubic_data) eqn:C';
      [|unfold rubic_fields in H2;
        rewrite (check_rubic_fields_other _ _ _ _ L C') in H2; discriminate].
    split; [reflexivity|].
    rewrite (check_rubic_fields_dict _ _ _ L C') in H2.
    destruct (filter (fun f => negb (holds rubic_data f)) rubic_fields)
      as [|f1 l1] eqn:Hf'; [|discriminate].
    exact (filter_nil_all _ _ Hf').
  - intros [items [rubic_data [-> [Hk [Hr [Hc Hs]]]]]]. split.
    + rewrite (check_fields_container _ (PyDict items) eq_refl).
      change (fun f => negb (holds (PyDict items) f))
        with (fun f => negb (has_key items f)).
      rewrite (all_filter_nil _ _ Hk). reflexivity.
    + rewrite (check_rubic_fields_dict _ _ _ Hr Hc).
      rewrite (all_filter_nil _ _ Hs). reflexivity.
Qed.

Lemma unit_eta (A : Type) (x : A + unit) :
  (exists u, x = inr u) <-> x = inr tt.
Proof.
  split; [intros [[] H]; exact H|]. intro H. exists tt. exact H.
Qed.

Lemma parse_gpt_response_returns (t : str) (v : value) :
  parse_gpt_response t = inr v <-> parse_gpt_response_try t = inr v.
Proof.
  unfold parse_gpt_response.
  destruct (parse_gpt_response_try t) as [[[m|e|m|m]|k|m]|j];
    split; intro H; try discriminate; exact H.
Qed.

Lemma Exception_inj (m m' : str) :
  @inl raised value (Exception m) = inl (Exception m') -> m = m'.
Proof. intro H. injection H as H. exact H. Qed.

Ltac exception_message H := apply Exception_inj in H.

(** X13. [parse_gpt_response] raises the [Exception] saying that no JSON
    content was found exactly when the reply has no opening brace or no
    closing brace. *)
Theorem parse_gpt_response_no_braces (t : str) :
  parse_gpt_response t
  = inl (Exception (py "JSON格式校验失败：未找到有效的JSON格式内容"))
  <-> ~ In (chr "{") t \/ ~ In (chr "}") t.
Proof.
  split.
  - intro H. apply no_braces_guard.
    destruct ((find (chr "{") t =? -1) || (rfind (chr "}") t + 1 =? 0)) eqn:G;
      [reflexivity|exfalso].
    unfold parse_gpt_response, parse_gpt_response_try in H. rewrite G in H.
    destruct (json_loads (extract_json t)) as [[m p]|j].
    { apply (f_equal (fun r => match r with
                               | inl (Exception x) => firstn 5 x
                               | _ => []
                               end)) in H.
      vm_compute in H. discriminate. }
    assert (V : forall m,
               py "JSON格式校验失败：" ++ py "缺少必要字段：" ++ m
               <> py "JSON格式校验失败：未找到有效的JSON格式内容").
    { intros m E. apply (f_equal (firstn 12)) in E. vm_compute in E.
      discriminate. }
    assert (V' : forall m,
               py "JSON格式校验失败：" ++ py "evaluation_rubic 缺少必要字段：" ++ m
               <> py "JSON格式校验失败：未找到有效的JSON格式内容").
    { intros m E. apply (f_equal (firstn 12)) in E. vm_compute in E.
      discriminate. }
    assert (W : forall m,
               py "解析GPT响应失败：" ++ m
               <> py "JSON格式校验失败：未找到有效的JSON格式内容").
    { intros m E. apply (f_equal (firstn 1)) in E. vm_compute in E.
      discriminate. }
    destruct (is_container j) eqn:C;
      [|unfold required_fields in H;
        rewrite (check_fields_other _ _ _ C) in H;
        exception_message H; exact (W _ H)].
    rewrite (check_fields_container _ _ C) in H.
    destruct (filter (fun f => negb (holds j f)) required_fields)
      as [|f0 l0] eqn:Hf; [|exception_message H; exact (V _ H)].
    destruct j as [| | | | t0 | l | items]; try discriminate;
      try (exception_message H; exact (W _ H)).
    pose proof (filter_nil_all _ _ Hf (py "evaluation_rubic")) as Hr.
    unfold required_fields in Hr. cbn [In] in Hr.
    specialize (Hr (or_intror (or_introl eq_refl))).
    cbn [holds] in Hr. unfold has_key in Hr.
    destruct (dict_lookup items (py "evaluation_rubic")) as [rubic|] eqn:L;
      [|discriminate].
    destruct (is_container rubic) eqn:C'.
    + rewrite (check_rubic_fields_dict _ _ _ L C') in H.
      destruct (filter (fun f => negb (holds rubic f)) rubic_fields);
        [discriminate|]. exception_message H. exact (V' _ H).
    + unfold rubic_fields in H.
      rewrite (check_rubic_fields_other _ _ _ _ L C') in H.
      exception_message H. exact (W _ H).
  - intro H. apply no_braces_guard in H.
    unfold parse_gpt_response, parse_gpt_response_try. rewrite H.
    vm_compute. reflexivity.
Qed.

Lemma pyslice_from (pre x : str) (b : Z) :
  pyslice (Z.of_nat (length pre)) b (pre ++ x)
  = firstn (Z.to_nat (slice_bound (Z.of_nat (length (pre ++ x))) b
                      - Z.of_nat (length pre))) x.
Proof.
  unfold pyslice. cbv zeta.
  assert (E : slice_bound (Z.of_nat (length (pre ++ x)))
                (Z.of_nat (length pre)) = Z.of_nat (length pre)).
  { unfold slice_bound. rewrite length_app.
    destruct (Z.ltb_spec (Z.of_nat (length pre)) 0); lia. }
  rewrite E, Nat2Z.id, skipn_app_exact. reflexivity.
Qed.

Lemma extract_json_framed (pre mid post : str) :
  ~ In (chr "{") pre -> ~ In (chr "}") post ->
  extract_json (pre ++ (chr "{" :: mid ++ [chr "}"]) ++ post)
  = replace (py "\t") []
      (replace (py "\n") []
         (replace (py "'") [dquote] (chr "{" :: mid ++ [chr "}"]))).
Proof.
  intros Hp Hq. unfold extract_json. do 3 f_equal.
  unfold find. cbn [app].
  rewrite (find_from_first (chr "{") pre _ 0 Hp).
  replace (pre ++ chr "{" :: (mid ++ [chr "}"]) ++ post)
    with ((pre ++ chr "{" :: mid) ++ chr "}" :: post)
    by (norm_app; reflexivity).
  unfold rfind. rewrite (rfind_from_last (chr "}") _ post 0 (-1) Hq).
  replace ((pre ++ chr "{" :: mid) ++ chr "}" :: post)
    with (pre ++ (chr "{" :: mid ++ [chr "}"]) ++ post)
    by (norm_app; reflexivity).
  rewrite Z.add_0_l, pyslice_from.
  set (body := chr "{" :: mid ++ [chr "}"]).
  replace (Z.to_nat _) with (length body).
  - rewrite firstn_app, firstn_all, Nat.sub_diag. cbn [firstn].
    apply app_nil_r.
  - unfold slice_bound, body. rewrite !length_app. cbn [length].
    rewrite !length_app. cbn [length].
    destruct (Z.ltb_spec
                (0 + Z.of_nat (length pre + S (length mid)) + 1) 0); lia.
Qed.

(** X14. Text before the first opening brace and after the last closing
    brace of a reply is ignored: the text handed to the decoder, and the
    outcome of the body of the [try], are those for the part from brace to
    brace alone; so the function returns a value for the one exactly when
    it returns it for the other. *)
Theorem parse_gpt_response_surrounding_text (pre mid post : str) :
  ~ In (chr "{") pre -> ~ In (chr "}") post ->
  let body := chr "{" :: mid ++ [chr "}"] in
  extract_json (pre ++ body ++ post) = extract_json body /\
  parse_gpt_response_try (pre ++ body ++ post) = parse_gpt_response_try body /\
  forall v, parse_gpt_response (pre ++ body ++ post) = inr v
            <-> parse_gpt_response body = inr v.
Proof.
  intros Hp Hq body.
  assert (E : extract_json (pre ++ body ++ post) = extract_json body).
  { unfold body. rewrite (extract_json_framed pre mid post Hp Hq).
    pose proof (extract_json_framed [] mid [] (fun K => K) (fun K => K)) as F.
    cbn [app] in F. rewrite app_nil_r in F. symmetry. exact F. }
  assert (T : parse_gpt_response_try (pre ++ body ++ post)
              = parse_gpt_response_try body).
  { assert (B1 : In (chr "{") body) by (left; reflexivity).
    assert (B2 : In (chr "}") body).
    { unfold body. right. apply in_or_app. right. left. reflexivity. }
    rewrite (parse_gpt_response_try_run body B1 B2).
    rewrite parse_gpt_response_try_run.
    - rewrite E. reflexivity.
    - apply in_or_app. right. apply in_or_app. left. exact B1.
    - apply in_or_app. right. apply in_or_app. left. exact B2. }
  split; [exact E|]. split; [exact T|].
  intro v. rewrite !parse_gpt_response_returns, T. reflexivity.
Qed.

(** X15. [parse_gpt_response] returns [v] exactly when the reply has an
    opening and a closing brace, the extracted text decodes to [v], and [v]
    is an object that has the three required keys and whose
    [evaluation_rubic] is an object, a list or a string in which each of
    the five rubric names is found. *)
Theorem parse_gpt_response_returns_iff (t : str) (v : value) :
  parse_gpt_response t = inr v <->
  In (chr "{") t /\ In (chr "}") t /\
  json_loads (extract_json t) = inr v /\
  exists (items : list (str * value)) (rubic_data : value),
    v = PyDict items /\
    (forall f, In f required_fields -> has_key items f = true) /\
    dict_lookup items (py "evaluation_rubic") = Some rubic_data /\
    is_container rubic_data = true /\
    (forall f, In f rubic_fields -> holds rubic_data f = true).
Proof.
  rewrite parse_gpt_response_returns. split.
  - intro H.
    destruct (in_dec Z.eq_dec (chr "{") t) as [I1|N1].
    2:{ unfold parse_gpt_response_try in H.
        rewrite (proj2 (no_braces_guard t) (or_introl N1)) in H.
        discriminate. }
    destruct (in_dec Z.eq_dec (chr "}") t) as [I2|N2].
    2:{ unfold parse_gpt_response_try in H.
        rewrite (proj2 (no_braces_guard t) (or_intror N2)) in H.
        discriminate. }
    rewrite (parse_gpt_response_try_run t I1 I2) in H.
    destruct (json_loads (extract_json t)) as [[m p]|j]; [discriminate|].
    destruct (check_fields required_fields j) as [r|[]] eqn:C1;
      [discriminate|].
    destruct (check_rubic_fields rubic_fields j) as [r|[]] eqn:C2;
      [discriminate|].
    injection H as <-.
    split; [exact I1|]. split; [exact I2|]. split; [reflexivity|].
    apply checks_pass. split; assumption.
  - intros [I1 [I2 [Hj K]]]. apply checks_pass in K as [C1 C2].
    rewrite (parse_gpt_response_try_run t I1 I2), Hj, C1, C2. reflexivity.
Qed.

(** X16. The two validators accept the same values: step 5 of
    [process_json_string] returns a decoded value exactly when both loops
    of [parse_gpt_response] pass on it. *)
Theorem validators_agree (v : value) :
  outcome (SchemaValidator v) = inr v <->
  check_fields required_fields v = inr tt /\
  check_rubic_fields rubic_fields v = inr tt.
Proof.
  rewrite checks_pass, SchemaValidator_returns. tauto.
Qed.

(** X17. Where [process_json_string] lists every missing field,
    [parse_gpt_response] names the first one only: for a reply that decodes
    to an object, the first required key that is absent, in the order of
    the list; and if none is absent and the rubric is an object, a list or
    a string, the first rubric name not found in it. *)
Theorem parse_gpt_response_first_missing (t : str)
  (items : list (str * value)) :
  In (chr "{") t -> In (chr "}") t ->
  json_loads (extract_json t) = inr (PyDict items) ->
  (forall f rest,
     filter (fun f => negb (has_key items f)) required_fields = f :: rest ->
     parse_gpt_response t
     = inl (Exception (py "JSON格式校验失败：缺少必要字段：" ++ f))) /\
  (filter (fun f => negb (has_key items f)) required_fields = [] ->
   forall rubic_data f rest,
     dict_lookup items (py "evaluation_rubic") = Some rubic_data ->
     is_container rubic_data = true ->
     filter (fun f => negb (holds rubic_data f)) rubic_fields = f :: rest ->
     parse_gpt_response t
     = inl (Exception (py "JSON格式校验失败：evaluation_rubic 缺少必要字段："
                       ++ f))).
Proof.
  intros I1 I2 Hj.
  unfold parse_gpt_response.
  rewrite (parse_gpt_response_try_run t I1 I2), Hj.
  rewrite (check_fields_container _ (PyDict items) eq_refl).
  change (fun f => negb (holds (PyDict items) f))
    with (fun f => negb (has_key items f)).
  split.
  - intros f rest Hf. rewrite Hf. vm_compute. reflexivity.
  - intros Hf rubic_data f rest Hr Hc Hs. rewrite Hf.
    rewrite (check_rubic_fields_dict _ _ _ Hr Hc), Hs.
    vm_compute. reflexivity.
Qed.

(** X18. A reply whose rubric is a number, a boolean or null (and that has
    the three required keys) makes [parse_gpt_response] raise the
    [Exception] of its last [except] clause, with the message of the
    [TypeError] of the membership test. *)
Theorem parse_gpt_response_rubric_not_a_container (t : str)
  (items : list (str * value)) (rubic_data : value) :
  In (chr "{") t -> In (chr "}") t ->
  json_loads (extract_json t) = inr (PyDict items) ->
  (forall f, In f required_fields -> has_key items f = true) ->
  dict_lookup items (py "evaluation_rubic") = Some rubic_data ->
  is_container rubic_data = false ->
  parse_gpt_response t
  = inl (Exception (py "解析GPT响应失败：argument of type '"
                    ++ type_name rubic_data ++ py "' is not iterable")).
Proof.
  intros I1 I2 Hj Hk Hr Hc.
  unfold parse_gpt_response.
  rewrite (parse_gpt_response_try_run t I1 I2), Hj.
  rewrite (check_fields_container _ (PyDict items) eq_refl).
  change (fun f => negb (holds (PyDict items) f))
    with (fun f => negb (has_key items f)).
  rewrite (all_filter_nil _ _ Hk). unfold rubic_fields.
  rewrite (check_rubic_fields_other _ _ _ _ Hr Hc).
  vm_compute. reflexivity.
Qed.


Lemma json_loads_brace_object (s : str) (v : value) :
  json_loads (chr "{" :: s) = inr v -> exists items, v = PyDict items.
Proof.
  unfold json_loads.
  change (startswith [65279] (chr "{" :: s)) with false. cbv iota.
  change (skip_ws (chr "{" :: s)) with (chr "{" :: s).
  cbn [scan_once].
  change (chr "{" =? dquote) with false.
  change (chr "{" =? chr "{") with true. cbv iota.
  destruct (skip_ws s) as [|c1 s1]; [discriminate|].
  destruct (c1 =? chr "}").
  - destruct (skip_ws s1); [|discriminate].
    intro H. injection H as <-. eexists. reflexivity.
  - destruct (JSONObject (2 * length (chr "{" :: s)) [] (c1 :: s1))
      as [v' rest| |] eqn:E; try discriminate.
    destruct (scan_local (2 * length (chr "{" :: s))) as [_ [L _]].
    destruct (L _ _ _ _ E) as [pre [_ [D _]]].
    destruct (skip_ws rest); [|discriminate].
    intro H. injection H as <-. exact D.
Qed.

Lemma replace_from_keeps_brace (old new s : str) :
  prefixb old (chr "{" :: s) = false ->
  replace old new (chr "{" :: s)
  = chr "{" :: replace old new s.
Proof. intro H. unfold replace. cbn [replace_from]. rewrite H. reflexivity. Qed.

Lemma extract_json_head (t : str) :
  In (chr "{") t ->
  extract_json t = [] \/ exists s, extract_json t = chr "{" :: s.
Proof.
  intro I. destruct (first_occurrence _ _ I) as [pre [rest [-> Hp]]].
  unfold extract_json, find.
  rewrite (find_from_first (chr "{") pre rest 0 Hp), Z.add_0_l, pyslice_from.
  destruct (Z.to_nat _) as [|k]; [left; reflexivity|right].
  cbn [firstn].
  rewrite (replace_from_keeps_brace (py "'")) by reflexivity.
  rewrite (replace_from_keeps_brace (py "\n")) by reflexivity.
  rewrite (replace_from_keeps_brace (py "\t")) by reflexivity.
  eexists. reflexivity.
Qed.

(** X20. What [parse_gpt_response] decodes is an object or nothing: the
    extracted text is empty (when the last closing brace comes before the
    first opening brace) or begins with the opening brace, so a successful
    decoding gives an object.  The membership tests on the top-level value
    and the lookup of [evaluation_rubic] therefore never raise. *)
Theorem parse_gpt_response_decodes_object (t : str) (v : value) :
  In (chr "{") t ->
  json_loads (extract_json t) = inr v ->
  exists items, v = PyDict items.
Proof.
  intros I Hj. destruct (extract_json_head t I) as [E|[s E]];
    rewrite E in Hj.
  - vm_compute in Hj. discriminate.
  - exact (json_loads_brace_object s v Hj).
Qed.

(** ** The file names *)

Lemma safe_filename_map (c : char) (s : str) :
  safe_filename (c :: s) = firstn 50 (map sanitize (c :: s)).
Proof.
  unfold safe_filename, unsafe_chars. cbn [fold_left].
  change (py "_") with [chr "_"].
  rewrite !replace_char, !map_map.
  change 50 with (Z.of_nat 50). rewrite pyslice_to_firstn. f_equal.
  apply map_ext. intro x. unfold sanitize, unsafe_chars. cbn [existsb].
  destruct (Z.eqb_spec x (chr "/")) as [->|N1]; [reflexivity|].
  destruct (Z.eqb_spec x backslash) as [->|N2]; [reflexivity|].
  destruct (Z.eqb_spec x (chr ":")) as [->|N3]; [reflexivity|].
  destruct (Z.eqb_spec x (chr "*")) as [->|N4]; [reflexivity|].
  destruct (Z.eqb_spec x (chr "?")) as [->|N5]; [reflexivity|].
  destruct (Z.eqb_spec x dquote) as [->|N6]; [reflexivity|].
  destruct (Z.eqb_spec x (chr "<")) as [->|N7]; [reflexivity|].
  destruct (Z.eqb_spec x (chr ">")) as [->|N8]; [reflexivity|].
  destruct (Z.eqb_spec x (chr "|")) as [->|N9]; [reflexivity|].
  apply Z.eqb_neq in N1, N2, N3, N4, N5, N6, N7, N8, N9.
  repeat (progress (cbv beta iota;
                    rewrite ?N1, ?N2, ?N3, ?N4, ?N5, ?N6, ?N7, ?N8, ?N9)).
  reflexivity.
Qed.

Lemma sanitize_safe (c : char) :
  existsb (Z.eqb (sanitize c)) unsafe_chars = false.
Proof.
  unfold sanitize. destruct (existsb (Z.eqb c) unsafe_chars) eqn:E;
    [reflexivity|exact E].
Qed.

Lemma sanitize_fixed (c : char) :
  existsb (Z.eqb c) unsafe_chars = false -> sanitize c = c.
Proof. intro H. unfold sanitize. rewrite H. reflexivity. Qed.

Lemma map_sanitize_fixed (s : str) :
  forallb (fun c => negb (existsb (Z.eqb c) unsafe_chars)) s = true ->
  map sanitize s = s.
Proof.
  induction s as [|c s IH]; [reflexivity|].
  cbn [forallb map]. intro H. apply andb_true_iff in H as [Hc Hs].
  apply negb_true_iff in Hc. rewrite (sanitize_fixed c Hc), (IH Hs).
  reflexivity.
Qed.

Lemma forallb_firstn {A : Type} (p : A -> bool) (n : nat) (l : list A) :
  forallb p l = true -> forallb p (firstn n l) = true.
Proof.
  revert n. induction l as [|a l IH]; intros [|n] H; try reflexivity.
  cbn [forallb firstn] in *. apply andb_true_iff in H as [Ha Hl].
  rewrite Ha, (IH n Hl). reflexivity.
Qed.

Lemma safe_filename_facts (s : str) :
  (length (safe_filename s) <= 50)%nat /\
  safe_filename s <> [] /\
  forallb (fun c => negb (existsb (Z.eqb c) unsafe_chars)) (safe_filename s)
  = true.
Proof.
  destruct s as [|c s].
  - split; [vm_compute; lia|]. split; [discriminate|reflexivity].
  - rewrite safe_filename_map. split; [apply firstn_le_length|].
    split; [discriminate|].
    apply forallb_firstn, forallb_forall. intros x Hx.
    apply in_map_iff in Hx as [y [<- _]]. rewrite sanitize_safe. reflexivity.
Qed.

(** X21. A file name made by [safe_filename] is never empty, has at most
    50 characters and holds none of the nine characters of the list, the
    slash among them. *)
Theorem safe_filename_safe (s : str) :
  (1 <= length (safe_filename s) <= 50)%nat /\
  forallb (fun c => negb (existsb (Z.eqb c) unsafe_chars)) (safe_filename s)
  = true.
Proof.
  destruct (safe_filename_facts s) as [H1 [H2 H3]].
  split; [|exact H3]. split; [|exact H1].
  destruct (safe_filename s); [congruence|cbn [length]; lia].
Qed.

Lemma safe_filename_unchanged (s : str) :
  s <> [] -> (length s <= 50)%nat ->
  forallb (fun c => negb (existsb (Z.eqb c) unsafe_chars)) s = true ->
  safe_filename s = s.
Proof.
  intros Hn Hl Hs. destruct s as [|c s]; [congruence|].
  rewrite safe_filename_map, (map_sanitize_fixed _ Hs).
  apply firstn_all2. exact Hl.
Qed.

(** X22. [safe_filename] changes nothing in a name that is not empty, has
    at most 50 characters and none of the nine characters; in particular
    it changes nothing in a name it has made. *)
Theorem safe_filename_idempotent (s : str) :
  (s <> [] -> (length s <= 50)%nat ->
   forallb (fun c => negb (existsb (Z.eqb c) unsafe_chars)) s = true ->
   safe_filename s = s) /\
  safe_filename (safe_filename s) = safe_filename s.
Proof.
  split; [apply safe_filename_unchanged|].
  destruct (safe_filename_facts s) as [H1 [H2 H3]].
  apply safe_filename_unchanged; assumption.
Qed.

Lemma path_join_in (path name : str) :
  startswith (py "/") name = false ->
  is_empty path || endswith (py "/") path = false ->
  path_join path [name] = path ++ py "/" ++ name.
Proof. intros H1 H2. cbn [path_join]. rewrite H1, H2. reflexivity. Qed.

Lemma safe_filename_no_slash (s ext : str) :
  startswith (py "/") (safe_filename s ++ ext) = false /\
  ~ In (chr "/") (safe_filename s).
Proof.
  destruct (safe_filename_facts s) as [_ [H2 H3]]. split.
  - destruct (safe_filename s) as [|c r]; [congruence|].
    cbn [forallb] in H3. apply andb_true_iff in H3 as [Hc _].
    apply negb_true_iff in Hc. unfold unsafe_chars in Hc. cbn [existsb] in Hc.
    apply orb_false_iff in Hc as [Hc _].
    unfold startswith. change (py "/") with [chr "/"].
    cbn [app prefixb]. rewrite Z.eqb_sym, Hc. reflexivity.
  - intro I. rewrite forallb_forall in H3. specialize (H3 _ I).
    discriminate.
Qed.

Lemma output_path (s : str) :
  markdown_path s = py "output/cn/manual/" ++ safe_filename s ++ py ".md" /\
  json_path s = py "output/cn/prompt/" ++ safe_filename s ++ py ".json".
Proof.
  unfold markdown_path, json_path. split.
  - change (path_join OUTPUT_DIR
              [LANGUAGE ++ py "/manual"; safe_filename s ++ py ".md"])
      with (path_join (py "output/cn/manual") [safe_filename s ++ py ".md"]).
    rewrite path_join_in;
      [reflexivity|apply safe_filename_no_slash|reflexivity].
  - change (path_join OUTPUT_DIR
              [LANGUAGE ++ py "/prompt"; safe_filename s ++ py ".json"])
      with (path_join (py "output/cn/prompt") [safe_filename s ++ py ".json"]).
    rewrite path_join_in;
      [reflexivity|apply safe_filename_no_slash|reflexivity].
Qed.

(** X23. The two files of a record are written directly into the two
    output directories: the paths are [output/cn/manual/] and
    [output/cn/prompt/] followed by the safe name and the extension, and
    the safe name holds no slash, so the file name is a single component
    of the path. *)
Theorem output_paths (idx : str) :
  markdown_path idx
  = py "output/cn/manual/" ++ safe_filename idx ++ py ".md" /\
  json_path idx
  = py "output/cn/prompt/" ++ safe_filename idx ++ py ".json" /\
  ~ In (chr "/") (safe_filename idx).
Proof.
  destruct (output_path idx) as [H1 H2].
  split; [exact H1|]. split; [exact H2|].
  apply (safe_filename_no_slash idx []).
Qed.

(** X24. Two records are written to the same files exactly when their
    (non-empty) identifiers agree on the first 50 characters once each of
    the nine characters is read as an underscore: what differs after the
    50th character, or only in those characters, is lost, and the later
    record overwrites the earlier. *)
Theorem same_output_files (idx1 idx2 : str) :
  idx1 <> [] -> idx2 <> [] ->
  (markdown_path idx1 = markdown_path idx2 <->
   firstn 50 (map sanitize idx1) = firstn 50 (map sanitize idx2)) /\
  (json_path idx1 = json_path idx2 <->
   firstn 50 (map sanitize idx1) = firstn 50 (map sanitize idx2)).
Proof.
  intros H1 H2.
  destruct idx1 as [|c1 s1]; [congruence|].
  destruct idx2 as [|c2 s2]; [congruence|].
  destruct (output_path (c1 :: s1)) as [M1 J1].
  destruct (output_path (c2 :: s2)) as [M2 J2].
  rewrite M1, M2, J1, J2, !safe_filename_map.
  split; split; intro H.
  - apply app_inv_head in H. apply app_inv_tail in H. exact H.
  - rewrite H. reflexivity.
  - apply app_inv_head in H. apply app_inv_tail in H. exact H.
  - rewrite H. reflexivity.
Qed.

End Repair.

(** * Concrete runs

    The runs use the table [no_entry]; the texts are ASCII apart from the
    full-width punctuation, which step 2 replaces before any class of
    non-ASCII characters is consulted. *)

(** The claim C1 as stated, at [fullwidth_doc]: the document is valid JSON
    and its value satisfies the schema, yet the function does not return
    that value. *)
Lemma C1_counterexample :
  ~ (forall v, json_loads fullwidth_doc = inr v ->
               satisfies_schema v = true ->
               outcome (process_json_string no_entry no_entry fullwidth_doc) = inr v).
Proof.
  intro H.
  destruct (valid_documents_rewritten no_entry no_entry) as [J [P _]].
  specialize (H _ J eq_refl). rewrite P in H. vm_compute in H. discriminate H.
Qed.

Lemma C1_witness :
  json_loads sample_doc = inr sample_value /\
  satisfies_schema sample_value = true /\
  fix_str_of no_entry no_entry sample_doc = TextNormalizer sample_doc /\
  process_json_string no_entry no_entry sample_doc = (all_steps, inr sample_value).
Proof.
  assert (H1 : json_loads sample_doc = inr sample_value)
    by (vm_compute; reflexivity).
  assert (H2 : satisfies_schema sample_value = true)
    by (vm_compute; reflexivity).
  assert (H3 : fix_str_of no_entry no_entry sample_doc
               = TextNormalizer sample_doc) by (vm_compute; reflexivity).
  split; [exact H1|]. split; [exact H2|]. split; [exact H3|].
  exact (proj2 (proj2 (C1_valid_json_unrepaired no_entry no_entry
                         sample_doc sample_value H1 H2 H3))).
Defined.

(** The claim C2 as stated, at [untyped_doc]: the function returns, and
    the result does not have the required shape. *)
Lemma C2_counterexample :
  ~ (forall v, outcome (process_json_string no_entry no_entry untyped_doc) = inr v ->
               satisfies_schema v = true).
Proof.
  intro H.
  pose proof (untyped_document_accepted no_entry no_entry) as P.
  specialize (H _ (f_equal snd P)). vm_compute in H. discriminate H.
Qed.

Lemma C2_witness :
  outcome (process_json_string no_entry no_entry untyped_doc)
  = inr (PyDict [(py "generation_prompt", PyInt 1);
                 (py "evaluation_rubic", PyList (map PyStr rubic_fields));
                 (py "manual", PyNone)]) /\
  exists (items : list (str * value)) (rubic_data : value),
    PyDict [(py "generation_prompt", PyInt 1);
            (py "evaluation_rubic", PyList (map PyStr rubic_fields));
            (py "manual", PyNone)] = PyDict items /\
    has_key items (py "generation_prompt") = true /\
    has_key items (py "manual") = true /\
    dict_lookup items (py "evaluation_rubic") = Some rubic_data /\
    is_container rubic_data = true /\
    forall f, In f rubic_fields -> holds rubic_data f = true.
Proof.
  assert (H : outcome (process_json_string no_entry no_entry untyped_doc)
              = inr (PyDict [(py "generation_prompt", PyInt 1);
                             (py "evaluation_rubic",
                              PyList (map PyStr rubic_fields));
                             (py "manual", PyNone)]))
    by (vm_compute; reflexivity).
  split; [exact H|].
  exact (C2_result_has_required_keys no_entry no_entry untyped_doc _ H).
Defined.

(** The claim C3 as stated, at [string_rubric_doc]: the three keys are
    present and none of the five sub-keys is a key of the rubric, which is
    a string, yet the function raises no error: each name is found in the
    string, and the document is returned. *)
Lemma C3_counterexample :
  ~ (forall (items : list (str * value)) (rubic_data : value),
       json_loads (fix_str_of no_entry no_entry string_rubric_doc)
       = inr (PyDict items) ->
       (forall f, In f required_fields -> has_key items f = true) ->
       dict_lookup items (py "evaluation_rubic") = Some rubic_data ->
       let absent_sub :=
         filter (fun f => negb (has_sub_key rubic_data f)) rubic_fields in
       absent_sub <> [] ->
       outcome (process_json_string no_entry no_entry string_rubric_doc)
       = inl (MissingRubricFieldError absent_sub)).
Proof.
  intro H.
  specialize (H [(py "generation_prompt", PyStr (py "g"));
                 (py "evaluation_rubic",
                  PyStr (py "pc_rubic cmp_rubic slr_rubic clr_rubic ri_rubic"));
                 (py "manual", PyStr (py "m"))]
                (PyStr (py "pc_rubic cmp_rubic slr_rubic clr_rubic ri_rubic"))).
  assert (Hj : json_loads (fix_str_of no_entry no_entry string_rubric_doc)
               = inr (PyDict
                        [(py "generation_prompt", PyStr (py "g"));
                         (py "evaluation_rubic",
                          PyStr (py "pc_rubic cmp_rubic slr_rubic clr_rubic ri_rubic"));
                         (py "manual", PyStr (py "m"))]))
    by (vm_compute; reflexivity).
  specialize (H Hj).
  assert (Hk : forall f, In f required_fields ->
                 has_key [(py "generation_prompt", PyStr (py "g"));
                          (py "evaluation_rubic",
                           PyStr (py "pc_rubic cmp_rubic slr_rubic clr_rubic ri_rubic"));
                          (py "manual", PyStr (py "m"))] f = true).
  { intros f Hf. unfold required_fields in Hf. cbn [In] in Hf.
    destruct Hf as [<-|[<-|[<-|[]]]]; vm_compute; reflexivity. }
  assert (Hr : dict_lookup
                 [(py "generation_prompt", PyStr (py "g"));
                  (py "evaluation_rubic",
                   PyStr (py "pc_rubic cmp_rubic slr_rubic clr_rubic ri_rubic"));
                  (py "manual", PyStr (py "m"))] (py "evaluation_rubic")
               = Some (PyStr (py "pc_rubic cmp_rubic slr_rubic clr_rubic ri_rubic")))
    by (vm_compute; reflexivity).
  specialize (H Hk Hr). cbv zeta in H.
  assert (Hs : filter
                 (fun f => negb (has_sub_key
                                   (PyStr (py "pc_rubic cmp_rubic slr_rubic clr_rubic ri_rubic"))
                                   f)) rubic_fields <> [])
    by (vm_compute; discriminate).
  specialize (H Hs). vm_compute in H. discriminate H.
Qed.

Lemma C3_witness :
  (TextNormalizer missing_top_doc <> [] /\
   json_loads (fix_str_of no_entry no_entry missing_top_doc)
   = inr (PyDict [(py "generation_prompt", PyStr (py "g"))]) /\
   process_json_string no_entry no_entry missing_top_doc
   = (all_steps,
      inl (ValueError
             (py "解析后的JSON缺失关键字段：['evaluation_rubic', 'manual']")))) /\
  (TextNormalizer missing_sub_doc <> [] /\
   json_loads (fix_str_of no_entry no_entry missing_sub_doc)
   = inr (PyDict [(py "generation_prompt", PyStr (py "g"));
                  (py "evaluation_rubic",
                   PyDict [(py "pc_rubic", PyStr (py "p"))]);
                  (py "manual", PyStr (py "m"))]) /\
   process_json_string no_entry no_entry missing_sub_doc
   = (all_steps,
      inl (ValueError
             (py "evaluation_rubic缺失子字段：['cmp_rubic', 'slr_rubic', 'clr_rubic', 'ri_rubic']")))).
Proof.
  split.
  - assert (Hn : TextNormalizer missing_top_doc <> [])
      by (vm_compute; discriminate).
    assert (Hj : json_loads (fix_str_of no_entry no_entry missing_top_doc)
                 = inr (PyDict [(py "generation_prompt", PyStr (py "g"))]))
      by (vm_compute; reflexivity).
    split; [exact Hn|]. split; [exact Hj|].
    refine (eq_trans
              (proj1 (C3_missing_keys no_entry no_entry missing_top_doc _
                        Hn Hj) _) _).
    + vm_compute. discriminate.
    + vm_compute. reflexivity.
  - assert (Hn : TextNormalizer missing_sub_doc <> [])
      by (vm_compute; discriminate).
    assert (Hj : json_loads (fix_str_of no_entry no_entry missing_sub_doc)
                 = inr (PyDict [(py "generation_prompt", PyStr (py "g"));
                                (py "evaluation_rubic",
                                 PyDict [(py "pc_rubic", PyStr (py "p"))]);
                                (py "manual", PyStr (py "m"))]))
      by (vm_compute; reflexivity).
    split; [exact Hn|]. split; [exact Hj|].
    refine (eq_trans
              (proj1 (proj2 (C3_missing_keys no_entry no_entry missing_sub_doc
                               _ Hn Hj) _)
                 [(py "pc_rubic", PyStr (py "p"))] _ _) _).
    + vm_compute. reflexivity.
    + vm_compute. reflexivity.
    + vm_compute. discriminate.
    + vm_compute. reflexivity.
Defined.



Lemma C5_witness :
  forallb Py_UNICODE_ISSPACE (unwrap_quotes (strip (jq "  ` `  "))) = true /\
  TextNormalizer (jq "  ` `  ") = [] /\
  process_json_string no_entry no_entry (jq "  ` `  ")
  = ([Step1_clean], inl EmptyInputError).
Proof.
  assert (H : forallb Py_UNICODE_ISSPACE (unwrap_quotes (strip (jq "  ` `  ")))
              = true) by (vm_compute; reflexivity).
  split; [exact H|].
  exact (C5_empty_input no_entry no_entry (jq "  ` `  ") H).
Defined.

Lemma C6_witness :
  ~ (startswith [dquote] (TextNormalizer (jq " `{`a`:1}` ")) = true /\
     endswith [dquote] (TextNormalizer (jq " `{`a`:1}` ")) = true) /\
  TextNormalizer (TextNormalizer (jq " `{`a`:1}` "))
  = TextNormalizer (jq " `{`a`:1}` ").
Proof.
  assert (H : ~ (startswith [dquote] (TextNormalizer (jq " `{`a`:1}` ")) = true /\
                 endswith [dquote] (TextNormalizer (jq " `{`a`:1}` ")) = true)).
  { vm_compute. intros [H _]. discriminate H. }
  split; [exact H|].
  exact (C6_normalizer_idempotent (jq " `{`a`:1}` ") H).
Defined.

Lemma C8_witness :
  substringb (py "\\n") (py "{k：1，m：[2]}") = false /\
  substringb (py "\\t") (py "{k：1，m：[2]}") = false /\
  has_backslash_digit no_entry (py "{k：1，m：[2]}") = false /\
  forallb (fun c => negb (other_table_char c)) (py "{k：1，m：[2]}") = true /\
  EscapeRepairer no_entry no_entry (py "{k：1，m：[2]}") = py "{k:1,m:[2]}".
Proof.
  assert (H1 : substringb (py "\\n") (py "{k：1，m：[2]}") = false)
    by (vm_compute; reflexivity).
  assert (H2 : substringb (py "\\t") (py "{k：1，m：[2]}") = false)
    by (vm_compute; reflexivity).
  assert (H3 : has_backslash_digit no_entry (py "{k：1，m：[2]}") = false)
    by (vm_compute; reflexivity).
  assert (H4 : forallb (fun c => negb (other_table_char c)) (py "{k：1，m：[2]}")
               = true) by (vm_compute; reflexivity).
  split; [exact H1|]. split; [exact H2|]. split; [exact H3|].
  split; [exact H4|].
  rewrite (proj1 (C8_fullwidth_colon_comma no_entry no_entry
                    (py "{k：1，m：[2]}") H1 H2 H3 H4)).
  vm_compute. reflexivity.
Defined.

Lemma C9_witness :
  strip (jq "  `  ") = [dquote] /\
  process_json_string no_entry no_entry (jq "  `  ")
  = ([Step1_clean], inl EmptyInputError).
Proof.
  assert (H : strip (jq "  `  ") = [dquote]) by (vm_compute; reflexivity).
  split; [exact H|].
  exact (proj2 (proj2 (proj2 (C9_lone_quote_is_empty no_entry no_entry
                                (jq "  `  ") H)))).
Defined.

Lemma C10_witness :
  json_loads (fix_str_of no_entry no_entry number_rubric_doc)
  = inr (PyDict [(py "generation_prompt", PyStr (py "g"));
                 (py "evaluation_rubic", PyInt 1);
                 (py "manual", PyStr (py "m"))]) /\
  process_json_string no_entry no_entry number_rubric_doc
  = (all_steps,
     inl (TypeError (py "argument of type 'int' is not iterable"))).
Proof.
  assert (Hn : TextNormalizer number_rubric_doc <> [])
    by (vm_compute; discriminate).
  assert (Hj : json_loads (fix_str_of no_entry no_entry number_rubric_doc)
               = inr (PyDict [(py "generation_prompt", PyStr (py "g"));
                              (py "evaluation_rubic", PyInt 1);
                              (py "manual", PyStr (py "m"))]))
    by (vm_compute; reflexivity).
  split; [exact Hj|].
  refine (proj1 (C10_rubric_not_a_container no_entry no_entry
                   number_rubric_doc _ (PyInt 1) Hn Hj _ _ _)).
  - intros f [<-|[<-|[<-|[]]]]; vm_compute; reflexivity.
  - vm_compute. reflexivity.
  - reflexivity.
Defined.

(** * Concrete runs of the further properties *)

Ltac absent :=
  let H := fresh in
  intro H; vm_compute in H;
  repeat (destruct H as [H|H]; [discriminate H|]); exact H.

Ltac present := vm_compute; repeat (first [left; reflexivity | right]).

Lemma process_json_string_surrounding_space_witness :
  forallb Py_UNICODE_ISSPACE (py "  ") = true /\
  forallb Py_UNICODE_ISSPACE [newline] = true /\
  process_json_string no_entry no_entry (py "  " ++ sample_doc ++ [newline])
  = process_json_string no_entry no_entry sample_doc.
Proof.
  split; [reflexivity|]. split; [reflexivity|].
  apply (process_json_string_surrounding_space no_entry no_entry);
    reflexivity.
Defined.

Lemma process_json_string_quoted_witness :
  ~ (startswith [dquote] (strip sample_doc) = true /\
     endswith [dquote] (strip sample_doc) = true) /\
  process_json_string no_entry no_entry ([dquote] ++ sample_doc ++ [dquote])
  = process_json_string no_entry no_entry sample_doc.
Proof.
  assert (H : ~ (startswith [dquote] (strip sample_doc) = true /\
                 endswith [dquote] (strip sample_doc) = true)).
  { intros [H _]. vm_compute in H. discriminate H. }
  split; [exact H|].
  exact (proj2 (process_json_string_quoted no_entry no_entry sample_doc) H).
Defined.

Lemma escaped_document_rejected_witness :
  TextNormalizer test_json_str
  = chr "{" :: backslash :: skipn 2 (TextNormalizer test_json_str) /\
  json_loads (fix_str_of no_entry no_entry test_json_str)
  = inl (Expecting_property_name, 1) /\
  exists e : JSONDecodeError_obj,
    process_json_string no_entry no_entry test_json_str =
    ([Step1_clean; Step2_escapes; Step3_format; Step4_parse],
     inl (JSONDecodeError e)) /\
    e_pos e = 1 /\ e_lineno e = 1 /\ e_colno e = 2.
Proof.
  assert (E : test_json_str
              = [dquote] ++ removelast (tl test_json_str) ++ [dquote])
    by (vm_compute; reflexivity).
  assert (N : TextNormalizer test_json_str = removelast (tl test_json_str)).
  { rewrite E at 1. rewrite TextNormalizer_quoted.
    apply strip_trimmed_fixed.
    split; apply lstrip_fixed; vm_compute; reflexivity. }
  assert (H : TextNormalizer test_json_str
              = chr "{" :: backslash :: skipn 2 (TextNormalizer test_json_str)).
  { rewrite N. vm_compute. reflexivity. }
  split; [exact H|].
  exact (escaped_document_rejected no_entry no_entry test_json_str _ H).
Defined.

Lemma process_json_string_returns_iff_witness :
  outcome (process_json_string no_entry no_entry sample_doc)
  = inr sample_value /\
  TextNormalizer sample_doc <> [] /\
  json_loads (fix_str_of no_entry no_entry sample_doc) = inr sample_value /\
  exists (items : list (str * value)) (rubic_data : value),
    sample_value = PyDict items /\
    (forall f, In f required_fields -> has_key items f = true) /\
    dict_lookup items (py "evaluation_rubic") = Some rubic_data /\
    is_container rubic_data = true /\
    (forall f, In f rubic_fields -> holds rubic_data f = true).
Proof.
  assert (H : outcome (process_json_string no_entry no_entry sample_doc)
              = inr sample_value) by (vm_compute; reflexivity).
  split; [exact H|].
  exact (proj1 (process_json_string_returns_iff no_entry no_entry
                  sample_doc sample_value) H).
Defined.

Lemma process_json_string_not_object_witness :
  TextNormalizer (py "[1]") <> [] /\
  json_loads (fix_str_of no_entry no_entry (py "[1]"))
  = inr (PyList [PyInt 1]) /\
  (forall items, PyList [PyInt 1] <> PyDict items) /\
  process_json_string no_entry no_entry (py "[1]")
  = (all_steps, inl (MissingFieldError required_fields)).
Proof.
  assert (Hn : TextNormalizer (py "[1]") <> []) by (vm_compute; discriminate).
  assert (Hj : json_loads (fix_str_of no_entry no_entry (py "[1]"))
               = inr (PyList [PyInt 1])) by (vm_compute; reflexivity).
  assert (Hv : forall items, PyList [PyInt 1] <> PyDict items)
    by (intros items; discriminate).
  split; [exact Hn|]. split; [exact Hj|]. split; [exact Hv|].
  refine (eq_trans (process_json_string_not_object no_entry no_entry
                      (py "[1]") _ Hn Hj Hv) _).
  vm_compute. reflexivity.
Defined.

Lemma chat_gpt_first_success_witness :
  (2 < API_RETRY_TIMES)%nat /\
  (forall j, (j < 2)%nat -> exists e, third_time_api j = inl e) /\
  third_time_api 2 = inr (Some (py "ok")) /\
  snd (chat_gpt third_time_api) = inr (Some (py "ok")) /\
  requests (fst (chat_gpt third_time_api)) = 3%nat /\
  slept (fst (chat_gpt third_time_api)) = 6.
Proof.
  assert (H1 : (2 < API_RETRY_TIMES)%nat) by (unfold API_RETRY_TIMES; lia).
  assert (H2 : forall j, (j < 2)%nat -> exists e, third_time_api j = inl e).
  { intros j Hj. destruct j as [|[|j]]; [eexists; reflexivity ..|lia]. }
  assert (H3 : third_time_api 2 = inr (Some (py "ok"))) by reflexivity.
  split; [exact H1|]. split; [exact H2|]. split; [exact H3|].
  destruct (chat_gpt_first_success third_time_api _ 2 H1 H2 H3)
    as [A [B [C _]]].
  split; [exact A|]. split; [exact B|]. exact C.
Defined.

Lemma chat_gpt_gives_up_witness :
  (forall j, (j < API_RETRY_TIMES)%nat -> exists e, failing_api j = inl e) /\
  snd (chat_gpt failing_api)
  = inl (Exception (py "API 调用失败，已重试 3 次")) /\
  requests (fst (chat_gpt failing_api)) = 3%nat /\
  slept (fst (chat_gpt failing_api)) = 12 /\
  last (fst (chat_gpt failing_api)) (Request 0) = Sleep 6.
Proof.
  assert (H : forall j, (j < API_RETRY_TIMES)%nat ->
                        exists e, failing_api j = inl e).
  { intros j _. eexists. reflexivity. }
  split; [exact H|].
  destruct (chat_gpt_gives_up API_RETRY_TIMES API_DELAY failing_api H)
    as [A [B [C D]]].
  fold (chat_gpt failing_api) in A, B, C, D.
  split; [refine (eq_trans A _); vm_compute; reflexivity|].
  split; [exact B|].
  split; [unfold API_DELAY, API_RETRY_TIMES in C; lia|].
  refine (eq_trans (D _) _); [unfold API_RETRY_TIMES; lia|reflexivity].
Defined.

Lemma get_complete_prompt_clean_witness :
  get_complete_prompt sample_template (py "化学") (py "无机化学") (py "制氢")
  = inr (py "学科：化学，无机化学" ++ [newline] ++ py "实验：制氢") /\
  clean_lines (py "学科：化学，无机化学" ++ [newline] ++ py "实验：制氢")
  = py "学科：化学，无机化学" ++ [newline] ++ py "实验：制氢" /\
  join [newline]
    (splitlines (py "学科：化学，无机化学" ++ [newline] ++ py "实验：制氢"))
  = py "学科：化学，无机化学" ++ [newline] ++ py "实验：制氢" /\
  Forall (fun l => l <> [] /\ strip l = l)
    (splitlines (py "学科：化学，无机化学" ++ [newline] ++ py "实验：制氢")).
Proof.
  assert (H : get_complete_prompt sample_template (py "化学") (py "无机化学")
                (py "制氢")
              = inr (py "学科：化学，无机化学" ++ [newline] ++ py "实验：制氢"))
    by (vm_compute; reflexivity).
  split; [exact H|].
  exact (get_complete_prompt_clean LANGUAGE sample_template _ _ _ _ H).
Defined.

Lemma get_complete_prompt_raises_iff_witness :
  get_complete_prompt_in (py "fr") sample_template [] (py "无机化学")
    (py "制氢")
  = inl (ValueError (py "学科、子学科、实验名称均不能为空")).
Proof.
  exact (proj2 (get_complete_prompt_raises_iff sample_template []
                  (py "无机化学") (py "制氢"))
           (or_introl eq_refl) (py "fr")).
Defined.

Lemma parse_gpt_response_no_braces_witness :
  (~ In (chr "{") (py "ok}") \/ ~ In (chr "}") (py "ok}")) /\
  parse_gpt_response (py "ok}")
  = inl (Exception (py "JSON格式校验失败：未找到有效的JSON格式内容")).
Proof.
  assert (H : ~ In (chr "{") (py "ok}") \/ ~ In (chr "}") (py "ok}"))
    by (left; absent).
  split; [exact H|].
  exact (proj2 (parse_gpt_response_no_braces (py "ok}")) H).
Defined.

Lemma parse_gpt_response_surrounding_text_witness :
  ~ In (chr "{") (py "Sure: ") /\ ~ In (chr "}") (py " ok") /\
  parse_gpt_response_try
    (py "Sure: " ++ (chr "{" :: jq "`a`:1" ++ [chr "}"]) ++ py " ok")
  = parse_gpt_response_try (chr "{" :: jq "`a`:1" ++ [chr "}"]).
Proof.
  assert (H1 : ~ In (chr "{") (py "Sure: ")) by absent.
  assert (H2 : ~ In (chr "}") (py " ok")) by absent.
  split; [exact H1|]. split; [exact H2|].
  exact (proj1 (proj2 (parse_gpt_response_surrounding_text
                         (py "Sure: ") (jq "`a`:1") (py " ok") H1 H2))).
Defined.

Lemma parse_gpt_response_returns_iff_witness :
  parse_gpt_response sample_reply = inr sample_value /\
  In (chr "{") sample_reply /\ In (chr "}") sample_reply /\
  json_loads (extract_json sample_reply) = inr sample_value /\
  exists (items : list (str * value)) (rubic_data : value),
    sample_value = PyDict items /\
    (forall f, In f required_fields -> has_key items f = true) /\
    dict_lookup items (py "evaluation_rubic") = Some rubic_data /\
    is_container rubic_data = true /\
    (forall f, In f rubic_fields -> holds rubic_data f = true).
Proof.
  assert (H : parse_gpt_response sample_reply = inr sample_value)
    by (vm_compute; reflexivity).
  split; [exact H|].
  exact (proj1 (parse_gpt_response_returns_iff sample_reply sample_value) H).
Defined.

Lemma validators_agree_witness :
  outcome (SchemaValidator sample_value) = inr sample_value /\
  check_fields required_fields sample_value = inr tt /\
  check_rubic_fields rubic_fields sample_value = inr tt.
Proof.
  assert (H : outcome (SchemaValidator sample_value) = inr sample_value)
    by (vm_compute; reflexivity).
  split; [exact H|].
  exact (proj1 (validators_agree sample_value) H).
Defined.

Lemma parse_gpt_response_first_missing_witness :
  In (chr "{") missing_top_doc /\ In (chr "}") missing_top_doc /\
  json_loads (extract_json missing_top_doc)
  = inr (PyDict [(py "generation_prompt", PyStr (py "g"))]) /\
  parse_gpt_response missing_top_doc
  = inl (Exception (py "JSON格式校验失败：缺少必要字段：evaluation_rubic")).
Proof.
  assert (I1 : In (chr "{") missing_top_doc) by present.
  assert (I2 : In (chr "}") missing_top_doc) by present.
  assert (Hj : json_loads (extract_json missing_top_doc)
               = inr (PyDict [(py "generation_prompt", PyStr (py "g"))]))
    by (vm_compute; reflexivity).
  split; [exact I1|]. split; [exact I2|]. split; [exact Hj|].
  refine (eq_trans
            (proj1 (parse_gpt_response_first_missing missing_top_doc _
                      I1 I2 Hj)
               (py "evaluation_rubic") [py "manual"] _) _).
  - vm_compute. reflexivity.
  - vm_compute. reflexivity.
Defined.

Lemma parse_gpt_response_rubric_not_a_container_witness :
  In (chr "{") number_rubric_doc /\ In (chr "}") number_rubric_doc /\
  json_loads (extract_json number_rubric_doc)
  = inr (PyDict [(py "generation_prompt", PyStr (py "g"));
                 (py "evaluation_rubic", PyInt 1);
                 (py "manual", PyStr (py "m"))]) /\
  parse_gpt_response number_rubric_doc
  = inl (Exception
           (py "解析GPT响应失败：argument of type 'int' is not iterable")).
Proof.
  assert (I1 : In (chr "{") number_rubric_doc) by present.
  assert (I2 : In (chr "}") number_rubric_doc) by present.
  assert (Hj : json_loads (extract_json number_rubric_doc)
               = inr (PyDict [(py "generation_prompt", PyStr (py "g"));
                              (py "evaluation_rubic", PyInt 1);
                              (py "manual", PyStr (py "m"))]))
    by (vm_compute; reflexivity).
  split; [exact I1|]. split; [exact I2|]. split; [exact Hj|].
  refine (eq_trans
            (parse_gpt_response_rubric_not_a_container number_rubric_doc
               _ (PyInt 1) I1 I2 Hj _ _ _) _).
  - intros f Hf. unfold required_fields in Hf. cbn [In] in Hf.
    destruct Hf as [<-|[<-|[<-|[]]]]; reflexivity.
  - reflexivity.
  - reflexivity.
  - vm_compute. reflexivity.
Defined.


Lemma parse_gpt_response_decodes_object_witness :
  In (chr "{") sample_reply /\
  json_loads (extract_json sample_reply) = inr sample_value /\
  exists items, sample_value = PyDict items.
Proof.
  assert (I : In (chr "{") sample_reply) by present.
  assert (Hj : json_loads (extract_json sample_reply) = inr sample_value)
    by (vm_compute; reflexivity).
  split; [exact I|]. split; [exact Hj|].
  exact (parse_gpt_response_decodes_object sample_reply sample_value I Hj).
Defined.

Lemma safe_filename_idempotent_witness :
  py "3-化学-制氢" <> [] /\
  (length (py "3-化学-制氢") <= 50)%nat /\
  forallb (fun c => negb (existsb (Z.eqb c) unsafe_chars)) (py "3-化学-制氢")
  = true /\
  safe_filename (py "3-化学-制氢") = py "3-化学-制氢".
Proof.
  assert (H1 : py "3-化学-制氢" <> []) by (vm_compute; discriminate).
  assert (H2 : (length (py "3-化学-制氢") <= 50)%nat) by (vm_compute; lia).
  assert (H3 : forallb (fun c => negb (existsb (Z.eqb c) unsafe_chars))
                 (py "3-化学-制氢") = true) by (vm_compute; reflexivity).
  split; [exact H1|]. split; [exact H2|]. split; [exact H3|].
  exact (proj1 (safe_filename_idempotent (py "3-化学-制氢")) H1 H2 H3).
Defined.

Lemma same_output_files_witness :
  py "3-化学-H2/O2" <> [] /\ py "3-化学-H2:O2" <> [] /\
  firstn 50 (map sanitize (py "3-化学-H2/O2"))
  = firstn 50 (map sanitize (py "3-化学-H2:O2")) /\
  markdown_path (py "3-化学-H2/O2") = markdown_path (py "3-化学-H2:O2").
Proof.
  assert (H1 : py "3-化学-H2/O2" <> []) by (vm_compute; discriminate).
  assert (H2 : py "3-化学-H2:O2" <> []) by (vm_compute; discriminate).
  assert (H3 : firstn 50 (map sanitize (py "3-化学-H2/O2"))
               = firstn 50 (map sanitize (py "3-化学-H2:O2")))
    by (vm_compute; reflexivity).
  split; [exact H1|]. split; [exact H2|]. split; [exact H3|].
  exact (proj2 (proj1 (same_output_files _ _ H1 H2)) H3).
Defined.
